(** * A fixed-timestep arcade shooter: bodies, registry, collision, spawner, loop

    Shallow embedding of [space_shooter.js] (the full game: boss waves,
    automatic restart on death) and, in [Module Base], of the smaller variant
    of the same game (no boss, restart gated by the action key).

    Conventions of the embedding.
    - A JavaScript [Number] is the rational it denotes ([Q]); counters that
      the program only ever increments from zero are [nat]; the result of
      [Math.floor] is a [Z].  The arithmetic of the clock, that is [1 / fps]
      and every operation of [loop], rounds to the nearest binary64 number
      as the script's does ([double]): the number of ticks depends on it.
      The arithmetic on positions, health and the timers of the bodies is
      exact.  [NaN], the infinities and overflow are outside the model.
    - Objects are mutated through references, so bodies live in a [heap]
      (a list indexed by reference) and the registry [entities], a sparse
      JavaScript array indexed by body id, holds references.
    - The globals of the script are the fields of [World]; every function of
      the script is a [World] transformer.
    - [Math.random] and [Math.cos] belong to the host: the n-th call of
      [Math.random] returns [random_source n], and [Math.cos(Math.PI/4)] is
      the constant [Math_cos_PI_4] of the world.
    - The key listeners of the window are those of the input handlers of
      the players constructed so far, none of which is ever removed. *)

From Stdlib Require Import QArith Qround Qabs Qpower Lqa ZArith Lia Bool SpecFloat.
From stdpp Require Import base list.

Open Scope Q_scope.

(** ** Numbers *)

(** JavaScript [a < b] on numbers. *)
Definition Qlt_bool (a b : Q) : bool :=
  match a ?= b with Lt => true | _ => false end.

(** [Math.min] and [Math.max]. *)
Definition Math_min (a b : Q) : Q := if Qle_bool a b then a else b.
Definition Math_max (a b : Q) : Q := if Qle_bool a b then b else a.

(** *** Binary64

    The result of an arithmetic operation on doubles is the exact result
    rounded to the nearest double, ties to the even significand.  A double
    has 53 significant bits, and is a multiple of [2 ^ -1074]. *)

(** The [l] with [2 ^ l <= q < 2 ^ (l + 1)], for [q] positive. *)
Definition Qlog2 (q : Q) : Z :=
  let l := (Z.log2 (Qnum q) - Z.log2 (Z.pos (Qden q)))%Z in
  if Qle_bool (2 ^ l) q then l else (l - 1)%Z.

(** The nearest integer, ties to even. *)
Definition round_half_even (q : Q) : Z :=
  let f := Qfloor q in
  match (q - inject_Z f ?= 1 / 2)%Q with
  | Lt => f
  | Gt => (f + 1)%Z
  | Eq => if Z.even f then f else (f + 1)%Z
  end.

(** The exponent of the unit in the last place of the doubles around [q]. *)
Definition ulp_exponent (q : Q) : Z := Z.max (Qlog2 (Qabs q) - 52) (-1074).

(** The double nearest to [q]. *)
Definition double (q : Q) : Q :=
  let e := ulp_exponent q in
  inject_Z (round_half_even (q / 2 ^ e)) * 2 ^ e.

(** For comparison, the binary64 arithmetic that the Standard Library
    specifies ([SpecFloat], with 53 bits of precision and exponents below
    1024): an integer as a double, the rational that a finite double
    denotes, and the two operations of the clock. *)
Definition binary64_of_Z (z : Z) : spec_float := binary_normalize 53 1024 z 0 false.

Definition Q_of_binary64 (f : spec_float) : Q :=
  match f with
  | S754_finite s m e => inject_Z (if s then Z.neg m else Z.pos m) * 2 ^ e
  | _ => 0
  end.

Definition binary64_div : spec_float -> spec_float -> spec_float := SFdiv 53 1024.
Definition binary64_sub : spec_float -> spec_float -> spec_float := SFsub 53 1024.

(** ** Configuration *)

Record Size2 : Type := mkSize2 { width : Q; height : Q }.

Record UpdateRate : Type := mkUpdateRate { fps : Q; seconds : Q }.

Record Config : Type := mkConfig {
  canvas_size : Size2;
  update_rate : UpdateRate
}.

(** [config.update_rate.seconds = 1 / config.update_rate.fps] *)
Definition config : Config :=
  {| canvas_size := {| width := 300; height := 500 |};
     update_rate := {| fps := 60; seconds := double (1 / 60) |} |}.

(** ** Bodies *)

Record Vec2 : Type := mkVec2 { x : Q; y : Q }.

Record Controller : Type := mkController {
  move_x : Q;
  move_y : Q;
  action_1 : bool
}.

(** The four classes that extend [Body], with the fields each one adds. *)
Inductive Variant : Type :=
| Player (controller : Controller) (speed diag_speed time_since_fired : Q)
| Projectile (speed : Q)
| Enemy (speed : Q)
| BossEnemy (speed : Q).

Record Body : Type := mkBody {
  id : nat;
  position : Vec2;
  velocity : Vec2;
  size : Size2;
  health : Q;
  variant : Variant
}.

Definition with_id (i : nat) (b : Body) : Body :=
  mkBody i (position b) (velocity b) (size b) (health b) (variant b).

Definition with_position (p : Vec2) (b : Body) : Body :=
  mkBody (id b) p (velocity b) (size b) (health b) (variant b).

Definition with_size (s : Size2) (b : Body) : Body :=
  mkBody (id b) (position b) (velocity b) s (health b) (variant b).

Definition with_health (h : Q) (b : Body) : Body :=
  mkBody (id b) (position b) (velocity b) (size b) h (variant b).

Definition with_variant (v : Variant) (b : Body) : Body :=
  mkBody (id b) (position b) (velocity b) (size b) (health b) v.

(** [get half_size()] *)
Definition half_size (b : Body) : Size2 :=
  {| width := width (size b) / 2; height := height (size b) / 2 |}.

(** [isDead()] *)
Definition isDead (b : Body) : bool := Qle_bool (health b) 0.

(** [instanceof] *)
Definition is_Player (b : Body) : bool :=
  match variant b with Player _ _ _ _ => true | _ => false end.
Definition is_Projectile (b : Body) : bool :=
  match variant b with Projectile _ => true | _ => false end.
Definition is_Enemy (b : Body) : bool :=
  match variant b with Enemy _ => true | _ => false end.
Definition is_BossEnemy (b : Body) : bool :=
  match variant b with BossEnemy _ => true | _ => false end.

(** Field reads [this.speed], [this.diag_speed], [this.controller],
    [this.time_since_fired]; a class without the field reads as zero. *)
Definition speed_of (b : Body) : Q :=
  match variant b with
  | Player _ s _ _ | Projectile s | Enemy s | BossEnemy s => s
  end.
Definition diag_speed_of (b : Body) : Q :=
  match variant b with Player _ _ d _ => d | _ => 0 end.
Definition controller_of (b : Body) : Controller :=
  match variant b with
  | Player c _ _ _ => c
  | _ => {| move_x := 0; move_y := 0; action_1 := false |}
  end.
Definition time_since_fired_of (b : Body) : Q :=
  match variant b with Player _ _ _ t => t | _ => 0 end.

(** Field write [this.time_since_fired = t]. *)
Definition set_time_since_fired (t : Q) (b : Body) : Body :=
  match variant b with
  | Player c s d _ => with_variant (Player c s d t) b
  | _ => b
  end.

(** ** The spawner object and the collision handler object *)

Record Enemy_Spawner : Type := mkEnemy_Spawner {
  enemies : nat;
  time_between : Q;
  time_since_spawn : Q;
  bossSpawn : bool;
  bossTimer : nat
}.

(** The handler's only field, [ent], aliases the array [entities]: both are
    assigned together in [start()] and nowhere else, so the handler reads the
    registry of the world it runs in. *)
Inductive Collision_Handler : Type := mkCollision_Handler.

(** ** Globals *)

(** A reference to an object is its index in the heap. *)
Abbreviation ref := nat (only parsing).

(** The globals of the script, the object heap, and the host: the number of
    calls made to [Math.random] so far, the value each call returns, and the
    value of [Math.cos(Math.PI/4)]. *)
Record World : Type := mkWorld {
  last_time : option Q;
  loop_count : nat;
  running_id : nat;
  entities : list (option ref);
  queued_entities_for_removal : list nat;
  player : option ref;
  enemy_spawner : option Enemy_Spawner;
  collision_handler : option Collision_Handler;
  enemiesKilled : nat;
  timeAlive : Q;
  bossesSpawned : nat;
  bossesKilled : nat;
  enemiesSpawned : nat;
  score : Z;
  HighScore : Z;
  firstGame : bool;
  heap : list Body;
  random_calls : nat;
  random_source : nat -> Q;
  Math_cos_PI_4 : Q
}.

Definition with_last_time (v : option Q) (w : World) : World :=
  mkWorld v (loop_count w) (running_id w) (entities w) (queued_entities_for_removal w)
    (player w) (enemy_spawner w) (collision_handler w) (enemiesKilled w) (timeAlive w)
    (bossesSpawned w) (bossesKilled w) (enemiesSpawned w) (score w) (HighScore w)
    (firstGame w) (heap w) (random_calls w) (random_source w) (Math_cos_PI_4 w).

Definition with_loop_count (v : nat) (w : World) : World :=
  mkWorld (last_time w) v (running_id w) (entities w) (queued_entities_for_removal w)
    (player w) (enemy_spawner w) (collision_handler w) (enemiesKilled w) (timeAlive w)
    (bossesSpawned w) (bossesKilled w) (enemiesSpawned w) (score w) (HighScore w)
    (firstGame w) (heap w) (random_calls w) (random_source w) (Math_cos_PI_4 w).

Definition with_running_id (v : nat) (w : World) : World :=
  mkWorld (last_time w) (loop_count w) v (entities w) (queued_entities_for_removal w)
    (player w) (enemy_spawner w) (collision_handler w) (enemiesKilled w) (timeAlive w)
    (bossesSpawned w) (bossesKilled w) (enemiesSpawned w) (score w) (HighScore w)
    (firstGame w) (heap w) (random_calls w) (random_source w) (Math_cos_PI_4 w).

Definition with_entities (v : list (option ref)) (w : World) : World :=
  mkWorld (last_time w) (loop_count w) (running_id w) v (queued_entities_for_removal w)
    (player w) (enemy_spawner w) (collision_handler w) (enemiesKilled w) (timeAlive w)
    (bossesSpawned w) (bossesKilled w) (enemiesSpawned w) (score w) (HighScore w)
    (firstGame w) (heap w) (random_calls w) (random_source w) (Math_cos_PI_4 w).

Definition with_queued_entities_for_removal (v : list nat) (w : World) : World :=
  mkWorld (last_time w) (loop_count w) (running_id w) (entities w) v (player w)
    (enemy_spawner w) (collision_handler w) (enemiesKilled w) (timeAlive w)
    (bossesSpawned w) (bossesKilled w) (enemiesSpawned w) (score w) (HighScore w)
    (firstGame w) (heap w) (random_calls w) (random_source w) (Math_cos_PI_4 w).

Definition with_player (v : option ref) (w : World) : World :=
  mkWorld (last_time w) (loop_count w) (running_id w) (entities w)
    (queued_entities_for_removal w) v (enemy_spawner w) (collision_handler w)
    (enemiesKilled w) (timeAlive w) (bossesSpawned w) (bossesKilled w) (enemiesSpawned
    w) (score w) (HighScore w) (firstGame w) (heap w) (random_calls w) (random_source w)
    (Math_cos_PI_4 w).

Definition with_enemy_spawner (v : option Enemy_Spawner) (w : World) : World :=
  mkWorld (last_time w) (loop_count w) (running_id w) (entities w)
    (queued_entities_for_removal w) (player w) v (collision_handler w) (enemiesKilled w)
    (timeAlive w) (bossesSpawned w) (bossesKilled w) (enemiesSpawned w) (score w)
    (HighScore w) (firstGame w) (heap w) (random_calls w) (random_source w)
    (Math_cos_PI_4 w).

Definition with_collision_handler (v : option Collision_Handler) (w : World) : World :=
  mkWorld (last_time w) (loop_count w) (running_id w) (entities w)
    (queued_entities_for_removal w) (player w) (enemy_spawner w) v (enemiesKilled w)
    (timeAlive w) (bossesSpawned w) (bossesKilled w) (enemiesSpawned w) (score w)
    (HighScore w) (firstGame w) (heap w) (random_calls w) (random_source w)
    (Math_cos_PI_4 w).

Definition with_enemiesKilled (v : nat) (w : World) : World :=
  mkWorld (last_time w) (loop_count w) (running_id w) (entities w)
    (queued_entities_for_removal w) (player w) (enemy_spawner w) (collision_handler w) v
    (timeAlive w) (bossesSpawned w) (bossesKilled w) (enemiesSpawned w) (score w)
    (HighScore w) (firstGame w) (heap w) (random_calls w) (random_source w)
    (Math_cos_PI_4 w).

Definition with_timeAlive (v : Q) (w : World) : World :=
  mkWorld (last_time w) (loop_count w) (running_id w) (entities w)
    (queued_entities_for_removal w) (player w) (enemy_spawner w) (collision_handler w)
    (enemiesKilled w) v (bossesSpawned w) (bossesKilled w) (enemiesSpawned w) (score w)
    (HighScore w) (firstGame w) (heap w) (random_calls w) (random_source w)
    (Math_cos_PI_4 w).

Definition with_bossesSpawned (v : nat) (w : World) : World :=
  mkWorld (last_time w) (loop_count w) (running_id w) (entities w)
    (queued_entities_for_removal w) (player w) (enemy_spawner w) (collision_handler w)
    (enemiesKilled w) (timeAlive w) v (bossesKilled w) (enemiesSpawned w) (score w)
    (HighScore w) (firstGame w) (heap w) (random_calls w) (random_source w)
    (Math_cos_PI_4 w).

Definition with_bossesKilled (v : nat) (w : World) : World :=
  mkWorld (last_time w) (loop_count w) (running_id w) (entities w)
    (queued_entities_for_removal w) (player w) (enemy_spawner w) (collision_handler w)
    (enemiesKilled w) (timeAlive w) (bossesSpawned w) v (enemiesSpawned w) (score w)
    (HighScore w) (firstGame w) (heap w) (random_calls w) (random_source w)
    (Math_cos_PI_4 w).

Definition with_enemiesSpawned (v : nat) (w : World) : World :=
  mkWorld (last_time w) (loop_count w) (running_id w) (entities w)
    (queued_entities_for_removal w) (player w) (enemy_spawner w) (collision_handler w)
    (enemiesKilled w) (timeAlive w) (bossesSpawned w) (bossesKilled w) v (score w)
    (HighScore w) (firstGame w) (heap w) (random_calls w) (random_source w)
    (Math_cos_PI_4 w).

Definition with_score (v : Z) (w : World) : World :=
  mkWorld (last_time w) (loop_count w) (running_id w) (entities w)
    (queued_entities_for_removal w) (player w) (enemy_spawner w) (collision_handler w)
    (enemiesKilled w) (timeAlive w) (bossesSpawned w) (bossesKilled w) (enemiesSpawned
    w) v (HighScore w) (firstGame w) (heap w) (random_calls w) (random_source w)
    (Math_cos_PI_4 w).

Definition with_HighScore (v : Z) (w : World) : World :=
  mkWorld (last_time w) (loop_count w) (running_id w) (entities w)
    (queued_entities_for_removal w) (player w) (enemy_spawner w) (collision_handler w)
    (enemiesKilled w) (timeAlive w) (bossesSpawned w) (bossesKilled w) (enemiesSpawned
    w) (score w) v (firstGame w) (heap w) (random_calls w) (random_source w)
    (Math_cos_PI_4 w).

Definition with_firstGame (v : bool) (w : World) : World :=
  mkWorld (last_time w) (loop_count w) (running_id w) (entities w)
    (queued_entities_for_removal w) (player w) (enemy_spawner w) (collision_handler w)
    (enemiesKilled w) (timeAlive w) (bossesSpawned w) (bossesKilled w) (enemiesSpawned
    w) (score w) (HighScore w) v (heap w) (random_calls w) (random_source w)
    (Math_cos_PI_4 w).

Definition with_heap (v : list Body) (w : World) : World :=
  mkWorld (last_time w) (loop_count w) (running_id w) (entities w)
    (queued_entities_for_removal w) (player w) (enemy_spawner w) (collision_handler w)
    (enemiesKilled w) (timeAlive w) (bossesSpawned w) (bossesKilled w) (enemiesSpawned
    w) (score w) (HighScore w) (firstGame w) v (random_calls w) (random_source w)
    (Math_cos_PI_4 w).

Definition with_random_calls (v : nat) (w : World) : World :=
  mkWorld (last_time w) (loop_count w) (running_id w) (entities w)
    (queued_entities_for_removal w) (player w) (enemy_spawner w) (collision_handler w)
    (enemiesKilled w) (timeAlive w) (bossesSpawned w) (bossesKilled w) (enemiesSpawned
    w) (score w) (HighScore w) (firstGame w) (heap w) v (random_source w) (Math_cos_PI_4
    w).

(** ** The heap and the registry array *)

(** What a dangling reference reads as; no reference that the program holds
    is dangling, since the heap only grows. *)
Definition null_Body : Body :=
  mkBody 0 (mkVec2 0 0) (mkVec2 0 0) (mkSize2 0 0) 0 (Projectile 0).

Definition deref (w : World) (r : ref) : Body := default null_Body (heap w !! r).

(** A write to fields of the object behind [r]. *)
Definition modify (r : ref) (f : Body -> Body) (w : World) : World :=
  with_heap (alter f r (heap w)) w.

(** [a[i] = v] on a JavaScript array: an index past the end extends the
    array and leaves holes. *)
Definition array_set (i : nat) (v : ref) (a : list (option ref)) : list (option ref) :=
  if (i <? length a)%nat then <[i := Some v]> a
  else a ++ replicate (i - length a) None ++ [Some v].

(** [delete a[i]]: leaves a hole, keeps the length; nothing happens when the
    index is absent. *)
Definition array_delete (i : nat) (a : list (option ref)) : list (option ref) :=
  <[i := None]> a.

(** [Object.values(a)] and the visiting order of [a.forEach]: the elements
    present, by ascending index. *)
Definition Object_values (a : list (option ref)) : list ref :=
  omap (fun o => o) a.

(** [Math.random()] *)
Definition Math_random (w : World) : Q * World :=
  (random_source w (random_calls w), with_random_calls (S (random_calls w)) w).

(** ** class Body *)

(** [constructor()]: the field defaults, the next id, and the entry in the
    registry.  [v] is the class being instantiated, with the fields it adds. *)
Definition new_Body (v : Variant) (w : World) : ref * World :=
  let this := length (heap w) in
  let w := with_heap
    (heap w ++ [ {| id := 0;
                    position := {| x := 0; y := 0 |};
                    velocity := {| x := 0; y := 0 |};
                    size := {| width := 10; height := 10 |};
                    health := 100;
                    variant := v |} ]) w in
  let w := modify this (with_id (running_id w)) w in
  let w := with_running_id (S (running_id w)) w in
  let w := with_entities (array_set (id (deref w this)) this (entities w)) w in
  (this, w).

(** [this.position.x += dx; this.position.y += dy] *)
Definition move_by (dx dy : Q) (b : Body) : Body :=
  with_position {| x := x (position b) + dx; y := y (position b) + dy |} b.

(** [this.position.y += dy] *)
Definition move_y_by (dy : Q) (b : Body) : Body :=
  with_position {| x := x (position b); y := y (position b) + dy |} b.

(** [this.health -= d] *)
Definition damage (d : Q) (b : Body) : Body := with_health (health b - d) b.

(** [update(delta_time)]: the body moves by its velocity. *)
Definition advance (delta_time : Q) (b : Body) : Body :=
  move_by (delta_time * x (velocity b)) (delta_time * y (velocity b)) b.

Definition Body_update (delta_time : Q) (this : ref) (w : World) : World :=
  modify this (advance delta_time) w.

(** [remove()] *)
Definition Body_remove (this : ref) (w : World) : World :=
  with_queued_entities_for_removal
    (queued_entities_for_removal w ++ [id (deref w this)]) w.

(** The two lines under [// clip to screen] that end every [update]. *)
Definition clip_to_screen (b : Body) : Body :=
  with_position
    {| x := Math_min (Math_max 0 (x (position b))) (width (canvas_size config));
       y := Math_min (Math_max 0 (y (position b))) (height (canvas_size config)) |} b.

(** ** class Projectile *)

Definition new_Projectile (px py : Q) (w : World) : ref * World :=
  let '(this, w) := new_Body (Projectile 10) w in
  let w := modify this (with_position {| x := px; y := py |}) w in
  let w := modify this (with_size {| width := 10; height := 20 |}) w in
  (this, w).

Definition Projectile_update (delta_time : Q) (this : ref) (w : World) : World :=
  let w := modify this (fun b => move_y_by (- speed_of b) b) w in
  let w := if Qle_bool (y (position (deref w this))) 0 then Body_remove this w else w in
  let w := Body_update delta_time this w in
  modify this clip_to_screen w.

(** ** class Enemy *)

Definition new_Enemy (speed : Q) (w : World) : ref * World :=
  let '(this, w) := new_Body (Enemy speed) w in
  let '(r, w) := Math_random w in
  let w := modify this
    (with_position {| x := r * width (canvas_size config); y := -50 |}) w in
  let w := modify this (with_size {| width := 20; height := 20 |}) w in
  (this, w).

Definition Enemy_update (delta_time : Q) (this : ref) (w : World) : World :=
  let w := modify this (fun b => move_y_by (speed_of b) b) w in
  let w :=
    if Qle_bool (height (canvas_size config)) (y (position (deref w this)))
    then Body_remove this w else w in
  let w := Body_update delta_time this w in
  modify this clip_to_screen w.

(** ** class BossEnemy *)

Definition new_BossEnemy (speed : Q) (w : World) : ref * World :=
  let '(this, w) := new_Body (BossEnemy speed) w in
  let '(r, w) := Math_random w in
  let w := modify this
    (with_position {| x := r * width (canvas_size config); y := -50 |}) w in
  let w := modify this (with_size {| width := 25; height := 40 |}) w in
  let w := modify this (with_health 1000) w in
  (this, w).

Definition BossEnemy_update (delta_time : Q) (this : ref) (w : World) : World :=
  let w := modify this (fun b => move_y_by (speed_of b) b) w in
  let w :=
    if Qle_bool (height (canvas_size config)) (y (position (deref w this)))
    then Body_remove this w else w in
  let w := Body_update delta_time this w in
  modify this clip_to_screen w.

(** ** class Enemy_Spawner *)

Definition new_Enemy_Spawner (enemies : nat) (timeBetween : Q) : Enemy_Spawner :=
  {| enemies := enemies;
     time_between := timeBetween;
     time_since_spawn := 0;
     bossSpawn := false;
     bossTimer := 0 |}.

(** The body of the [for] loop of [update]: one emitted unit. *)
Definition spawn_unit (st : Enemy_Spawner * World) : Enemy_Spawner * World :=
  let '(this, w) := st in
  if bossSpawn this then
    let w := snd (new_BossEnemy 1 w) in
    let w := snd (new_BossEnemy 2 w) in
    let w := with_bossesSpawned (S (bossesSpawned w)) w in
    (mkEnemy_Spawner (enemies this) (time_between this) (time_since_spawn this)
                     false (bossTimer this), w)
  else
    let w := snd (new_Enemy 2 w) in
    let this := mkEnemy_Spawner (enemies this) (time_between this)
                  (time_since_spawn this) (bossSpawn this) (S (bossTimer this)) in
    let w := with_enemiesSpawned (S (enemiesSpawned w)) w in
    if (bossTimer this =? 10)%nat then
      (mkEnemy_Spawner (enemies this) (time_between this) (time_since_spawn this)
                       true 0, w)
    else (this, w).

(** [update(delta_time)]; the spawner object is passed and returned. *)
Definition Enemy_Spawner_update (delta_time : Q) (this : Enemy_Spawner) (w : World)
  : Enemy_Spawner * World :=
  let this := mkEnemy_Spawner (enemies this) (time_between this)
                (time_since_spawn this + delta_time) (bossSpawn this) (bossTimer this) in
  if Qle_bool (time_between this) (time_since_spawn this) then
    let this := mkEnemy_Spawner (enemies this) (time_between this) 0
                  (bossSpawn this) (bossTimer this) in
    Nat.iter (enemies this) spawn_unit (this, w)
  else (this, w).

(** ** class Collision_Handler *)

(** The four-line bounding-box test of the inner callback; [a > b] is read
    as [b < a]. *)
Definition overlaps (e1 e2 : Body) : bool :=
  Qlt_bool (x (position e1) - width (half_size e1))
           (x (position e2) + width (half_size e2)) &&
  Qlt_bool (x (position e2) - width (half_size e2))
           (x (position e1) + width (half_size e1)) &&
  Qlt_bool (y (position e1) - height (half_size e1))
           (y (position e2) + height (half_size e2)) &&
  Qlt_bool (y (position e2) - height (half_size e2))
           (y (position e1) + height (half_size e1)).

(** The four [if (e1 instanceof ...)] statements of the inner callback, in
    the order of the source.  The class [BossEnemy] has two of them. *)
Definition hit_Player (e1 e2 : ref) (w : World) : World :=
  if is_Player (deref w e1) then
    let w := if is_Enemy (deref w e2) then modify e1 (damage 25) w else w in
    let w := if is_BossEnemy (deref w e2) then modify e1 (damage 100) w else w in
    w
  else w.

Definition hit_Enemy (e1 e2 : ref) (w : World) : World :=
  if is_Enemy (deref w e1) then
    if is_Player (deref w e2) || is_Projectile (deref w e2) then
      let w := modify e1 (damage 100) w in
      if isDead (deref w e1) then
        let w := Body_remove e1 w in
        with_enemiesKilled (S (enemiesKilled w)) w
      else w
    else w
  else w.

Definition hit_BossEnemy_first (e1 e2 : ref) (w : World) : World :=
  if is_BossEnemy (deref w e1) then
    if is_Projectile (deref w e2) then
      let w := modify e1 (damage 7) w in
      if isDead (deref w e1) then
        let w := Body_remove e1 w in
        let w := with_enemiesKilled (S (enemiesKilled w)) w in
        with_bossesKilled (S (bossesKilled w)) w
      else Body_remove e2 w
    else w
  else w.

Definition hit_BossEnemy_second (e1 e2 : ref) (w : World) : World :=
  if is_BossEnemy (deref w e1) then
    if is_Projectile (deref w e2) then
      let w := modify e1 (damage 100) w in
      if isDead (deref w e1) then
        let w := Body_remove e1 w in
        let w := with_enemiesKilled (S (enemiesKilled w)) w in
        with_bossesKilled (S (bossesKilled w)) w
      else w
    else w
  else w.

(** The inner callback, for the pair [(e1, e2)]; [e1 != e2] compares
    references. *)
Definition collide (e1 e2 : ref) (w : World) : World :=
  if negb (e1 =? e2)%nat then
    if overlaps (deref w e1) (deref w e2) then
      let w := hit_Player e1 e2 w in
      let w := hit_Enemy e1 e2 w in
      let w := hit_BossEnemy_first e1 e2 w in
      let w := hit_BossEnemy_second e1 e2 w in
      w
    else w
  else w.

(** [update()]: [forEach] inside [forEach] over the registry.  The pass never
    writes to the array, so both loops visit the elements present at its
    start. *)
Definition Collision_Handler_update (w : World) : World :=
  let ent := Object_values (entities w) in
  fold_left (fun w e1 => fold_left (fun w e2 => collide e1 e2 w) ent w) ent w.

(** ** The removal flush of [update] *)

Definition flush_removals (w : World) : World :=
  let w := fold_left (fun w i => with_entities (array_delete i (entities w)) w)
                     (queued_entities_for_removal w) w in
  with_queued_entities_for_removal [] w.

(** A [while] loop; [fuel] bounds the number of iterations. *)
Fixpoint while_loop {S : Type} (fuel : nat) (cond : S -> bool) (body : S -> S) (s : S) : S :=
  match fuel with
  | O => s
  | Datatypes.S fuel' => if cond s then while_loop fuel' cond body (body s) else s
  end.

(** ** class Player *)

Definition new_Player (w : World) : ref * World :=
  let '(this, w) :=
    new_Body (Player {| move_x := 0; move_y := 0; action_1 := false |}
                     5 (5 * Math_cos_PI_4 w) 0) w in
  let w := modify this (set_time_since_fired 0) w in
  let w := modify this
    (with_position {| x := width (canvas_size config) / 2;
                      y := height (canvas_size config) - 100 |}) w in
  let w := modify this (with_size {| width := 20; height := 20 |}) w in
  (this, w).

(** ** [start()] *)

Definition start (w : World) : World :=
  let w := with_entities [] w in
  let w := with_queued_entities_for_removal [] w in
  let w := with_enemiesKilled 0 w in
  let w := with_timeAlive 0 w in
  let w := with_bossesSpawned 0 w in
  let w := with_bossesKilled 0 w in
  let w := with_enemiesSpawned 0 w in
  let '(p, w) := new_Player w in
  let w := with_player (Some p) w in
  let w := with_enemy_spawner (Some (new_Enemy_Spawner 1 0.55)) w in
  let w := with_collision_handler (Some mkCollision_Handler) w in
  w.

(** [Player.update(delta_time)], block by block. *)

(** [// Player Movement] *)
Definition Player_move (this : ref) (w : World) : World :=
  if negb (Qeq_bool (move_x (controller_of (deref w this))) 0) &&
     negb (Qeq_bool (move_y (controller_of (deref w this))) 0)
  then modify this (fun b =>
         move_by (move_x (controller_of b) * diag_speed_of b)
                 (move_y (controller_of b) * diag_speed_of b) b) w
  else modify this (fun b =>
         move_by (move_x (controller_of b) * speed_of b)
                 (move_y (controller_of b) * speed_of b) b) w.

(** [// die after health is 0 collisions] *)
Definition Player_die (this : ref) (w : World) : World :=
  if isDead (deref w this) then
    let w := Body_remove this w in
    let w := if firstGame w then with_firstGame false w else w in
    let w := if (HighScore w <? score w)%Z then with_HighScore (score w) w else w in
    start w
  else w.

(** [// Combat] *)
Definition Player_fire (delta_time : Q) (this : ref) (w : World) : World :=
  let w := modify this (fun b =>
             set_time_since_fired (time_since_fired_of b + delta_time) b) w in
  if action_1 (controller_of (deref w this)) then
    if Qle_bool 0.1 (time_since_fired_of (deref w this)) then
      let w := modify this (set_time_since_fired 0) w in
      snd (new_Projectile (x (position (deref w this)))
                          (y (position (deref w this))) w)
    else w
  else w.

Definition Player_update (delta_time : Q) (this : ref) (w : World) : World :=
  let w := Player_move this w in
  let w := Player_die this w in
  let w := Player_fire delta_time this w in
  (* update position *)
  let w := Body_update delta_time this w in
  (* clip to screen *)
  modify this clip_to_screen w.

(** The method call [entity.update(delta_time)], resolved by class. *)
Definition entity_update (delta_time : Q) (entity : ref) (w : World) : World :=
  match variant (deref w entity) with
  | Player _ _ _ _ => Player_update delta_time entity w
  | Projectile _ => Projectile_update delta_time entity w
  | Enemy _ => Enemy_update delta_time entity w
  | BossEnemy _ => BossEnemy_update delta_time entity w
  end.

(** ** [update(delta_time)] *)

Definition update (delta_time : Q) (w : World) : World :=
  (* move entities *)
  let w := fold_left (fun w entity => entity_update delta_time entity w)
                     (Object_values (entities w)) w in
  (* detect and handle collision events *)
  let w := match collision_handler w with
           | Some _ => Collision_Handler_update w
           | None => w
           end in
  (* remove enemies *)
  let w := flush_removals w in
  (* spawn enemies *)
  let w := match enemy_spawner w with
           | Some s =>
               let '(s, w) := Enemy_Spawner_update delta_time s w in
               with_enemy_spawner (Some s) w
           | None => w
           end in
  w.

(** ** [loop(curr_time)] *)

(** The body of the [while] loop, on the local [delta_time] and the globals. *)
Definition loop_body (curr_time : Q) (st : Q * World) : Q * World :=
  let '(delta_time, w) := st in
  let w := update (seconds (update_rate config)) w in
  let delta_time := double (delta_time - seconds (update_rate config)) in
  let w := with_last_time (Some curr_time) w in
  let w := with_loop_count (S (loop_count w)) w in
  let w := with_score
    (Qfloor (double (double (30 * inject_Z (Z.of_nat (enemiesKilled w))) +
                     timeAlive w))) w in
  let w := if firstGame w then with_HighScore 0 w else w in
  (delta_time, w).

(** As long as the unit in the last place of [delta_time] is smaller than
    the tick size, that is, for more than a million years, an iteration takes
    more than half a tick from [delta_time], rounding included, so the loop
    runs fewer than [2 * delta_time / seconds + 1] times.  (Beyond that a
    double no longer changes when a tick is subtracted from it, and the
    loop of the script does not end.) *)
Definition loop_bound (delta_time : Q) : nat :=
  Z.to_nat (Qceiling (2 * delta_time / seconds (update_rate config))).

(** The state of [loop] when its [while] loop exits: the local [delta_time]
    and the globals. *)
Definition loop_run (curr_time : Q) (w : World) : Q * World :=
  let curr_time := double (curr_time / 1000) in
  let w := match last_time w with
           | None => with_last_time (Some curr_time) w
           | Some _ => w
           end in
  let delta_time := double (curr_time - default 0 (last_time w)) in
  let w := with_timeAlive (double (timeAlive w + delta_time)) w in
  while_loop (loop_bound delta_time)
             (fun st => Qlt_bool (seconds (update_rate config)) (fst st))
             (loop_body curr_time) (delta_time, w).

Definition loop (curr_time : Q) (w : World) : World := snd (loop_run curr_time w).

(** ** class InputHandler *)

(** The fields of a keyboard event that the handler reads. *)
Record KeyEvent : Type := mkKeyEvent {
  keyCode : nat;
  repeat : bool;
  isComposing : bool
}.

(** The two states of the controller that the axis keys change. *)
Inductive Axis : Type := axis_move_x | axis_move_y.

(** [key_code_mappings.axis]: the state and the [mod] of the keys D (right),
    A (left), W (up) and S (down). *)
Definition axis_mapping (code : nat) : option (Axis * Q) :=
  if (code =? 68)%nat then Some (axis_move_x, 1)
  else if (code =? 65)%nat then Some (axis_move_x, -1)
  else if (code =? 87)%nat then Some (axis_move_y, -1)
  else if (code =? 83)%nat then Some (axis_move_y, 1)
  else None.

(** [key_code_mappings.button]: the space bar, for [action_1]. *)
Definition button_mapping (code : nat) : bool := (code =? 32)%nat.

(** [controller[state] += m] *)
Definition add_axis (a : Axis) (m : Q) (c : Controller) : Controller :=
  match a with
  | axis_move_x => mkController (move_x c + m) (move_y c) (action_1 c)
  | axis_move_y => mkController (move_x c) (move_y c + m) (action_1 c)
  end.

(** [controller.action_1 = v] *)
Definition set_action_1 (v : bool) (c : Controller) : Controller :=
  mkController (move_x c) (move_y c) v.

(** [keydown(event)], on the controller of the player the handler is bound
    to. *)
Definition keydown (event : KeyEvent) (c : Controller) : Controller :=
  (* ignore event handling if they are holding down the button *)
  if repeat event || isComposing event || (keyCode event =? 229)%nat then c
  else
    let c := match axis_mapping (keyCode event) with
             | Some (a, m) => add_axis a m c
             | None => c
             end in
    if button_mapping (keyCode event) then set_action_1 true c else c.

(** [keyup(event)] *)
Definition keyup (event : KeyEvent) (c : Controller) : Controller :=
  if isComposing event || (keyCode event =? 229)%nat then c
  else
    let c := match axis_mapping (keyCode event) with
             | Some (a, m) => add_axis a (- m) c
             | None => c
             end in
    if button_mapping (keyCode event) then set_action_1 false c else c.

(** A handler writes to [this.player.controller]. *)
Definition with_controller (f : Controller -> Controller) (b : Body) : Body :=
  match variant b with
  | Player c s d t => with_variant (Player (f c) s d t) b
  | _ => b
  end.

(** The listeners of the window.  Every [new Player()] constructs an
    [InputHandler], which adds a keydown and a keyup listener bound to that
    player, and no listener is ever removed: an event reaches the controller
    of every player constructed so far, that is, of every player on the
    heap. *)
Definition window_keydown (event : KeyEvent) (w : World) : World :=
  with_heap (map (with_controller (keydown event)) (heap w)) w.

Definition window_keyup (event : KeyEvent) (w : World) : World :=
  with_heap (map (with_controller (keyup event)) (heap w)) w.

(** ** The top level of the script *)

(** The globals as declared, with [firstGame = true], before the first call
    of [start()].  The host supplies [rnd] and [c]. *)
Definition initial_World (rnd : nat -> Q) (c : Q) : World :=
  {| last_time := None;
     loop_count := 0;
     running_id := 0;
     entities := [];
     queued_entities_for_removal := [];
     player := None;
     enemy_spawner := None;
     collision_handler := None;
     enemiesKilled := 0;
     timeAlive := 0;
     bossesSpawned := 0;
     bossesKilled := 0;
     enemiesSpawned := 0;
     score := 0;
     HighScore := 0;
     firstGame := true;
     heap := [];
     random_calls := 0;
     random_source := rnd;
     Math_cos_PI_4 := c |}.

(** The world when the first animation frame is requested. *)
Definition boot (rnd : nat -> Q) (c : Q) : World := start (initial_World rnd c).

(** ** The variant without boss waves

    The second script of the repository is the same game at an earlier
    stage: bodies keep the default 10 by 10 size, the spawner emits regular
    enemies only, the collision test works on raw position and size, an enemy
    is removed on its first hit, and a dead player restarts the game when the
    action key is held.  [Body], [Projectile.update], [Enemy.update] and the
    globals are the same as above and are shared; the spawner object has
    only its first three fields, the other two stay at their initial value. *)

Module Base.

Definition new_Projectile (px py : Q) (w : World) : ref * World :=
  let '(this, w) := new_Body (Projectile 10) w in
  let w := modify this (with_position {| x := px; y := py |}) w in
  (this, w).

Definition new_Player (w : World) : ref * World :=
  let '(this, w) :=
    new_Body (Player {| move_x := 0; move_y := 0; action_1 := false |}
                     5 (5 * Math_cos_PI_4 w) 0) w in
  let w := modify this (set_time_since_fired 0) w in
  let w := modify this
    (with_position {| x := width (canvas_size config) / 2;
                      y := height (canvas_size config) - 100 |}) w in
  (this, w).

Definition new_Enemy (speed : Q) (w : World) : ref * World :=
  let '(this, w) := new_Body (Enemy speed) w in
  let '(r, w) := Math_random w in
  let w := modify this
    (with_position {| x := r * width (canvas_size config); y := -50 |}) w in
  (this, w).

(** [// die after health is 0 collisions] *)
Definition Player_die (this : ref) (w : World) : World :=
  if isDead (deref w this) then Body_remove this w else w.

(** [// Combat] *)
Definition Player_fire (delta_time : Q) (this : ref) (w : World) : World :=
  let w := modify this (fun b =>
             set_time_since_fired (time_since_fired_of b + delta_time) b) w in
  if action_1 (controller_of (deref w this)) then
    if Qle_bool 0.1 (time_since_fired_of (deref w this)) then
      let w := modify this (set_time_since_fired 0) w in
      snd (new_Projectile (x (position (deref w this)))
                          (y (position (deref w this))) w)
    else w
  else w.

(** The movement block is the one of the full game. *)
Definition Player_update (delta_time : Q) (this : ref) (w : World) : World :=
  let w := Player_move this w in
  let w := Player_die this w in
  let w := Player_fire delta_time this w in
  (* update position *)
  let w := Body_update delta_time this w in
  (* clip to screen *)
  modify this clip_to_screen w.

(** This script has no class [BossEnemy]; no object of that class exists. *)
Definition entity_update (delta_time : Q) (entity : ref) (w : World) : World :=
  match variant (deref w entity) with
  | Player _ _ _ _ => Player_update delta_time entity w
  | Projectile _ => Projectile_update delta_time entity w
  | Enemy _ => Enemy_update delta_time entity w
  | BossEnemy _ => w
  end.

Definition Enemy_Spawner_update (delta_time : Q) (this : Enemy_Spawner) (w : World)
  : Enemy_Spawner * World :=
  let this := mkEnemy_Spawner (enemies this) (time_between this)
                (time_since_spawn this + delta_time) (bossSpawn this) (bossTimer this) in
  if Qle_bool (time_between this) (time_since_spawn this) then
    let this := mkEnemy_Spawner (enemies this) (time_between this) 0
                  (bossSpawn this) (bossTimer this) in
    (this, Nat.iter (enemies this)
             (fun w => let w := snd (new_Enemy 2 w) in
                       with_enemiesSpawned (S (enemiesSpawned w)) w) w)
  else (this, w).

Definition overlaps (e1 e2 : Body) : bool :=
  Qlt_bool (x (position e1)) (x (position e2) + width (size e2)) &&
  Qlt_bool (x (position e2)) (x (position e1) + width (size e1)) &&
  Qlt_bool (y (position e1)) (y (position e2) + height (size e2)) &&
  Qlt_bool (y (position e2)) (y (position e1) + height (size e1)).

Definition hit_Player (e1 e2 : ref) (w : World) : World :=
  if is_Player (deref w e1) then
    if is_Enemy (deref w e2) then modify e1 (damage 25) w else w
  else w.

Definition hit_Enemy (e1 e2 : ref) (w : World) : World :=
  if is_Enemy (deref w e1) then
    if is_Player (deref w e2) || is_Projectile (deref w e2) then
      let w := Body_remove e1 w in
      if is_Projectile (deref w e2)
      then with_enemiesKilled (S (enemiesKilled w)) w
      else w
    else w
  else w.

Definition collide (e1 e2 : ref) (w : World) : World :=
  if negb (e1 =? e2)%nat then
    if overlaps (deref w e1) (deref w e2) then
      let w := hit_Player e1 e2 w in
      let w := hit_Enemy e1 e2 w in
      w
    else w
  else w.

Definition Collision_Handler_update (w : World) : World :=
  let ent := Object_values (entities w) in
  fold_left (fun w e1 => fold_left (fun w e2 => collide e1 e2 w) ent w) ent w.

Definition start (w : World) : World :=
  let w := with_entities [] w in
  let w := with_queued_entities_for_removal [] w in
  let w := with_enemiesKilled 0 w in
  let w := with_timeAlive 0 w in
  let w := with_enemiesSpawned 0 w in
  let '(p, w) := new_Player w in
  let w := with_player (Some p) w in
  let w := with_enemy_spawner (Some (new_Enemy_Spawner 1 0.55)) w in
  let w := with_collision_handler (Some mkCollision_Handler) w in
  w.

Definition update (delta_time : Q) (w : World) : World :=
  (* move entities *)
  let w := fold_left (fun w entity => entity_update delta_time entity w)
                     (Object_values (entities w)) w in
  (* detect and handle collision events *)
  let w := match collision_handler w with
           | Some _ => Collision_Handler_update w
           | None => w
           end in
  (* remove enemies *)
  let w := flush_removals w in
  (* spawn enemies *)
  let w := match enemy_spawner w with
           | Some s =>
               let '(s, w) := Enemy_Spawner_update delta_time s w in
               with_enemy_spawner (Some s) w
           | None => w
           end in
  (* allow the player to restart when dead *)
  match player w with
  | Some p =>
      if isDead (deref w p) && action_1 (controller_of (deref w p))
      then start w else w
  | None => w
  end.

Definition loop_body (curr_time : Q) (st : Q * World) : Q * World :=
  let '(delta_time, w) := st in
  let w := update (seconds (update_rate config)) w in
  let delta_time := double (delta_time - seconds (update_rate config)) in
  let w := with_last_time (Some curr_time) w in
  let w := with_loop_count (S (loop_count w)) w in
  let w := with_score
    (Qfloor (double (double (30 * inject_Z (Z.of_nat (enemiesKilled w))) +
                     timeAlive w))) w in
  (delta_time, w).

Definition loop_run (curr_time : Q) (w : World) : Q * World :=
  let curr_time := double (curr_time / 1000) in
  let w := match last_time w with
           | None => with_last_time (Some curr_time) w
           | Some _ => w
           end in
  let delta_time := double (curr_time - default 0 (last_time w)) in
  let w := with_timeAlive (double (timeAlive w + delta_time)) w in
  while_loop (loop_bound delta_time)
             (fun st => Qlt_bool (seconds (update_rate config)) (fst st))
             (loop_body curr_time) (delta_time, w).

Definition loop (curr_time : Q) (w : World) : World := snd (loop_run curr_time w).

Definition boot (rnd : nat -> Q) (c : Q) : World := start (initial_World rnd c).

End Base.

(** ** Vocabulary of the properties *)

(** Every object of [w] is still an object of [w'], and [R] relates its old
    state to its new one. *)
Definition evolves (R : Body -> Body -> Prop) (w w' : World) : Prop :=
  forall (r : ref) (b : Body),
    heap w !! r = Some b -> exists b', heap w' !! r = Some b' /\ R b b'.

(** The health did not go up. *)
Definition health_le (b b' : Body) : Prop := health b' <= health b.

(** The objects allocated between [w] and [w'], oldest first. *)
Definition allocated (w w' : World) : list Body := drop (length (heap w)) (heap w').

(** The position lies in the rectangle of the canvas. *)
Definition in_bounds (p : Vec2) : Prop :=
  0 <= x p <= width (canvas_size config) /\ 0 <= y p <= height (canvas_size config).

(** What one [update] adds to [position.y] on its first line: a projectile
    climbs by its speed, an enemy or a boss descends by its speed. *)
Definition vertical_step (b : Body) : Q :=
  match variant b with
  | Projectile s => - s
  | Enemy s | BossEnemy s => s
  | Player _ _ _ _ => 0
  end.

(** [controller.move_x != 0 && controller.move_y != 0] *)
Definition both_axes (c : Controller) : bool :=
  negb (Qeq_bool (move_x c) 0) && negb (Qeq_bool (move_y c) 0).

(** The player after the movement block. *)
Definition moved (b : Body) : Body :=
  if both_axes (controller_of b)
  then move_by (move_x (controller_of b) * diag_speed_of b)
               (move_y (controller_of b) * diag_speed_of b) b
  else move_by (move_x (controller_of b) * speed_of b)
               (move_y (controller_of b) * speed_of b) b.

(** Whether the combat block fires, for a player whose timer was [t] when
    [update(delta_time)] was called. *)
Definition fires (delta_time : Q) (b : Body) : bool :=
  action_1 (controller_of b) && Qle_bool 0.1 (time_since_fired_of b + delta_time).

(** The player after the combat block. *)
Definition fired (delta_time : Q) (b : Body) : Body :=
  if fires delta_time b
  then set_time_since_fired 0
         (set_time_since_fired (time_since_fired_of b + delta_time) b)
  else set_time_since_fired (time_since_fired_of b + delta_time) b.

(** The object that [new Projectile(x, y)] leaves on the heap when the next
    id is [i]; [s] is the size of a projectile. *)
Definition Projectile_at (i : nat) (p : Vec2) (s : Size2) : Body :=
  {| id := i;
     position := {| x := x p; y := y p |};
     velocity := {| x := 0; y := 0 |};
     size := s;
     health := 100;
     variant := Projectile 10 |}.

(** What the collision handler works on: the objects, the registry, the
    pending removals and the two kill counters. *)
Definition collision_state (w : World)
  : list Body * list (option nat) * list nat * nat * nat :=
  (heap w, entities w, queued_entities_for_removal w, enemiesKilled w, bossesKilled w).

(** The world [w] with new objects, pending removals and kill counters. *)
Definition put (h : list Body) (q : list nat) (k bk : nat) (w : World) : World :=
  with_bossesKilled bk
    (with_enemiesKilled k
      (with_queued_entities_for_removal q (with_heap h w))).

(** [f] reads nothing but the collision state, and writes nothing but the
    objects, the pending removals and the kill counters. *)
Definition collision_local (f : World -> World) : Prop :=
  forall w, exists h q k bk,
    forall w', collision_state w' = collision_state w -> f w' = put h q k bk w'.

(** The object behind [this], if there is one, is inside the canvas. *)
Definition bounded_at (this : ref) (w : World) : Prop :=
  forall b, heap w !! this = Some b -> in_bounds (position b).

(** The object that [new Body()] leaves on the heap for class fields [v]. *)
Definition fresh_Body (i : nat) (v : Variant) : Body :=
  {| id := i;
     position := {| x := 0; y := 0 |};
     velocity := {| x := 0; y := 0 |};
     size := {| width := 10; height := 10 |};
     health := 100;
     variant := v |}.

(** The world after an object [b] with id [running_id w] was allocated and
    registered. *)
Definition registered (b : Body) (w : World) : World :=
  with_entities (array_set (running_id w) (length (heap w)) (entities w))
    (with_running_id (S (running_id w)) (with_heap (heap w ++ [b]) w)).





(** The callbacks of the animation frame, at the times [ts] in milliseconds,
    in the full game and in the variant. *)
Definition callbacks (ts : list Q) (w : World) : World :=
  fold_left (fun w t => loop t w) ts w.





(** [curr_time /= 1000] *)
Definition in_seconds (curr : Q) : Q := double (curr / 1000).

(** [delta_time] as [loop(curr)] computes it in the world [w], before the
    [while] loop. *)
Definition elapsed (curr : Q) (w : World) : Q :=
  double (in_seconds curr - default (in_seconds curr) (last_time w)).



(** Everything but the health of the body is the same. *)
Definition same_but_health (b b' : Body) : Prop :=
  id b' = id b /\ position b' = position b /\ velocity b' = velocity b /\
  size b' = size b /\ variant b' = variant b.

(** Between [w] and [w'] the registry is untouched, the pending removals have
    only grown at the end, and the kill counters have not gone down. *)
Definition queue_grows (w w' : World) : Prop :=
  entities w' = entities w /\
  (exists l, queued_entities_for_removal w' = queued_entities_for_removal w ++ l) /\
  (enemiesKilled w <= enemiesKilled w')%nat /\
  (bossesKilled w <= bossesKilled w')%nat.

(** Every projectile of [w] is the same object in [w']. *)
Definition projectiles_kept (w w' : World) : Prop :=
  forall r b, heap w !! r = Some b -> is_Projectile b = true -> heap w' !! r = Some b.

(** The registry is no longer than the next id, and every entry [i] refers to
    a body whose id is [i]. *)
Definition registry_ok (w : World) : Prop :=
  (length (entities w) <= running_id w)%nat /\
  forall i r, entities w !! i = Some (Some r) ->
    exists b, heap w !! r = Some b /\ id b = i.

(** A step that keeps the registry in order. *)
Definition keeps_registry (w w' : World) : Prop := registry_ok w -> registry_ok w'.

(** The pending removals are the same in both worlds. *)
Definition same_queue (w w' : World) : Prop :=
  queued_entities_for_removal w' = queued_entities_for_removal w.

(** ** Scenarios *)

(** A host whose [Math.random()] always returns one half; the cosine is the
    double that [Math.cos(Math.PI/4)] evaluates to. *)
Definition host_World : World :=
  initial_World (fun _ => 1 / 2) 0.7071067811865476.

(** A boss at (150, 100) and a projectile at (150, 110), which overlaps it. *)
Definition boss_scene : World :=
  let '(boss, w) := new_BossEnemy 1 host_World in
  let w := modify boss (with_position {| x := 150; y := 100 |}) w in
  let '(_, w) := new_Projectile 150 110 w in
  with_collision_handler (Some mkCollision_Handler) w.

(** The same scene with the boss down to 50 health. *)
Definition weak_boss_scene : World :=
  modify 0%nat (with_health 50) boss_scene.

(** The game as started, with the keys for right, up and fire held down and
    the fire timer at its threshold. *)
Definition armed_player_scene : World :=
  modify 0%nat
    (with_variant
       (Player {| move_x := 1; move_y := -1; action_1 := true |}
               5 (5 * Math_cos_PI_4 host_World) 0.1))
    (start host_World).

(** The game as started, with an enemy and a projectile on the spot of the
    player. *)
Definition contact_scene : World :=
  let w := start host_World in
  let '(enemy, w) := new_Enemy 2 w in
  let w := modify enemy (with_position {| x := 150; y := 400 |}) w in
  let '(_, w) := new_Projectile 150 400 w in
  w.

(** The game as started, with the player out of health. *)
Definition dead_player_scene : World :=
  modify 0%nat (with_health 0) (start host_World).

(** The key D going down, and the same key held. *)
Definition key_right : KeyEvent :=
  {| keyCode := 68; repeat := false; isComposing := false |}.

(** * Properties *)

(** ** Numbers *)

Lemma Qlt_bool_iff (a b : Q) : Qlt_bool a b = true <-> a < b.
Proof.
  unfold Qlt_bool. rewrite Qlt_alt. destruct (a ?= b); split; congruence.
Qed.


Lemma Math_min_max_bounds (v hi : Q) :
  0 <= hi -> 0 <= Math_min (Math_max 0 v) hi <= hi.
Proof.
  intros Hhi. unfold Math_min, Math_max.
  destruct (Qle_bool 0 v) eqn:E1.
  - apply Qle_bool_iff in E1.
    destruct (Qle_bool v hi) eqn:E2.
    + apply Qle_bool_iff in E2. lra.
    + lra.
  - destruct (Qle_bool 0 hi) eqn:E2; lra.
Qed.

Lemma Math_max_compat (a v v' : Q) : v == v' -> Math_max a v == Math_max a v'.
Proof.
  intros H. unfold Math_max.
  destruct (Qle_bool a v) eqn:E1, (Qle_bool a v') eqn:E2; try assumption; try reflexivity.
  - apply Qle_bool_iff in E1. rewrite H in E1. apply Qle_bool_iff in E1. congruence.
  - apply Qle_bool_iff in E2. rewrite <- H in E2. apply Qle_bool_iff in E2. congruence.
Qed.

Lemma Math_min_compat (v v' b : Q) : v == v' -> Math_min v b == Math_min v' b.
Proof.
  intros H. unfold Math_min.
  destruct (Qle_bool v b) eqn:E1, (Qle_bool v' b) eqn:E2; try assumption; try reflexivity.
  - apply Qle_bool_iff in E1. rewrite H in E1. apply Qle_bool_iff in E1. congruence.
  - apply Qle_bool_iff in E2. rewrite <- H in E2. apply Qle_bool_iff in E2. congruence.
Qed.

(** *** Binary64 rounding *)








(** ** The heap *)

(** ** Reading a global after a write to a global *)

Lemma last_time_with_last_time v w : last_time (with_last_time v w) = v.
Proof. reflexivity. Qed.
Lemma last_time_with_loop_count v w : last_time (with_loop_count v w) = last_time w.
Proof. reflexivity. Qed.
Lemma last_time_with_running_id v w : last_time (with_running_id v w) = last_time w.
Proof. reflexivity. Qed.
Lemma last_time_with_entities v w : last_time (with_entities v w) = last_time w.
Proof. reflexivity. Qed.
Lemma last_time_with_queued_entities_for_removal v w : last_time (with_queued_entities_for_removal v w) = last_time w.
Proof. reflexivity. Qed.
Lemma last_time_with_player v w : last_time (with_player v w) = last_time w.
Proof. reflexivity. Qed.
Lemma last_time_with_enemy_spawner v w : last_time (with_enemy_spawner v w) = last_time w.
Proof. reflexivity. Qed.
Lemma last_time_with_collision_handler v w : last_time (with_collision_handler v w) = last_time w.
Proof. reflexivity. Qed.
Lemma last_time_with_enemiesKilled v w : last_time (with_enemiesKilled v w) = last_time w.
Proof. reflexivity. Qed.
Lemma last_time_with_timeAlive v w : last_time (with_timeAlive v w) = last_time w.
Proof. reflexivity. Qed.
Lemma last_time_with_bossesSpawned v w : last_time (with_bossesSpawned v w) = last_time w.
Proof. reflexivity. Qed.
Lemma last_time_with_bossesKilled v w : last_time (with_bossesKilled v w) = last_time w.
Proof. reflexivity. Qed.
Lemma last_time_with_enemiesSpawned v w : last_time (with_enemiesSpawned v w) = last_time w.
Proof. reflexivity. Qed.
Lemma last_time_with_score v w : last_time (with_score v w) = last_time w.
Proof. reflexivity. Qed.
Lemma last_time_with_HighScore v w : last_time (with_HighScore v w) = last_time w.
Proof. reflexivity. Qed.
Lemma last_time_with_firstGame v w : last_time (with_firstGame v w) = last_time w.
Proof. reflexivity. Qed.
Lemma last_time_with_heap v w : last_time (with_heap v w) = last_time w.
Proof. reflexivity. Qed.
Lemma last_time_with_random_calls v w : last_time (with_random_calls v w) = last_time w.
Proof. reflexivity. Qed.

Lemma loop_count_with_last_time v w : loop_count (with_last_time v w) = loop_count w.
Proof. reflexivity. Qed.
Lemma loop_count_with_loop_count v w : loop_count (with_loop_count v w) = v.
Proof. reflexivity. Qed.
Lemma loop_count_with_running_id v w : loop_count (with_running_id v w) = loop_count w.
Proof. reflexivity. Qed.
Lemma loop_count_with_entities v w : loop_count (with_entities v w) = loop_count w.
Proof. reflexivity. Qed.
Lemma loop_count_with_queued_entities_for_removal v w : loop_count (with_queued_entities_for_removal v w) = loop_count w.
Proof. reflexivity. Qed.
Lemma loop_count_with_player v w : loop_count (with_player v w) = loop_count w.
Proof. reflexivity. Qed.
Lemma loop_count_with_enemy_spawner v w : loop_count (with_enemy_spawner v w) = loop_count w.
Proof. reflexivity. Qed.
Lemma loop_count_with_collision_handler v w : loop_count (with_collision_handler v w) = loop_count w.
Proof. reflexivity. Qed.
Lemma loop_count_with_enemiesKilled v w : loop_count (with_enemiesKilled v w) = loop_count w.
Proof. reflexivity. Qed.
Lemma loop_count_with_timeAlive v w : loop_count (with_timeAlive v w) = loop_count w.
Proof. reflexivity. Qed.
Lemma loop_count_with_bossesSpawned v w : loop_count (with_bossesSpawned v w) = loop_count w.
Proof. reflexivity. Qed.
Lemma loop_count_with_bossesKilled v w : loop_count (with_bossesKilled v w) = loop_count w.
Proof. reflexivity. Qed.
Lemma loop_count_with_enemiesSpawned v w : loop_count (with_enemiesSpawned v w) = loop_count w.
Proof. reflexivity. Qed.
Lemma loop_count_with_score v w : loop_count (with_score v w) = loop_count w.
Proof. reflexivity. Qed.
Lemma loop_count_with_HighScore v w : loop_count (with_HighScore v w) = loop_count w.
Proof. reflexivity. Qed.
Lemma loop_count_with_firstGame v w : loop_count (with_firstGame v w) = loop_count w.
Proof. reflexivity. Qed.
Lemma loop_count_with_heap v w : loop_count (with_heap v w) = loop_count w.
Proof. reflexivity. Qed.
Lemma loop_count_with_random_calls v w : loop_count (with_random_calls v w) = loop_count w.
Proof. reflexivity. Qed.

Lemma running_id_with_last_time v w : running_id (with_last_time v w) = running_id w.
Proof. reflexivity. Qed.
Lemma running_id_with_loop_count v w : running_id (with_loop_count v w) = running_id w.
Proof. reflexivity. Qed.
Lemma running_id_with_running_id v w : running_id (with_running_id v w) = v.
Proof. reflexivity. Qed.
Lemma running_id_with_entities v w : running_id (with_entities v w) = running_id w.
Proof. reflexivity. Qed.
Lemma running_id_with_queued_entities_for_removal v w : running_id (with_queued_entities_for_removal v w) = running_id w.
Proof. reflexivity. Qed.
Lemma running_id_with_player v w : running_id (with_player v w) = running_id w.
Proof. reflexivity. Qed.
Lemma running_id_with_enemy_spawner v w : running_id (with_enemy_spawner v w) = running_id w.
Proof. reflexivity. Qed.
Lemma running_id_with_collision_handler v w : running_id (with_collision_handler v w) = running_id w.
Proof. reflexivity. Qed.
Lemma running_id_with_enemiesKilled v w : running_id (with_enemiesKilled v w) = running_id w.
Proof. reflexivity. Qed.
Lemma running_id_with_timeAlive v w : running_id (with_timeAlive v w) = running_id w.
Proof. reflexivity. Qed.
Lemma running_id_with_bossesSpawned v w : running_id (with_bossesSpawned v w) = running_id w.
Proof. reflexivity. Qed.
Lemma running_id_with_bossesKilled v w : running_id (with_bossesKilled v w) = running_id w.
Proof. reflexivity. Qed.
Lemma running_id_with_enemiesSpawned v w : running_id (with_enemiesSpawned v w) = running_id w.
Proof. reflexivity. Qed.
Lemma running_id_with_score v w : running_id (with_score v w) = running_id w.
Proof. reflexivity. Qed.
Lemma running_id_with_HighScore v w : running_id (with_HighScore v w) = running_id w.
Proof. reflexivity. Qed.
Lemma running_id_with_firstGame v w : running_id (with_firstGame v w) = running_id w.
Proof. reflexivity. Qed.
Lemma running_id_with_heap v w : running_id (with_heap v w) = running_id w.
Proof. reflexivity. Qed.
Lemma running_id_with_random_calls v w : running_id (with_random_calls v w) = running_id w.
Proof. reflexivity. Qed.

Lemma entities_with_last_time v w : entities (with_last_time v w) = entities w.
Proof. reflexivity. Qed.
Lemma entities_with_loop_count v w : entities (with_loop_count v w) = entities w.
Proof. reflexivity. Qed.
Lemma entities_with_running_id v w : entities (with_running_id v w) = entities w.
Proof. reflexivity. Qed.
Lemma entities_with_entities v w : entities (with_entities v w) = v.
Proof. reflexivity. Qed.
Lemma entities_with_queued_entities_for_removal v w : entities (with_queued_entities_for_removal v w) = entities w.
Proof. reflexivity. Qed.
Lemma entities_with_player v w : entities (with_player v w) = entities w.
Proof. reflexivity. Qed.
Lemma entities_with_enemy_spawner v w : entities (with_enemy_spawner v w) = entities w.
Proof. reflexivity. Qed.
Lemma entities_with_collision_handler v w : entities (with_collision_handler v w) = entities w.
Proof. reflexivity. Qed.
Lemma entities_with_enemiesKilled v w : entities (with_enemiesKilled v w) = entities w.
Proof. reflexivity. Qed.
Lemma entities_with_timeAlive v w : entities (with_timeAlive v w) = entities w.
Proof. reflexivity. Qed.
Lemma entities_with_bossesSpawned v w : entities (with_bossesSpawned v w) = entities w.
Proof. reflexivity. Qed.
Lemma entities_with_bossesKilled v w : entities (with_bossesKilled v w) = entities w.
Proof. reflexivity. Qed.
Lemma entities_with_enemiesSpawned v w : entities (with_enemiesSpawned v w) = entities w.
Proof. reflexivity. Qed.
Lemma entities_with_score v w : entities (with_score v w) = entities w.
Proof. reflexivity. Qed.
Lemma entities_with_HighScore v w : entities (with_HighScore v w) = entities w.
Proof. reflexivity. Qed.
Lemma entities_with_firstGame v w : entities (with_firstGame v w) = entities w.
Proof. reflexivity. Qed.
Lemma entities_with_heap v w : entities (with_heap v w) = entities w.
Proof. reflexivity. Qed.
Lemma entities_with_random_calls v w : entities (with_random_calls v w) = entities w.
Proof. reflexivity. Qed.

Lemma queued_entities_for_removal_with_last_time v w : queued_entities_for_removal (with_last_time v w) = queued_entities_for_removal w.
Proof. reflexivity. Qed.
Lemma queued_entities_for_removal_with_loop_count v w : queued_entities_for_removal (with_loop_count v w) = queued_entities_for_removal w.
Proof. reflexivity. Qed.
Lemma queued_entities_for_removal_with_running_id v w : queued_entities_for_removal (with_running_id v w) = queued_entities_for_removal w.
Proof. reflexivity. Qed.
Lemma queued_entities_for_removal_with_entities v w : queued_entities_for_removal (with_entities v w) = queued_entities_for_removal w.
Proof. reflexivity. Qed.
Lemma queued_entities_for_removal_with_queued_entities_for_removal v w : queued_entities_for_removal (with_queued_entities_for_removal v w) = v.
Proof. reflexivity. Qed.
Lemma queued_entities_for_removal_with_player v w : queued_entities_for_removal (with_player v w) = queued_entities_for_removal w.
Proof. reflexivity. Qed.
Lemma queued_entities_for_removal_with_enemy_spawner v w : queued_entities_for_removal (with_enemy_spawner v w) = queued_entities_for_removal w.
Proof. reflexivity. Qed.
Lemma queued_entities_for_removal_with_collision_handler v w : queued_entities_for_removal (with_collision_handler v w) = queued_entities_for_removal w.
Proof. reflexivity. Qed.
Lemma queued_entities_for_removal_with_enemiesKilled v w : queued_entities_for_removal (with_enemiesKilled v w) = queued_entities_for_removal w.
Proof. reflexivity. Qed.
Lemma queued_entities_for_removal_with_timeAlive v w : queued_entities_for_removal (with_timeAlive v w) = queued_entities_for_removal w.
Proof. reflexivity. Qed.
Lemma queued_entities_for_removal_with_bossesSpawned v w : queued_entities_for_removal (with_bossesSpawned v w) = queued_entities_for_removal w.
Proof. reflexivity. Qed.
Lemma queued_entities_for_removal_with_bossesKilled v w : queued_entities_for_removal (with_bossesKilled v w) = queued_entities_for_removal w.
Proof. reflexivity. Qed.
Lemma queued_entities_for_removal_with_enemiesSpawned v w : queued_entities_for_removal (with_enemiesSpawned v w) = queued_entities_for_removal w.
Proof. reflexivity. Qed.
Lemma queued_entities_for_removal_with_score v w : queued_entities_for_removal (with_score v w) = queued_entities_for_removal w.
Proof. reflexivity. Qed.
Lemma queued_entities_for_removal_with_HighScore v w : queued_entities_for_removal (with_HighScore v w) = queued_entities_for_removal w.
Proof. reflexivity. Qed.
Lemma queued_entities_for_removal_with_firstGame v w : queued_entities_for_removal (with_firstGame v w) = queued_entities_for_removal w.
Proof. reflexivity. Qed.
Lemma queued_entities_for_removal_with_heap v w : queued_entities_for_removal (with_heap v w) = queued_entities_for_removal w.
Proof. reflexivity. Qed.
Lemma queued_entities_for_removal_with_random_calls v w : queued_entities_for_removal (with_random_calls v w) = queued_entities_for_removal w.
Proof. reflexivity. Qed.

Lemma player_with_last_time v w : player (with_last_time v w) = player w.
Proof. reflexivity. Qed.
Lemma player_with_loop_count v w : player (with_loop_count v w) = player w.
Proof. reflexivity. Qed.
Lemma player_with_running_id v w : player (with_running_id v w) = player w.
Proof. reflexivity. Qed.
Lemma player_with_entities v w : player (with_entities v w) = player w.
Proof. reflexivity. Qed.
Lemma player_with_queued_entities_for_removal v w : player (with_queued_entities_for_removal v w) = player w.
Proof. reflexivity. Qed.
Lemma player_with_player v w : player (with_player v w) = v.
Proof. reflexivity. Qed.
Lemma player_with_enemy_spawner v w : player (with_enemy_spawner v w) = player w.
Proof. reflexivity. Qed.
Lemma player_with_collision_handler v w : player (with_collision_handler v w) = player w.
Proof. reflexivity. Qed.
Lemma player_with_enemiesKilled v w : player (with_enemiesKilled v w) = player w.
Proof. reflexivity. Qed.
Lemma player_with_timeAlive v w : player (with_timeAlive v w) = player w.
Proof. reflexivity. Qed.
Lemma player_with_bossesSpawned v w : player (with_bossesSpawned v w) = player w.
Proof. reflexivity. Qed.
Lemma player_with_bossesKilled v w : player (with_bossesKilled v w) = player w.
Proof. reflexivity. Qed.
Lemma player_with_enemiesSpawned v w : player (with_enemiesSpawned v w) = player w.
Proof. reflexivity. Qed.
Lemma player_with_score v w : player (with_score v w) = player w.
Proof. reflexivity. Qed.
Lemma player_with_HighScore v w : player (with_HighScore v w) = player w.
Proof. reflexivity. Qed.
Lemma player_with_firstGame v w : player (with_firstGame v w) = player w.
Proof. reflexivity. Qed.
Lemma player_with_heap v w : player (with_heap v w) = player w.
Proof. reflexivity. Qed.
Lemma player_with_random_calls v w : player (with_random_calls v w) = player w.
Proof. reflexivity. Qed.

Lemma enemy_spawner_with_last_time v w : enemy_spawner (with_last_time v w) = enemy_spawner w.
Proof. reflexivity. Qed.
Lemma enemy_spawner_with_loop_count v w : enemy_spawner (with_loop_count v w) = enemy_spawner w.
Proof. reflexivity. Qed.
Lemma enemy_spawner_with_running_id v w : enemy_spawner (with_running_id v w) = enemy_spawner w.
Proof. reflexivity. Qed.
Lemma enemy_spawner_with_entities v w : enemy_spawner (with_entities v w) = enemy_spawner w.
Proof. reflexivity. Qed.
Lemma enemy_spawner_with_queued_entities_for_removal v w : enemy_spawner (with_queued_entities_for_removal v w) = enemy_spawner w.
Proof. reflexivity. Qed.
Lemma enemy_spawner_with_player v w : enemy_spawner (with_player v w) = enemy_spawner w.
Proof. reflexivity. Qed.
Lemma enemy_spawner_with_enemy_spawner v w : enemy_spawner (with_enemy_spawner v w) = v.
Proof. reflexivity. Qed.
Lemma enemy_spawner_with_collision_handler v w : enemy_spawner (with_collision_handler v w) = enemy_spawner w.
Proof. reflexivity. Qed.
Lemma enemy_spawner_with_enemiesKilled v w : enemy_spawner (with_enemiesKilled v w) = enemy_spawner w.
Proof. reflexivity. Qed.
Lemma enemy_spawner_with_timeAlive v w : enemy_spawner (with_timeAlive v w) = enemy_spawner w.
Proof. reflexivity. Qed.
Lemma enemy_spawner_with_bossesSpawned v w : enemy_spawner (with_bossesSpawned v w) = enemy_spawner w.
Proof. reflexivity. Qed.
Lemma enemy_spawner_with_bossesKilled v w : enemy_spawner (with_bossesKilled v w) = enemy_spawner w.
Proof. reflexivity. Qed.
Lemma enemy_spawner_with_enemiesSpawned v w : enemy_spawner (with_enemiesSpawned v w) = enemy_spawner w.
Proof. reflexivity. Qed.
Lemma enemy_spawner_with_score v w : enemy_spawner (with_score v w) = enemy_spawner w.
Proof. reflexivity. Qed.
Lemma enemy_spawner_with_HighScore v w : enemy_spawner (with_HighScore v w) = enemy_spawner w.
Proof. reflexivity. Qed.
Lemma enemy_spawner_with_firstGame v w : enemy_spawner (with_firstGame v w) = enemy_spawner w.
Proof. reflexivity. Qed.
Lemma enemy_spawner_with_heap v w : enemy_spawner (with_heap v w) = enemy_spawner w.
Proof. reflexivity. Qed.
Lemma enemy_spawner_with_random_calls v w : enemy_spawner (with_random_calls v w) = enemy_spawner w.
Proof. reflexivity. Qed.

Lemma collision_handler_with_last_time v w : collision_handler (with_last_time v w) = collision_handler w.
Proof. reflexivity. Qed.
Lemma collision_handler_with_loop_count v w : collision_handler (with_loop_count v w) = collision_handler w.
Proof. reflexivity. Qed.
Lemma collision_handler_with_running_id v w : collision_handler (with_running_id v w) = collision_handler w.
Proof. reflexivity. Qed.
Lemma collision_handler_with_entities v w : collision_handler (with_entities v w) = collision_handler w.
Proof. reflexivity. Qed.
Lemma collision_handler_with_queued_entities_for_removal v w : collision_handler (with_queued_entities_for_removal v w) = collision_handler w.
Proof. reflexivity. Qed.
Lemma collision_handler_with_player v w : collision_handler (with_player v w) = collision_handler w.
Proof. reflexivity. Qed.
Lemma collision_handler_with_enemy_spawner v w : collision_handler (with_enemy_spawner v w) = collision_handler w.
Proof. reflexivity. Qed.
Lemma collision_handler_with_collision_handler v w : collision_handler (with_collision_handler v w) = v.
Proof. reflexivity. Qed.
Lemma collision_handler_with_enemiesKilled v w : collision_handler (with_enemiesKilled v w) = collision_handler w.
Proof. reflexivity. Qed.
Lemma collision_handler_with_timeAlive v w : collision_handler (with_timeAlive v w) = collision_handler w.
Proof. reflexivity. Qed.
Lemma collision_handler_with_bossesSpawned v w : collision_handler (with_bossesSpawned v w) = collision_handler w.
Proof. reflexivity. Qed.
Lemma collision_handler_with_bossesKilled v w : collision_handler (with_bossesKilled v w) = collision_handler w.
Proof. reflexivity. Qed.
Lemma collision_handler_with_enemiesSpawned v w : collision_handler (with_enemiesSpawned v w) = collision_handler w.
Proof. reflexivity. Qed.
Lemma collision_handler_with_score v w : collision_handler (with_score v w) = collision_handler w.
Proof. reflexivity. Qed.
Lemma collision_handler_with_HighScore v w : collision_handler (with_HighScore v w) = collision_handler w.
Proof. reflexivity. Qed.
Lemma collision_handler_with_firstGame v w : collision_handler (with_firstGame v w) = collision_handler w.
Proof. reflexivity. Qed.
Lemma collision_handler_with_heap v w : collision_handler (with_heap v w) = collision_handler w.
Proof. reflexivity. Qed.
Lemma collision_handler_with_random_calls v w : collision_handler (with_random_calls v w) = collision_handler w.
Proof. reflexivity. Qed.

Lemma enemiesKilled_with_last_time v w : enemiesKilled (with_last_time v w) = enemiesKilled w.
Proof. reflexivity. Qed.
Lemma enemiesKilled_with_loop_count v w : enemiesKilled (with_loop_count v w) = enemiesKilled w.
Proof. reflexivity. Qed.
Lemma enemiesKilled_with_running_id v w : enemiesKilled (with_running_id v w) = enemiesKilled w.
Proof. reflexivity. Qed.
Lemma enemiesKilled_with_entities v w : enemiesKilled (with_entities v w) = enemiesKilled w.
Proof. reflexivity. Qed.
Lemma enemiesKilled_with_queued_entities_for_removal v w : enemiesKilled (with_queued_entities_for_removal v w) = enemiesKilled w.
Proof. reflexivity. Qed.
Lemma enemiesKilled_with_player v w : enemiesKilled (with_player v w) = enemiesKilled w.
Proof. reflexivity. Qed.
Lemma enemiesKilled_with_enemy_spawner v w : enemiesKilled (with_enemy_spawner v w) = enemiesKilled w.
Proof. reflexivity. Qed.
Lemma enemiesKilled_with_collision_handler v w : enemiesKilled (with_collision_handler v w) = enemiesKilled w.
Proof. reflexivity. Qed.
Lemma enemiesKilled_with_enemiesKilled v w : enemiesKilled (with_enemiesKilled v w) = v.
Proof. reflexivity. Qed.
Lemma enemiesKilled_with_timeAlive v w : enemiesKilled (with_timeAlive v w) = enemiesKilled w.
Proof. reflexivity. Qed.
Lemma enemiesKilled_with_bossesSpawned v w : enemiesKilled (with_bossesSpawned v w) = enemiesKilled w.
Proof. reflexivity. Qed.
Lemma enemiesKilled_with_bossesKilled v w : enemiesKilled (with_bossesKilled v w) = enemiesKilled w.
Proof. reflexivity. Qed.
Lemma enemiesKilled_with_enemiesSpawned v w : enemiesKilled (with_enemiesSpawned v w) = enemiesKilled w.
Proof. reflexivity. Qed.
Lemma enemiesKilled_with_score v w : enemiesKilled (with_score v w) = enemiesKilled w.
Proof. reflexivity. Qed.
Lemma enemiesKilled_with_HighScore v w : enemiesKilled (with_HighScore v w) = enemiesKilled w.
Proof. reflexivity. Qed.
Lemma enemiesKilled_with_firstGame v w : enemiesKilled (with_firstGame v w) = enemiesKilled w.
Proof. reflexivity. Qed.
Lemma enemiesKilled_with_heap v w : enemiesKilled (with_heap v w) = enemiesKilled w.
Proof. reflexivity. Qed.
Lemma enemiesKilled_with_random_calls v w : enemiesKilled (with_random_calls v w) = enemiesKilled w.
Proof. reflexivity. Qed.

Lemma timeAlive_with_last_time v w : timeAlive (with_last_time v w) = timeAlive w.
Proof. reflexivity. Qed.
Lemma timeAlive_with_loop_count v w : timeAlive (with_loop_count v w) = timeAlive w.
Proof. reflexivity. Qed.
Lemma timeAlive_with_running_id v w : timeAlive (with_running_id v w) = timeAlive w.
Proof. reflexivity. Qed.
Lemma timeAlive_with_entities v w : timeAlive (with_entities v w) = timeAlive w.
Proof. reflexivity. Qed.
Lemma timeAlive_with_queued_entities_for_removal v w : timeAlive (with_queued_entities_for_removal v w) = timeAlive w.
Proof. reflexivity. Qed.
Lemma timeAlive_with_player v w : timeAlive (with_player v w) = timeAlive w.
Proof. reflexivity. Qed.
Lemma timeAlive_with_enemy_spawner v w : timeAlive (with_enemy_spawner v w) = timeAlive w.
Proof. reflexivity. Qed.
Lemma timeAlive_with_collision_handler v w : timeAlive (with_collision_handler v w) = timeAlive w.
Proof. reflexivity. Qed.
Lemma timeAlive_with_enemiesKilled v w : timeAlive (with_enemiesKilled v w) = timeAlive w.
Proof. reflexivity. Qed.
Lemma timeAlive_with_timeAlive v w : timeAlive (with_timeAlive v w) = v.
Proof. reflexivity. Qed.
Lemma timeAlive_with_bossesSpawned v w : timeAlive (with_bossesSpawned v w) = timeAlive w.
Proof. reflexivity. Qed.
Lemma timeAlive_with_bossesKilled v w : timeAlive (with_bossesKilled v w) = timeAlive w.
Proof. reflexivity. Qed.
Lemma timeAlive_with_enemiesSpawned v w : timeAlive (with_enemiesSpawned v w) = timeAlive w.
Proof. reflexivity. Qed.
Lemma timeAlive_with_score v w : timeAlive (with_score v w) = timeAlive w.
Proof. reflexivity. Qed.
Lemma timeAlive_with_HighScore v w : timeAlive (with_HighScore v w) = timeAlive w.
Proof. reflexivity. Qed.
Lemma timeAlive_with_firstGame v w : timeAlive (with_firstGame v w) = timeAlive w.
Proof. reflexivity. Qed.
Lemma timeAlive_with_heap v w : timeAlive (with_heap v w) = timeAlive w.
Proof. reflexivity. Qed.
Lemma timeAlive_with_random_calls v w : timeAlive (with_random_calls v w) = timeAlive w.
Proof. reflexivity. Qed.

Lemma bossesSpawned_with_last_time v w : bossesSpawned (with_last_time v w) = bossesSpawned w.
Proof. reflexivity. Qed.
Lemma bossesSpawned_with_loop_count v w : bossesSpawned (with_loop_count v w) = bossesSpawned w.
Proof. reflexivity. Qed.
Lemma bossesSpawned_with_running_id v w : bossesSpawned (with_running_id v w) = bossesSpawned w.
Proof. reflexivity. Qed.
Lemma bossesSpawned_with_entities v w : bossesSpawned (with_entities v w) = bossesSpawned w.
Proof. reflexivity. Qed.
Lemma bossesSpawned_with_queued_entities_for_removal v w : bossesSpawned (with_queued_entities_for_removal v w) = bossesSpawned w.
Proof. reflexivity. Qed.
Lemma bossesSpawned_with_player v w : bossesSpawned (with_player v w) = bossesSpawned w.
Proof. reflexivity. Qed.
Lemma bossesSpawned_with_enemy_spawner v w : bossesSpawned (with_enemy_spawner v w) = bossesSpawned w.
Proof. reflexivity. Qed.
Lemma bossesSpawned_with_collision_handler v w : bossesSpawned (with_collision_handler v w) = bossesSpawned w.
Proof. reflexivity. Qed.
Lemma bossesSpawned_with_enemiesKilled v w : bossesSpawned (with_enemiesKilled v w) = bossesSpawned w.
Proof. reflexivity. Qed.
Lemma bossesSpawned_with_timeAlive v w : bossesSpawned (with_timeAlive v w) = bossesSpawned w.
Proof. reflexivity. Qed.
Lemma bossesSpawned_with_bossesSpawned v w : bossesSpawned (with_bossesSpawned v w) = v.
Proof. reflexivity. Qed.
Lemma bossesSpawned_with_bossesKilled v w : bossesSpawned (with_bossesKilled v w) = bossesSpawned w.
Proof. reflexivity. Qed.
Lemma bossesSpawned_with_enemiesSpawned v w : bossesSpawned (with_enemiesSpawned v w) = bossesSpawned w.
Proof. reflexivity. Qed.
Lemma bossesSpawned_with_score v w : bossesSpawned (with_score v w) = bossesSpawned w.
Proof. reflexivity. Qed.
Lemma bossesSpawned_with_HighScore v w : bossesSpawned (with_HighScore v w) = bossesSpawned w.
Proof. reflexivity. Qed.
Lemma bossesSpawned_with_firstGame v w : bossesSpawned (with_firstGame v w) = bossesSpawned w.
Proof. reflexivity. Qed.
Lemma bossesSpawned_with_heap v w : bossesSpawned (with_heap v w) = bossesSpawned w.
Proof. reflexivity. Qed.
Lemma bossesSpawned_with_random_calls v w : bossesSpawned (with_random_calls v w) = bossesSpawned w.
Proof. reflexivity. Qed.

Lemma bossesKilled_with_last_time v w : bossesKilled (with_last_time v w) = bossesKilled w.
Proof. reflexivity. Qed.
Lemma bossesKilled_with_loop_count v w : bossesKilled (with_loop_count v w) = bossesKilled w.
Proof. reflexivity. Qed.
Lemma bossesKilled_with_running_id v w : bossesKilled (with_running_id v w) = bossesKilled w.
Proof. reflexivity. Qed.
Lemma bossesKilled_with_entities v w : bossesKilled (with_entities v w) = bossesKilled w.
Proof. reflexivity. Qed.
Lemma bossesKilled_with_queued_entities_for_removal v w : bossesKilled (with_queued_entities_for_removal v w) = bossesKilled w.
Proof. reflexivity. Qed.
Lemma bossesKilled_with_player v w : bossesKilled (with_player v w) = bossesKilled w.
Proof. reflexivity. Qed.
Lemma bossesKilled_with_enemy_spawner v w : bossesKilled (with_enemy_spawner v w) = bossesKilled w.
Proof. reflexivity. Qed.
Lemma bossesKilled_with_collision_handler v w : bossesKilled (with_collision_handler v w) = bossesKilled w.
Proof. reflexivity. Qed.
Lemma bossesKilled_with_enemiesKilled v w : bossesKilled (with_enemiesKilled v w) = bossesKilled w.
Proof. reflexivity. Qed.
Lemma bossesKilled_with_timeAlive v w : bossesKilled (with_timeAlive v w) = bossesKilled w.
Proof. reflexivity. Qed.
Lemma bossesKilled_with_bossesSpawned v w : bossesKilled (with_bossesSpawned v w) = bossesKilled w.
Proof. reflexivity. Qed.
Lemma bossesKilled_with_bossesKilled v w : bossesKilled (with_bossesKilled v w) = v.
Proof. reflexivity. Qed.
Lemma bossesKilled_with_enemiesSpawned v w : bossesKilled (with_enemiesSpawned v w) = bossesKilled w.
Proof. reflexivity. Qed.
Lemma bossesKilled_with_score v w : bossesKilled (with_score v w) = bossesKilled w.
Proof. reflexivity. Qed.
Lemma bossesKilled_with_HighScore v w : bossesKilled (with_HighScore v w) = bossesKilled w.
Proof. reflexivity. Qed.
Lemma bossesKilled_with_firstGame v w : bossesKilled (with_firstGame v w) = bossesKilled w.
Proof. reflexivity. Qed.
Lemma bossesKilled_with_heap v w : bossesKilled (with_heap v w) = bossesKilled w.
Proof. reflexivity. Qed.
Lemma bossesKilled_with_random_calls v w : bossesKilled (with_random_calls v w) = bossesKilled w.
Proof. reflexivity. Qed.

Lemma enemiesSpawned_with_last_time v w : enemiesSpawned (with_last_time v w) = enemiesSpawned w.
Proof. reflexivity. Qed.
Lemma enemiesSpawned_with_loop_count v w : enemiesSpawned (with_loop_count v w) = enemiesSpawned w.
Proof. reflexivity. Qed.
Lemma enemiesSpawned_with_running_id v w : enemiesSpawned (with_running_id v w) = enemiesSpawned w.
Proof. reflexivity. Qed.
Lemma enemiesSpawned_with_entities v w : enemiesSpawned (with_entities v w) = enemiesSpawned w.
Proof. reflexivity. Qed.
Lemma enemiesSpawned_with_queued_entities_for_removal v w : enemiesSpawned (with_queued_entities_for_removal v w) = enemiesSpawned w.
Proof. reflexivity. Qed.
Lemma enemiesSpawned_with_player v w : enemiesSpawned (with_player v w) = enemiesSpawned w.
Proof. reflexivity. Qed.
Lemma enemiesSpawned_with_enemy_spawner v w : enemiesSpawned (with_enemy_spawner v w) = enemiesSpawned w.
Proof. reflexivity. Qed.
Lemma enemiesSpawned_with_collision_handler v w : enemiesSpawned (with_collision_handler v w) = enemiesSpawned w.
Proof. reflexivity. Qed.
Lemma enemiesSpawned_with_enemiesKilled v w : enemiesSpawned (with_enemiesKilled v w) = enemiesSpawned w.
Proof. reflexivity. Qed.
Lemma enemiesSpawned_with_timeAlive v w : enemiesSpawned (with_timeAlive v w) = enemiesSpawned w.
Proof. reflexivity. Qed.
Lemma enemiesSpawned_with_bossesSpawned v w : enemiesSpawned (with_bossesSpawned v w) = enemiesSpawned w.
Proof. reflexivity. Qed.
Lemma enemiesSpawned_with_bossesKilled v w : enemiesSpawned (with_bossesKilled v w) = enemiesSpawned w.
Proof. reflexivity. Qed.
Lemma enemiesSpawned_with_enemiesSpawned v w : enemiesSpawned (with_enemiesSpawned v w) = v.
Proof. reflexivity. Qed.
Lemma enemiesSpawned_with_score v w : enemiesSpawned (with_score v w) = enemiesSpawned w.
Proof. reflexivity. Qed.
Lemma enemiesSpawned_with_HighScore v w : enemiesSpawned (with_HighScore v w) = enemiesSpawned w.
Proof. reflexivity. Qed.
Lemma enemiesSpawned_with_firstGame v w : enemiesSpawned (with_firstGame v w) = enemiesSpawned w.
Proof. reflexivity. Qed.
Lemma enemiesSpawned_with_heap v w : enemiesSpawned (with_heap v w) = enemiesSpawned w.
Proof. reflexivity. Qed.
Lemma enemiesSpawned_with_random_calls v w : enemiesSpawned (with_random_calls v w) = enemiesSpawned w.
Proof. reflexivity. Qed.

Lemma score_with_last_time v w : score (with_last_time v w) = score w.
Proof. reflexivity. Qed.
Lemma score_with_loop_count v w : score (with_loop_count v w) = score w.
Proof. reflexivity. Qed.
Lemma score_with_running_id v w : score (with_running_id v w) = score w.
Proof. reflexivity. Qed.
Lemma score_with_entities v w : score (with_entities v w) = score w.
Proof. reflexivity. Qed.
Lemma score_with_queued_entities_for_removal v w : score (with_queued_entities_for_removal v w) = score w.
Proof. reflexivity. Qed.
Lemma score_with_player v w : score (with_player v w) = score w.
Proof. reflexivity. Qed.
Lemma score_with_enemy_spawner v w : score (with_enemy_spawner v w) = score w.
Proof. reflexivity. Qed.
Lemma score_with_collision_handler v w : score (with_collision_handler v w) = score w.
Proof. reflexivity. Qed.
Lemma score_with_enemiesKilled v w : score (with_enemiesKilled v w) = score w.
Proof. reflexivity. Qed.
Lemma score_with_timeAlive v w : score (with_timeAlive v w) = score w.
Proof. reflexivity. Qed.
Lemma score_with_bossesSpawned v w : score (with_bossesSpawned v w) = score w.
Proof. reflexivity. Qed.
Lemma score_with_bossesKilled v w : score (with_bossesKilled v w) = score w.
Proof. reflexivity. Qed.
Lemma score_with_enemiesSpawned v w : score (with_enemiesSpawned v w) = score w.
Proof. reflexivity. Qed.
Lemma score_with_score v w : score (with_score v w) = v.
Proof. reflexivity. Qed.
Lemma score_with_HighScore v w : score (with_HighScore v w) = score w.
Proof. reflexivity. Qed.
Lemma score_with_firstGame v w : score (with_firstGame v w) = score w.
Proof. reflexivity. Qed.
Lemma score_with_heap v w : score (with_heap v w) = score w.
Proof. reflexivity. Qed.
Lemma score_with_random_calls v w : score (with_random_calls v w) = score w.
Proof. reflexivity. Qed.

Lemma HighScore_with_last_time v w : HighScore (with_last_time v w) = HighScore w.
Proof. reflexivity. Qed.
Lemma HighScore_with_loop_count v w : HighScore (with_loop_count v w) = HighScore w.
Proof. reflexivity. Qed.
Lemma HighScore_with_running_id v w : HighScore (with_running_id v w) = HighScore w.
Proof. reflexivity. Qed.
Lemma HighScore_with_entities v w : HighScore (with_entities v w) = HighScore w.
Proof. reflexivity. Qed.
Lemma HighScore_with_queued_entities_for_removal v w : HighScore (with_queued_entities_for_removal v w) = HighScore w.
Proof. reflexivity. Qed.
Lemma HighScore_with_player v w : HighScore (with_player v w) = HighScore w.
Proof. reflexivity. Qed.
Lemma HighScore_with_enemy_spawner v w : HighScore (with_enemy_spawner v w) = HighScore w.
Proof. reflexivity. Qed.
Lemma HighScore_with_collision_handler v w : HighScore (with_collision_handler v w) = HighScore w.
Proof. reflexivity. Qed.
Lemma HighScore_with_enemiesKilled v w : HighScore (with_enemiesKilled v w) = HighScore w.
Proof. reflexivity. Qed.
Lemma HighScore_with_timeAlive v w : HighScore (with_timeAlive v w) = HighScore w.
Proof. reflexivity. Qed.
Lemma HighScore_with_bossesSpawned v w : HighScore (with_bossesSpawned v w) = HighScore w.
Proof. reflexivity. Qed.
Lemma HighScore_with_bossesKilled v w : HighScore (with_bossesKilled v w) = HighScore w.
Proof. reflexivity. Qed.
Lemma HighScore_with_enemiesSpawned v w : HighScore (with_enemiesSpawned v w) = HighScore w.
Proof. reflexivity. Qed.
Lemma HighScore_with_score v w : HighScore (with_score v w) = HighScore w.
Proof. reflexivity. Qed.
Lemma HighScore_with_HighScore v w : HighScore (with_HighScore v w) = v.
Proof. reflexivity. Qed.
Lemma HighScore_with_firstGame v w : HighScore (with_firstGame v w) = HighScore w.
Proof. reflexivity. Qed.
Lemma HighScore_with_heap v w : HighScore (with_heap v w) = HighScore w.
Proof. reflexivity. Qed.
Lemma HighScore_with_random_calls v w : HighScore (with_random_calls v w) = HighScore w.
Proof. reflexivity. Qed.

Lemma firstGame_with_last_time v w : firstGame (with_last_time v w) = firstGame w.
Proof. reflexivity. Qed.
Lemma firstGame_with_loop_count v w : firstGame (with_loop_count v w) = firstGame w.
Proof. reflexivity. Qed.
Lemma firstGame_with_running_id v w : firstGame (with_running_id v w) = firstGame w.
Proof. reflexivity. Qed.
Lemma firstGame_with_entities v w : firstGame (with_entities v w) = firstGame w.
Proof. reflexivity. Qed.
Lemma firstGame_with_queued_entities_for_removal v w : firstGame (with_queued_entities_for_removal v w) = firstGame w.
Proof. reflexivity. Qed.
Lemma firstGame_with_player v w : firstGame (with_player v w) = firstGame w.
Proof. reflexivity. Qed.
Lemma firstGame_with_enemy_spawner v w : firstGame (with_enemy_spawner v w) = firstGame w.
Proof. reflexivity. Qed.
Lemma firstGame_with_collision_handler v w : firstGame (with_collision_handler v w) = firstGame w.
Proof. reflexivity. Qed.
Lemma firstGame_with_enemiesKilled v w : firstGame (with_enemiesKilled v w) = firstGame w.
Proof. reflexivity. Qed.
Lemma firstGame_with_timeAlive v w : firstGame (with_timeAlive v w) = firstGame w.
Proof. reflexivity. Qed.
Lemma firstGame_with_bossesSpawned v w : firstGame (with_bossesSpawned v w) = firstGame w.
Proof. reflexivity. Qed.
Lemma firstGame_with_bossesKilled v w : firstGame (with_bossesKilled v w) = firstGame w.
Proof. reflexivity. Qed.
Lemma firstGame_with_enemiesSpawned v w : firstGame (with_enemiesSpawned v w) = firstGame w.
Proof. reflexivity. Qed.
Lemma firstGame_with_score v w : firstGame (with_score v w) = firstGame w.
Proof. reflexivity. Qed.
Lemma firstGame_with_HighScore v w : firstGame (with_HighScore v w) = firstGame w.
Proof. reflexivity. Qed.
Lemma firstGame_with_firstGame v w : firstGame (with_firstGame v w) = v.
Proof. reflexivity. Qed.
Lemma firstGame_with_heap v w : firstGame (with_heap v w) = firstGame w.
Proof. reflexivity. Qed.
Lemma firstGame_with_random_calls v w : firstGame (with_random_calls v w) = firstGame w.
Proof. reflexivity. Qed.

Lemma heap_with_last_time v w : heap (with_last_time v w) = heap w.
Proof. reflexivity. Qed.
Lemma heap_with_loop_count v w : heap (with_loop_count v w) = heap w.
Proof. reflexivity. Qed.
Lemma heap_with_running_id v w : heap (with_running_id v w) = heap w.
Proof. reflexivity. Qed.
Lemma heap_with_entities v w : heap (with_entities v w) = heap w.
Proof. reflexivity. Qed.
Lemma heap_with_queued_entities_for_removal v w : heap (with_queued_entities_for_removal v w) = heap w.
Proof. reflexivity. Qed.
Lemma heap_with_player v w : heap (with_player v w) = heap w.
Proof. reflexivity. Qed.
Lemma heap_with_enemy_spawner v w : heap (with_enemy_spawner v w) = heap w.
Proof. reflexivity. Qed.
Lemma heap_with_collision_handler v w : heap (with_collision_handler v w) = heap w.
Proof. reflexivity. Qed.
Lemma heap_with_enemiesKilled v w : heap (with_enemiesKilled v w) = heap w.
Proof. reflexivity. Qed.
Lemma heap_with_timeAlive v w : heap (with_timeAlive v w) = heap w.
Proof. reflexivity. Qed.
Lemma heap_with_bossesSpawned v w : heap (with_bossesSpawned v w) = heap w.
Proof. reflexivity. Qed.
Lemma heap_with_bossesKilled v w : heap (with_bossesKilled v w) = heap w.
Proof. reflexivity. Qed.
Lemma heap_with_enemiesSpawned v w : heap (with_enemiesSpawned v w) = heap w.
Proof. reflexivity. Qed.
Lemma heap_with_score v w : heap (with_score v w) = heap w.
Proof. reflexivity. Qed.
Lemma heap_with_HighScore v w : heap (with_HighScore v w) = heap w.
Proof. reflexivity. Qed.
Lemma heap_with_firstGame v w : heap (with_firstGame v w) = heap w.
Proof. reflexivity. Qed.
Lemma heap_with_heap v w : heap (with_heap v w) = v.
Proof. reflexivity. Qed.
Lemma heap_with_random_calls v w : heap (with_random_calls v w) = heap w.
Proof. reflexivity. Qed.

Lemma random_calls_with_last_time v w : random_calls (with_last_time v w) = random_calls w.
Proof. reflexivity. Qed.
Lemma random_calls_with_loop_count v w : random_calls (with_loop_count v w) = random_calls w.
Proof. reflexivity. Qed.
Lemma random_calls_with_running_id v w : random_calls (with_running_id v w) = random_calls w.
Proof. reflexivity. Qed.
Lemma random_calls_with_entities v w : random_calls (with_entities v w) = random_calls w.
Proof. reflexivity. Qed.
Lemma random_calls_with_queued_entities_for_removal v w : random_calls (with_queued_entities_for_removal v w) = random_calls w.
Proof. reflexivity. Qed.
Lemma random_calls_with_player v w : random_calls (with_player v w) = random_calls w.
Proof. reflexivity. Qed.
Lemma random_calls_with_enemy_spawner v w : random_calls (with_enemy_spawner v w) = random_calls w.
Proof. reflexivity. Qed.
Lemma random_calls_with_collision_handler v w : random_calls (with_collision_handler v w) = random_calls w.
Proof. reflexivity. Qed.
Lemma random_calls_with_enemiesKilled v w : random_calls (with_enemiesKilled v w) = random_calls w.
Proof. reflexivity. Qed.
Lemma random_calls_with_timeAlive v w : random_calls (with_timeAlive v w) = random_calls w.
Proof. reflexivity. Qed.
Lemma random_calls_with_bossesSpawned v w : random_calls (with_bossesSpawned v w) = random_calls w.
Proof. reflexivity. Qed.
Lemma random_calls_with_bossesKilled v w : random_calls (with_bossesKilled v w) = random_calls w.
Proof. reflexivity. Qed.
Lemma random_calls_with_enemiesSpawned v w : random_calls (with_enemiesSpawned v w) = random_calls w.
Proof. reflexivity. Qed.
Lemma random_calls_with_score v w : random_calls (with_score v w) = random_calls w.
Proof. reflexivity. Qed.
Lemma random_calls_with_HighScore v w : random_calls (with_HighScore v w) = random_calls w.
Proof. reflexivity. Qed.
Lemma random_calls_with_firstGame v w : random_calls (with_firstGame v w) = random_calls w.
Proof. reflexivity. Qed.
Lemma random_calls_with_heap v w : random_calls (with_heap v w) = random_calls w.
Proof. reflexivity. Qed.
Lemma random_calls_with_random_calls v w : random_calls (with_random_calls v w) = v.
Proof. reflexivity. Qed.

Lemma random_source_with_last_time v w : random_source (with_last_time v w) = random_source w.
Proof. reflexivity. Qed.
Lemma random_source_with_loop_count v w : random_source (with_loop_count v w) = random_source w.
Proof. reflexivity. Qed.
Lemma random_source_with_running_id v w : random_source (with_running_id v w) = random_source w.
Proof. reflexivity. Qed.
Lemma random_source_with_entities v w : random_source (with_entities v w) = random_source w.
Proof. reflexivity. Qed.
Lemma random_source_with_queued_entities_for_removal v w : random_source (with_queued_entities_for_removal v w) = random_source w.
Proof. reflexivity. Qed.
Lemma random_source_with_player v w : random_source (with_player v w) = random_source w.
Proof. reflexivity. Qed.
Lemma random_source_with_enemy_spawner v w : random_source (with_enemy_spawner v w) = random_source w.
Proof. reflexivity. Qed.
Lemma random_source_with_collision_handler v w : random_source (with_collision_handler v w) = random_source w.
Proof. reflexivity. Qed.
Lemma random_source_with_enemiesKilled v w : random_source (with_enemiesKilled v w) = random_source w.
Proof. reflexivity. Qed.
Lemma random_source_with_timeAlive v w : random_source (with_timeAlive v w) = random_source w.
Proof. reflexivity. Qed.
Lemma random_source_with_bossesSpawned v w : random_source (with_bossesSpawned v w) = random_source w.
Proof. reflexivity. Qed.
Lemma random_source_with_bossesKilled v w : random_source (with_bossesKilled v w) = random_source w.
Proof. reflexivity. Qed.
Lemma random_source_with_enemiesSpawned v w : random_source (with_enemiesSpawned v w) = random_source w.
Proof. reflexivity. Qed.
Lemma random_source_with_score v w : random_source (with_score v w) = random_source w.
Proof. reflexivity. Qed.
Lemma random_source_with_HighScore v w : random_source (with_HighScore v w) = random_source w.
Proof. reflexivity. Qed.
Lemma random_source_with_firstGame v w : random_source (with_firstGame v w) = random_source w.
Proof. reflexivity. Qed.
Lemma random_source_with_heap v w : random_source (with_heap v w) = random_source w.
Proof. reflexivity. Qed.
Lemma random_source_with_random_calls v w : random_source (with_random_calls v w) = random_source w.
Proof. reflexivity. Qed.

Lemma Math_cos_PI_4_with_last_time v w : Math_cos_PI_4 (with_last_time v w) = Math_cos_PI_4 w.
Proof. reflexivity. Qed.
Lemma Math_cos_PI_4_with_loop_count v w : Math_cos_PI_4 (with_loop_count v w) = Math_cos_PI_4 w.
Proof. reflexivity. Qed.
Lemma Math_cos_PI_4_with_running_id v w : Math_cos_PI_4 (with_running_id v w) = Math_cos_PI_4 w.
Proof. reflexivity. Qed.
Lemma Math_cos_PI_4_with_entities v w : Math_cos_PI_4 (with_entities v w) = Math_cos_PI_4 w.
Proof. reflexivity. Qed.
Lemma Math_cos_PI_4_with_queued_entities_for_removal v w : Math_cos_PI_4 (with_queued_entities_for_removal v w) = Math_cos_PI_4 w.
Proof. reflexivity. Qed.
Lemma Math_cos_PI_4_with_player v w : Math_cos_PI_4 (with_player v w) = Math_cos_PI_4 w.
Proof. reflexivity. Qed.
Lemma Math_cos_PI_4_with_enemy_spawner v w : Math_cos_PI_4 (with_enemy_spawner v w) = Math_cos_PI_4 w.
Proof. reflexivity. Qed.
Lemma Math_cos_PI_4_with_collision_handler v w : Math_cos_PI_4 (with_collision_handler v w) = Math_cos_PI_4 w.
Proof. reflexivity. Qed.
Lemma Math_cos_PI_4_with_enemiesKilled v w : Math_cos_PI_4 (with_enemiesKilled v w) = Math_cos_PI_4 w.
Proof. reflexivity. Qed.
Lemma Math_cos_PI_4_with_timeAlive v w : Math_cos_PI_4 (with_timeAlive v w) = Math_cos_PI_4 w.
Proof. reflexivity. Qed.
Lemma Math_cos_PI_4_with_bossesSpawned v w : Math_cos_PI_4 (with_bossesSpawned v w) = Math_cos_PI_4 w.
Proof. reflexivity. Qed.
Lemma Math_cos_PI_4_with_bossesKilled v w : Math_cos_PI_4 (with_bossesKilled v w) = Math_cos_PI_4 w.
Proof. reflexivity. Qed.
Lemma Math_cos_PI_4_with_enemiesSpawned v w : Math_cos_PI_4 (with_enemiesSpawned v w) = Math_cos_PI_4 w.
Proof. reflexivity. Qed.
Lemma Math_cos_PI_4_with_score v w : Math_cos_PI_4 (with_score v w) = Math_cos_PI_4 w.
Proof. reflexivity. Qed.
Lemma Math_cos_PI_4_with_HighScore v w : Math_cos_PI_4 (with_HighScore v w) = Math_cos_PI_4 w.
Proof. reflexivity. Qed.
Lemma Math_cos_PI_4_with_firstGame v w : Math_cos_PI_4 (with_firstGame v w) = Math_cos_PI_4 w.
Proof. reflexivity. Qed.
Lemma Math_cos_PI_4_with_heap v w : Math_cos_PI_4 (with_heap v w) = Math_cos_PI_4 w.
Proof. reflexivity. Qed.
Lemma Math_cos_PI_4_with_random_calls v w : Math_cos_PI_4 (with_random_calls v w) = Math_cos_PI_4 w.
Proof. reflexivity. Qed.

Lemma deref_with_last_time v w r : deref (with_last_time v w) r = deref w r.
Proof. reflexivity. Qed.
Lemma deref_with_loop_count v w r : deref (with_loop_count v w) r = deref w r.
Proof. reflexivity. Qed.
Lemma deref_with_running_id v w r : deref (with_running_id v w) r = deref w r.
Proof. reflexivity. Qed.
Lemma deref_with_entities v w r : deref (with_entities v w) r = deref w r.
Proof. reflexivity. Qed.
Lemma deref_with_queued_entities_for_removal v w r : deref (with_queued_entities_for_removal v w) r = deref w r.
Proof. reflexivity. Qed.
Lemma deref_with_player v w r : deref (with_player v w) r = deref w r.
Proof. reflexivity. Qed.
Lemma deref_with_enemy_spawner v w r : deref (with_enemy_spawner v w) r = deref w r.
Proof. reflexivity. Qed.
Lemma deref_with_collision_handler v w r : deref (with_collision_handler v w) r = deref w r.
Proof. reflexivity. Qed.
Lemma deref_with_enemiesKilled v w r : deref (with_enemiesKilled v w) r = deref w r.
Proof. reflexivity. Qed.
Lemma deref_with_timeAlive v w r : deref (with_timeAlive v w) r = deref w r.
Proof. reflexivity. Qed.
Lemma deref_with_bossesSpawned v w r : deref (with_bossesSpawned v w) r = deref w r.
Proof. reflexivity. Qed.
Lemma deref_with_bossesKilled v w r : deref (with_bossesKilled v w) r = deref w r.
Proof. reflexivity. Qed.
Lemma deref_with_enemiesSpawned v w r : deref (with_enemiesSpawned v w) r = deref w r.
Proof. reflexivity. Qed.
Lemma deref_with_score v w r : deref (with_score v w) r = deref w r.
Proof. reflexivity. Qed.
Lemma deref_with_HighScore v w r : deref (with_HighScore v w) r = deref w r.
Proof. reflexivity. Qed.
Lemma deref_with_firstGame v w r : deref (with_firstGame v w) r = deref w r.
Proof. reflexivity. Qed.
Lemma deref_with_random_calls v w r : deref (with_random_calls v w) r = deref w r.
Proof. reflexivity. Qed.

Create Rewrite HintDb world.

#[global] Hint Rewrite last_time_with_last_time last_time_with_loop_count
  last_time_with_running_id last_time_with_entities
  last_time_with_queued_entities_for_removal last_time_with_player
  last_time_with_enemy_spawner last_time_with_collision_handler
  last_time_with_enemiesKilled last_time_with_timeAlive last_time_with_bossesSpawned
  last_time_with_bossesKilled last_time_with_enemiesSpawned last_time_with_score
  last_time_with_HighScore last_time_with_firstGame last_time_with_heap
  last_time_with_random_calls loop_count_with_last_time loop_count_with_loop_count
  loop_count_with_running_id loop_count_with_entities
  loop_count_with_queued_entities_for_removal loop_count_with_player
  loop_count_with_enemy_spawner loop_count_with_collision_handler
  loop_count_with_enemiesKilled loop_count_with_timeAlive loop_count_with_bossesSpawned
  loop_count_with_bossesKilled loop_count_with_enemiesSpawned loop_count_with_score
  loop_count_with_HighScore loop_count_with_firstGame loop_count_with_heap
  loop_count_with_random_calls running_id_with_last_time running_id_with_loop_count
  running_id_with_running_id running_id_with_entities
  running_id_with_queued_entities_for_removal running_id_with_player
  running_id_with_enemy_spawner running_id_with_collision_handler
  running_id_with_enemiesKilled running_id_with_timeAlive running_id_with_bossesSpawned
  running_id_with_bossesKilled running_id_with_enemiesSpawned running_id_with_score
  running_id_with_HighScore running_id_with_firstGame running_id_with_heap
  running_id_with_random_calls entities_with_last_time entities_with_loop_count
  entities_with_running_id entities_with_entities
  entities_with_queued_entities_for_removal entities_with_player
  entities_with_enemy_spawner entities_with_collision_handler
  entities_with_enemiesKilled entities_with_timeAlive entities_with_bossesSpawned
  entities_with_bossesKilled entities_with_enemiesSpawned entities_with_score
  entities_with_HighScore entities_with_firstGame entities_with_heap
  entities_with_random_calls queued_entities_for_removal_with_last_time
  queued_entities_for_removal_with_loop_count
  queued_entities_for_removal_with_running_id queued_entities_for_removal_with_entities
  queued_entities_for_removal_with_queued_entities_for_removal
  queued_entities_for_removal_with_player queued_entities_for_removal_with_enemy_spawner
  queued_entities_for_removal_with_collision_handler
  queued_entities_for_removal_with_enemiesKilled
  queued_entities_for_removal_with_timeAlive
  queued_entities_for_removal_with_bossesSpawned
  queued_entities_for_removal_with_bossesKilled
  queued_entities_for_removal_with_enemiesSpawned queued_entities_for_removal_with_score
  queued_entities_for_removal_with_HighScore queued_entities_for_removal_with_firstGame
  queued_entities_for_removal_with_heap queued_entities_for_removal_with_random_calls
  player_with_last_time player_with_loop_count player_with_running_id
  player_with_entities player_with_queued_entities_for_removal player_with_player
  player_with_enemy_spawner player_with_collision_handler player_with_enemiesKilled
  player_with_timeAlive player_with_bossesSpawned player_with_bossesKilled
  player_with_enemiesSpawned player_with_score player_with_HighScore
  player_with_firstGame player_with_heap player_with_random_calls
  enemy_spawner_with_last_time enemy_spawner_with_loop_count
  enemy_spawner_with_running_id enemy_spawner_with_entities
  enemy_spawner_with_queued_entities_for_removal enemy_spawner_with_player
  enemy_spawner_with_enemy_spawner enemy_spawner_with_collision_handler
  enemy_spawner_with_enemiesKilled enemy_spawner_with_timeAlive
  enemy_spawner_with_bossesSpawned enemy_spawner_with_bossesKilled
  enemy_spawner_with_enemiesSpawned enemy_spawner_with_score
  enemy_spawner_with_HighScore enemy_spawner_with_firstGame enemy_spawner_with_heap
  enemy_spawner_with_random_calls collision_handler_with_last_time
  collision_handler_with_loop_count collision_handler_with_running_id
  collision_handler_with_entities collision_handler_with_queued_entities_for_removal
  collision_handler_with_player collision_handler_with_enemy_spawner
  collision_handler_with_collision_handler collision_handler_with_enemiesKilled
  collision_handler_with_timeAlive collision_handler_with_bossesSpawned
  collision_handler_with_bossesKilled collision_handler_with_enemiesSpawned
  collision_handler_with_score collision_handler_with_HighScore
  collision_handler_with_firstGame collision_handler_with_heap
  collision_handler_with_random_calls enemiesKilled_with_last_time
  enemiesKilled_with_loop_count enemiesKilled_with_running_id
  enemiesKilled_with_entities enemiesKilled_with_queued_entities_for_removal
  enemiesKilled_with_player enemiesKilled_with_enemy_spawner
  enemiesKilled_with_collision_handler enemiesKilled_with_enemiesKilled
  enemiesKilled_with_timeAlive enemiesKilled_with_bossesSpawned
  enemiesKilled_with_bossesKilled enemiesKilled_with_enemiesSpawned
  enemiesKilled_with_score enemiesKilled_with_HighScore enemiesKilled_with_firstGame
  enemiesKilled_with_heap enemiesKilled_with_random_calls timeAlive_with_last_time
  timeAlive_with_loop_count timeAlive_with_running_id timeAlive_with_entities
  timeAlive_with_queued_entities_for_removal timeAlive_with_player
  timeAlive_with_enemy_spawner timeAlive_with_collision_handler
  timeAlive_with_enemiesKilled timeAlive_with_timeAlive timeAlive_with_bossesSpawned
  timeAlive_with_bossesKilled timeAlive_with_enemiesSpawned timeAlive_with_score
  timeAlive_with_HighScore timeAlive_with_firstGame timeAlive_with_heap
  timeAlive_with_random_calls bossesSpawned_with_last_time bossesSpawned_with_loop_count
  bossesSpawned_with_running_id bossesSpawned_with_entities
  bossesSpawned_with_queued_entities_for_removal bossesSpawned_with_player
  bossesSpawned_with_enemy_spawner bossesSpawned_with_collision_handler
  bossesSpawned_with_enemiesKilled bossesSpawned_with_timeAlive
  bossesSpawned_with_bossesSpawned bossesSpawned_with_bossesKilled
  bossesSpawned_with_enemiesSpawned bossesSpawned_with_score
  bossesSpawned_with_HighScore bossesSpawned_with_firstGame bossesSpawned_with_heap
  bossesSpawned_with_random_calls bossesKilled_with_last_time
  bossesKilled_with_loop_count bossesKilled_with_running_id bossesKilled_with_entities
  bossesKilled_with_queued_entities_for_removal bossesKilled_with_player
  bossesKilled_with_enemy_spawner bossesKilled_with_collision_handler
  bossesKilled_with_enemiesKilled bossesKilled_with_timeAlive
  bossesKilled_with_bossesSpawned bossesKilled_with_bossesKilled
  bossesKilled_with_enemiesSpawned bossesKilled_with_score bossesKilled_with_HighScore
  bossesKilled_with_firstGame bossesKilled_with_heap bossesKilled_with_random_calls
  enemiesSpawned_with_last_time enemiesSpawned_with_loop_count
  enemiesSpawned_with_running_id enemiesSpawned_with_entities
  enemiesSpawned_with_queued_entities_for_removal enemiesSpawned_with_player
  enemiesSpawned_with_enemy_spawner enemiesSpawned_with_collision_handler
  enemiesSpawned_with_enemiesKilled enemiesSpawned_with_timeAlive
  enemiesSpawned_with_bossesSpawned enemiesSpawned_with_bossesKilled
  enemiesSpawned_with_enemiesSpawned enemiesSpawned_with_score
  enemiesSpawned_with_HighScore enemiesSpawned_with_firstGame enemiesSpawned_with_heap
  enemiesSpawned_with_random_calls score_with_last_time score_with_loop_count
  score_with_running_id score_with_entities score_with_queued_entities_for_removal
  score_with_player score_with_enemy_spawner score_with_collision_handler
  score_with_enemiesKilled score_with_timeAlive score_with_bossesSpawned
  score_with_bossesKilled score_with_enemiesSpawned score_with_score
  score_with_HighScore score_with_firstGame score_with_heap score_with_random_calls
  HighScore_with_last_time HighScore_with_loop_count HighScore_with_running_id
  HighScore_with_entities HighScore_with_queued_entities_for_removal
  HighScore_with_player HighScore_with_enemy_spawner HighScore_with_collision_handler
  HighScore_with_enemiesKilled HighScore_with_timeAlive HighScore_with_bossesSpawned
  HighScore_with_bossesKilled HighScore_with_enemiesSpawned HighScore_with_score
  HighScore_with_HighScore HighScore_with_firstGame HighScore_with_heap
  HighScore_with_random_calls firstGame_with_last_time firstGame_with_loop_count
  firstGame_with_running_id firstGame_with_entities
  firstGame_with_queued_entities_for_removal firstGame_with_player
  firstGame_with_enemy_spawner firstGame_with_collision_handler
  firstGame_with_enemiesKilled firstGame_with_timeAlive firstGame_with_bossesSpawned
  firstGame_with_bossesKilled firstGame_with_enemiesSpawned firstGame_with_score
  firstGame_with_HighScore firstGame_with_firstGame firstGame_with_heap
  firstGame_with_random_calls heap_with_last_time heap_with_loop_count
  heap_with_running_id heap_with_entities heap_with_queued_entities_for_removal
  heap_with_player heap_with_enemy_spawner heap_with_collision_handler
  heap_with_enemiesKilled heap_with_timeAlive heap_with_bossesSpawned
  heap_with_bossesKilled heap_with_enemiesSpawned heap_with_score heap_with_HighScore
  heap_with_firstGame heap_with_heap heap_with_random_calls random_calls_with_last_time
  random_calls_with_loop_count random_calls_with_running_id random_calls_with_entities
  random_calls_with_queued_entities_for_removal random_calls_with_player
  random_calls_with_enemy_spawner random_calls_with_collision_handler
  random_calls_with_enemiesKilled random_calls_with_timeAlive
  random_calls_with_bossesSpawned random_calls_with_bossesKilled
  random_calls_with_enemiesSpawned random_calls_with_score random_calls_with_HighScore
  random_calls_with_firstGame random_calls_with_heap random_calls_with_random_calls
  random_source_with_last_time random_source_with_loop_count
  random_source_with_running_id random_source_with_entities
  random_source_with_queued_entities_for_removal random_source_with_player
  random_source_with_enemy_spawner random_source_with_collision_handler
  random_source_with_enemiesKilled random_source_with_timeAlive
  random_source_with_bossesSpawned random_source_with_bossesKilled
  random_source_with_enemiesSpawned random_source_with_score
  random_source_with_HighScore random_source_with_firstGame random_source_with_heap
  random_source_with_random_calls Math_cos_PI_4_with_last_time
  Math_cos_PI_4_with_loop_count Math_cos_PI_4_with_running_id
  Math_cos_PI_4_with_entities Math_cos_PI_4_with_queued_entities_for_removal
  Math_cos_PI_4_with_player Math_cos_PI_4_with_enemy_spawner
  Math_cos_PI_4_with_collision_handler Math_cos_PI_4_with_enemiesKilled
  Math_cos_PI_4_with_timeAlive Math_cos_PI_4_with_bossesSpawned
  Math_cos_PI_4_with_bossesKilled Math_cos_PI_4_with_enemiesSpawned
  Math_cos_PI_4_with_score Math_cos_PI_4_with_HighScore Math_cos_PI_4_with_firstGame
  Math_cos_PI_4_with_heap Math_cos_PI_4_with_random_calls deref_with_last_time
  deref_with_loop_count deref_with_running_id deref_with_entities
  deref_with_queued_entities_for_removal deref_with_player deref_with_enemy_spawner
  deref_with_collision_handler deref_with_enemiesKilled deref_with_timeAlive
  deref_with_bossesSpawned deref_with_bossesKilled deref_with_enemiesSpawned
  deref_with_score deref_with_HighScore deref_with_firstGame deref_with_random_calls :
  world.

Lemma snd_pair {A B : Type} (a : A) (b : B) : snd (a, b) = b.
Proof. reflexivity. Qed.

Lemma fst_pair {A B : Type} (a : A) (b : B) : fst (a, b) = a.
Proof. reflexivity. Qed.

#[global] Hint Rewrite @snd_pair @fst_pair : world.

(** Rewrites every read of a global through the writes that precede it. *)
Ltac wsimpl := autorewrite with world.

Lemma deref_lookup (w : World) (r : ref) (b : Body) :
  heap w !! r = Some b -> deref w r = b.
Proof. intros H. unfold deref. rewrite H. reflexivity. Qed.

Lemma deref_heap (w w' : World) (r : ref) :
  heap w' = heap w -> deref w' r = deref w r.
Proof. intros H. unfold deref. rewrite H. reflexivity. Qed.

Lemma heap_modify (r : ref) (f : Body -> Body) (w : World) :
  heap (modify r f w) = alter f r (heap w).
Proof. reflexivity. Qed.

Lemma deref_modify_eq (r : ref) (f : Body -> Body) (w : World) :
  (r < length (heap w))%nat -> deref (modify r f w) r = f (deref w r).
Proof.
  intros Hr. destruct (lookup_lt_is_Some_2 _ _ Hr) as [b Hb].
  rewrite (deref_lookup w r b Hb). apply deref_lookup.
  rewrite heap_modify, list_lookup_alter_eq, Hb. reflexivity.
Qed.

Lemma deref_modify_ne (r r' : ref) (f : Body -> Body) (w : World) :
  r <> r' -> deref (modify r f w) r' = deref w r'.
Proof.
  intros Hr. unfold deref. rewrite heap_modify, list_lookup_alter_ne by assumption.
  reflexivity.
Qed.

Lemma length_heap_modify (r : ref) (f : Body -> Body) (w : World) :
  length (heap (modify r f w)) = length (heap w).
Proof. rewrite heap_modify. apply length_alter. Qed.

Lemma alter_app_last {A : Type} (f : A -> A) (l : list A) (a : A) :
  alter f (length l) (l ++ [a]) = l ++ [f a].
Proof.
  replace (length l) with (length l + 0)%nat at 1 by lia.
  rewrite alter_app_r. reflexivity.
Qed.

(** ** Constructors in closed form *)

Lemma deref_app_last (w : World) (l : list Body) (b : Body) :
  heap w = l ++ [b] -> deref w (length l) = b.
Proof.
  intros H. apply deref_lookup. rewrite H.
  rewrite lookup_app_r by lia. rewrite Nat.sub_diag. reflexivity.
Qed.

Lemma new_Body_closed (v : Variant) (w : World) :
  new_Body v w = (length (heap w), registered (fresh_Body (running_id w) v) w).
Proof.
  unfold new_Body, registered, modify. wsimpl. rewrite alter_app_last.
  f_equal. f_equal.
  erewrite deref_app_last by (wsimpl; reflexivity). reflexivity.
Qed.

Lemma modify_registered (f : Body -> Body) (b : Body) (w : World) :
  modify (length (heap w)) f (registered b w) = registered (f b) w.
Proof.
  unfold modify, registered. wsimpl. rewrite alter_app_last. reflexivity.
Qed.

Lemma new_Projectile_closed (px py : Q) (w : World) :
  new_Projectile px py w =
  (length (heap w),
   registered {| id := running_id w;
                 position := {| x := px; y := py |};
                 velocity := {| x := 0; y := 0 |};
                 size := {| width := 10; height := 20 |};
                 health := 100;
                 variant := Projectile 10 |} w).
Proof.
  unfold new_Projectile. rewrite new_Body_closed.
  rewrite !modify_registered. reflexivity.
Qed.

Lemma new_Enemy_closed (speed : Q) (w : World) :
  new_Enemy speed w =
  (length (heap w),
   with_random_calls (S (random_calls w))
     (registered {| id := running_id w;
                    position := {| x := random_source w (random_calls w) *
                                        width (canvas_size config);
                                   y := -50 |};
                    velocity := {| x := 0; y := 0 |};
                    size := {| width := 20; height := 20 |};
                    health := 100;
                    variant := Enemy speed |} w)).
Proof.
  unfold new_Enemy. rewrite new_Body_closed. unfold Math_random.
  unfold modify, registered. wsimpl. rewrite !alter_app_last. reflexivity.
Qed.

Lemma new_BossEnemy_closed (speed : Q) (w : World) :
  new_BossEnemy speed w =
  (length (heap w),
   with_random_calls (S (random_calls w))
     (registered {| id := running_id w;
                    position := {| x := random_source w (random_calls w) *
                                        width (canvas_size config);
                                   y := -50 |};
                    velocity := {| x := 0; y := 0 |};
                    size := {| width := 25; height := 40 |};
                    health := 1000;
                    variant := BossEnemy speed |} w)).
Proof.
  unfold new_BossEnemy. rewrite new_Body_closed. unfold Math_random.
  unfold modify, registered. wsimpl. rewrite !alter_app_last. reflexivity.
Qed.

Lemma new_Player_closed (w : World) :
  new_Player w =
  (length (heap w),
   registered {| id := running_id w;
                 position := {| x := width (canvas_size config) / 2;
                                y := height (canvas_size config) - 100 |};
                 velocity := {| x := 0; y := 0 |};
                 size := {| width := 20; height := 20 |};
                 health := 100;
                 variant := Player {| move_x := 0; move_y := 0; action_1 := false |}
                                   5 (5 * Math_cos_PI_4 w) 0 |} w).
Proof.
  unfold new_Player. rewrite new_Body_closed.
  rewrite !modify_registered. reflexivity.
Qed.

Lemma heap_registered (b : Body) (w : World) : heap (registered b w) = heap w ++ [b].
Proof. reflexivity. Qed.

Lemma start_closed (w : World) :
  start w =
  with_collision_handler (Some mkCollision_Handler)
    (with_enemy_spawner (Some (new_Enemy_Spawner 1 0.55))
      (with_player (Some (length (heap w)))
        (registered
           {| id := running_id w;
              position := {| x := width (canvas_size config) / 2;
                             y := height (canvas_size config) - 100 |};
              velocity := {| x := 0; y := 0 |};
              size := {| width := 20; height := 20 |};
              health := 100;
              variant := Player {| move_x := 0; move_y := 0; action_1 := false |}
                                5 (5 * Math_cos_PI_4 w) 0 |}
           (with_enemiesSpawned 0
             (with_bossesKilled 0
               (with_bossesSpawned 0
                 (with_timeAlive 0
                   (with_enemiesKilled 0
                     (with_queued_entities_for_removal []
                       (with_entities [] w)))))))))).
Proof. unfold start. rewrite new_Player_closed. reflexivity. Qed.

Lemma heap_start (w : World) :
  exists b, heap (start w) = heap w ++ [b] /\ is_Player b = true.
Proof.
  rewrite start_closed. wsimpl. rewrite heap_registered. wsimpl.
  eexists. split; reflexivity.
Qed.

(** ** Objects persist and their health never goes up *)

Section Evolves.

Variable R : Body -> Body -> Prop.
Hypothesis R_refl : forall b, R b b.
Hypothesis R_trans : forall b1 b2 b3, R b1 b2 -> R b2 b3 -> R b1 b3.

Lemma evolves_refl (w : World) : evolves R w w.
Proof. intros r b H. exists b. auto. Qed.

Lemma evolves_trans (w1 w2 w3 : World) :
  evolves R w1 w2 -> evolves R w2 w3 -> evolves R w1 w3.
Proof.
  intros H12 H23 r b H.
  destruct (H12 r b H) as (b2 & H2 & R2).
  destruct (H23 r b2 H2) as (b3 & H3 & R3).
  exists b3. eauto.
Qed.

Lemma evolves_heap_eq (w w' : World) : heap w' = heap w -> evolves R w w'.
Proof. intros E r b H. exists b. rewrite E. auto. Qed.

Lemma evolves_heap_app (w w' : World) (l : list Body) :
  heap w' = heap w ++ l -> evolves R w w'.
Proof.
  intros E r b H. exists b. rewrite E. split; [|auto].
  apply lookup_app_l_Some. assumption.
Qed.

Lemma evolves_modify (r : ref) (f : Body -> Body) (w : World) :
  (forall b, R b (f b)) -> evolves R w (modify r f w).
Proof.
  intros Hf r' b H. rewrite heap_modify.
  destruct (decide (r = r')) as [->|Hne].
  - exists (f b). rewrite list_lookup_alter_eq, H. auto.
  - exists b. rewrite list_lookup_alter_ne by assumption. auto.
Qed.

Lemma evolves_fold {A : Type} (f : World -> A -> World) (l : list A) :
  (forall w a, evolves R w (f w a)) -> forall w, evolves R w (fold_left f l w).
Proof.
  intros Hf. induction l as [|a l IH]; intros w; simpl.
  - apply evolves_refl.
  - eapply evolves_trans; [apply Hf | apply IH].
Qed.

End Evolves.

Lemma health_le_refl (b : Body) : health_le b b.
Proof. unfold health_le. lra. Qed.

Lemma health_le_trans (b1 b2 b3 : Body) :
  health_le b1 b2 -> health_le b2 b3 -> health_le b1 b3.
Proof. unfold health_le. lra. Qed.

Lemma health_refl (w : World) : evolves health_le w w.
Proof. apply evolves_refl, health_le_refl. Qed.

Lemma health_trans (w1 w2 w3 : World) :
  evolves health_le w1 w2 -> evolves health_le w2 w3 -> evolves health_le w1 w3.
Proof. apply evolves_trans, health_le_trans. Qed.

Lemma health_heap_eq (w w' : World) : heap w' = heap w -> evolves health_le w w'.
Proof. apply evolves_heap_eq, health_le_refl. Qed.

Lemma health_heap_app (w w' : World) (l : list Body) :
  heap w' = heap w ++ l -> evolves health_le w w'.
Proof. apply evolves_heap_app, health_le_refl. Qed.

Lemma health_modify (r : ref) (f : Body -> Body) (w : World) :
  (forall b, health (f b) <= health b) -> evolves health_le w (modify r f w).
Proof. intros H. apply evolves_modify; [apply health_le_refl | exact H]. Qed.

Lemma health_registered (b : Body) (w : World) : evolves health_le w (registered b w).
Proof. apply health_heap_app with (l := [b]). reflexivity. Qed.

Lemma health_start (w : World) : evolves health_le w (start w).
Proof.
  destruct (heap_start w) as (b & E & _). eapply health_heap_app. exact E.
Qed.

Lemma health_fold {A : Type} (f : World -> A -> World) (l : list A) :
  (forall w a, evolves health_le w (f w a)) ->
  forall w, evolves health_le w (fold_left f l w).
Proof. apply evolves_fold; [apply health_le_refl | apply health_le_trans]. Qed.

Lemma health_set_time_since_fired (t : Q) (b : Body) :
  health (set_time_since_fired t b) = health b.
Proof. unfold set_time_since_fired. destruct (variant b); reflexivity. Qed.

(** A chain of world transformers, each of which is in a preorder [R] on
    worlds.  The chain is cut at every [let] and at every nested world, and
    the world at the cut is made abstract, so each link is checked on its
    own.  [refl] and [trans] are the two laws of [R]; [leaf] proves [R w (f w)]
    for one transformer. *)
Ltac chain refl trans leaf :=
  match goal with
  | |- ?R ?w ?w => apply refl
  | |- ?R ?w (let w1 := ?e in @?body w1) =>
      apply trans with (w2 := e);
      [ chain refl trans leaf
      | let w' := fresh "w" in
        change (R e (body e)); cbv beta;
        generalize e; intros w'; chain refl trans leaf ]
  | |- ?R _ (if ?c then _ else _) => destruct c; chain refl trans leaf
  | |- ?R _ (snd (new_Projectile _ _ _)) =>
      rewrite new_Projectile_closed, snd_pair; chain refl trans leaf
  | |- ?R _ (snd (new_Enemy _ _)) =>
      rewrite new_Enemy_closed, snd_pair; chain refl trans leaf
  | |- ?R _ (snd (new_BossEnemy _ _)) =>
      rewrite new_BossEnemy_closed, snd_pair; chain refl trans leaf
  | |- ?R ?w (?f ?w') =>
      lazymatch type of w' with World => idtac end;
      lazymatch w' with w => fail | _ => idtac end;
      apply trans with (w2 := w');
      [ chain refl trans leaf
      | let w0 := fresh "w" in generalize w'; intros w0; chain refl trans leaf ]
  | |- _ => leaf
  end.

Ltac health_leaf :=
  lazymatch goal with
  | |- evolves _ _ (modify _ _ _) =>
      apply health_modify; intros ?;
      rewrite ?health_set_time_since_fired; simpl; lra
  | |- evolves _ _ (start _) => apply health_start
  | |- evolves _ _ (registered _ _) => apply health_registered
  | |- evolves _ _ _ => apply health_heap_eq; reflexivity
  end.

Ltac health_chain := chain health_refl health_trans ltac:(idtac; health_leaf).

Lemma health_Projectile_update (dt : Q) (this : ref) (w : World) :
  evolves health_le w (Projectile_update dt this w).
Proof. cbv beta delta [Projectile_update Body_update Body_remove]. health_chain. Qed.

Lemma health_Enemy_update (dt : Q) (this : ref) (w : World) :
  evolves health_le w (Enemy_update dt this w).
Proof. cbv beta delta [Enemy_update Body_update Body_remove]. health_chain. Qed.

Lemma health_BossEnemy_update (dt : Q) (this : ref) (w : World) :
  evolves health_le w (BossEnemy_update dt this w).
Proof. cbv beta delta [BossEnemy_update Body_update Body_remove]. health_chain. Qed.

Lemma health_Player_update (dt : Q) (this : ref) (w : World) :
  evolves health_le w (Player_update dt this w).
Proof.
  cbv beta delta [Player_update Player_move Player_die Player_fire
                  Body_update Body_remove].
  health_chain.
Qed.

Lemma health_entity_update (dt : Q) (entity : ref) (w : World) :
  evolves health_le w (entity_update dt entity w).
Proof.
  unfold entity_update. destruct (variant (deref w entity)).
  - apply health_Player_update.
  - apply health_Projectile_update.
  - apply health_Enemy_update.
  - apply health_BossEnemy_update.
Qed.

Lemma health_collide (e1 e2 : ref) (w : World) :
  evolves health_le w (collide e1 e2 w).
Proof.
  cbv beta delta [collide hit_Player hit_Enemy hit_BossEnemy_first
                  hit_BossEnemy_second Body_remove].
  health_chain.
Qed.

Lemma health_Collision_Handler_update (w : World) :
  evolves health_le w (Collision_Handler_update w).
Proof.
  unfold Collision_Handler_update.
  apply health_fold. intros w1 e1.
  apply health_fold. intros w2 e2.
  apply health_collide.
Qed.

Lemma heap_flush_removals (w : World) : heap (flush_removals w) = heap w.
Proof.
  unfold flush_removals. wsimpl.
  generalize (queued_entities_for_removal w) as q. intros q. revert w.
  induction q as [|i q IH]; intros w; simpl; [reflexivity|].
  rewrite IH. reflexivity.
Qed.

Lemma health_flush_removals (w : World) : evolves health_le w (flush_removals w).
Proof. apply health_heap_eq, heap_flush_removals. Qed.

(** ** The spawner, unit by unit *)

Lemma spawn_unit_boss (s : Enemy_Spawner) (w : World) :
  bossSpawn s = true ->
  spawn_unit (s, w) =
  (mkEnemy_Spawner (enemies s) (time_between s) (time_since_spawn s) false (bossTimer s),
   let w2 := snd (new_BossEnemy 2 (snd (new_BossEnemy 1 w))) in
   with_bossesSpawned (S (bossesSpawned w2)) w2).
Proof. intros H. unfold spawn_unit. rewrite H. reflexivity. Qed.

Lemma spawn_unit_regular (s : Enemy_Spawner) (w : World) :
  bossSpawn s = false ->
  spawn_unit (s, w) =
  (if (S (bossTimer s) =? 10)%nat
   then mkEnemy_Spawner (enemies s) (time_between s) (time_since_spawn s) true 0
   else mkEnemy_Spawner (enemies s) (time_between s) (time_since_spawn s) false
                        (S (bossTimer s)),
   let w1 := snd (new_Enemy 2 w) in
   with_enemiesSpawned (S (enemiesSpawned w1)) w1).
Proof.
  intros H. unfold spawn_unit. rewrite H. cbn [bossTimer bossSpawn].
  destruct (S (bossTimer s) =? 10)%nat; rewrite ?H; reflexivity.
Qed.

Lemma health_spawn_unit (st : Enemy_Spawner * World) :
  evolves health_le (snd st) (snd (spawn_unit st)).
Proof.
  destruct st as [s w]. destruct (bossSpawn s) eqn:E.
  - rewrite spawn_unit_boss by assumption.
    change (snd (?a, ?b)) with b. health_chain.
  - rewrite spawn_unit_regular by assumption.
    change (snd (?a, ?b)) with b. health_chain.
Qed.

Lemma health_spawn_units (n : nat) (st : Enemy_Spawner * World) :
  evolves health_le (snd st) (snd (Nat.iter n spawn_unit st)).
Proof.
  induction n as [|n IH]; simpl.
  - apply health_refl.
  - eapply health_trans; [exact IH|]. apply health_spawn_unit.
Qed.

Lemma health_Enemy_Spawner_update (dt : Q) (s : Enemy_Spawner) (w : World) :
  evolves health_le w (snd (Enemy_Spawner_update dt s w)).
Proof.
  unfold Enemy_Spawner_update.
  match goal with |- context [if ?c then _ else _] => destruct c end;
    [|apply health_refl].
  match goal with |- context [Nat.iter ?n spawn_unit (?s0, w)] =>
    apply (health_spawn_units n (s0, w)) end.
Qed.

Lemma health_update (dt : Q) (w : World) : evolves health_le w (update dt w).
Proof.
  cbv beta delta [update].
  apply health_trans with
    (w2 := fold_left (fun w entity => entity_update dt entity w)
                     (Object_values (entities w)) w).
  { apply health_fold. intros. apply health_entity_update. }
  cbv zeta.
  match goal with |- evolves _ ?w0 _ => generalize w0 end. intros w1.
  eapply health_trans with
    (w2 := match collision_handler w1 with
           | Some _ => Collision_Handler_update w1 | None => w1 end).
  { destruct (collision_handler w1);
      [apply health_Collision_Handler_update | apply health_refl]. }
  match goal with |- evolves _ ?w0 _ => generalize w0 end. intros w2.
  eapply health_trans; [apply health_flush_removals|].
  generalize (flush_removals w2). intros w3.
  destruct (enemy_spawner w3) as [s|]; [|apply health_refl].
  pose proof (health_Enemy_Spawner_update dt s w3) as H.
  destruct (Enemy_Spawner_update dt s w3) as [s' w4]. cbn [snd] in H.
  eapply health_trans; [exact H|]. apply health_heap_eq. reflexivity.
Qed.

Lemma isDead_iff (b : Body) : isDead b = true <-> health b <= 0.
Proof. unfold isDead. apply Qle_bool_iff. Qed.

(** C5.  [isDead()] is a function of the body alone and holds exactly when
    [health <= 0]; and across an entity update, the collision pass, the
    removal flush, the spawner, and so across a whole tick (even one in which
    the player dies and the game restarts), every object that existed before
    still exists and its health has not gone up. *)
Theorem health_never_increases (dt : Q) (w : World) :
  (forall b, isDead b = true <-> health b <= 0) /\
  (forall entity, evolves health_le w (entity_update dt entity w)) /\
  evolves health_le w (Collision_Handler_update w) /\
  evolves health_le w (flush_removals w) /\
  (forall s, evolves health_le w (snd (Enemy_Spawner_update dt s w))) /\
  evolves health_le w (update dt w).
Proof.
  split; [exact isDead_iff|].
  split; [intros e; apply health_entity_update|].
  split; [apply health_Collision_Handler_update|].
  split; [apply health_flush_removals|].
  split; [intros s; apply health_Enemy_Spawner_update|].
  apply health_update.
Qed.

(** ** Every update ends inside the canvas *)

Lemma in_bounds_clip_to_screen (b : Body) : in_bounds (position (clip_to_screen b)).
Proof.
  unfold in_bounds, clip_to_screen. cbn [position with_position x y].
  split; apply Math_min_max_bounds; vm_compute; discriminate.
Qed.

Lemma bounded_at_clip (this : ref) (w : World) :
  bounded_at this (modify this clip_to_screen w).
Proof.
  intros b H. rewrite heap_modify, list_lookup_alter_eq in H.
  destruct (heap w !! this) as [b0|]; [|discriminate].
  injection H as <-. apply in_bounds_clip_to_screen.
Qed.

(** Walks under the [let]s of a method body to its last statement. *)
Ltac last_statement :=
  repeat lazymatch goal with
  | |- ?Q (let a := ?e in @?body a) =>
      change (Q (body e)); cbv beta; generalize e; intro
  end.

Lemma bounded_at_entity_update (dt : Q) (this : ref) (w : World) :
  bounded_at this (entity_update dt this w).
Proof.
  unfold entity_update. destruct (variant (deref w this)).
  - cbv beta delta [Player_update]. last_statement. apply bounded_at_clip.
  - cbv beta delta [Projectile_update]. last_statement. apply bounded_at_clip.
  - cbv beta delta [Enemy_update]. last_statement. apply bounded_at_clip.
  - cbv beta delta [BossEnemy_update]. last_statement. apply bounded_at_clip.
Qed.

(** C4.  For an object of any of the four classes, the position it has when
    its [update(delta_time)] returns lies in
    [[0, width] x [0, height]] of the canvas. *)
Theorem update_clips_to_screen (dt : Q) (this : ref) (w : World) (b : Body) :
  heap w !! this = Some b ->
  exists b', heap (entity_update dt this w) !! this = Some b' /\
             in_bounds (position b').
Proof.
  intros H.
  destruct (health_entity_update dt this w this b H) as (b' & H' & _).
  exists b'. split; [exact H'|].
  apply (bounded_at_entity_update dt this w b' H').
Qed.

(** ** The updates of projectiles, enemies and bosses in closed form *)

Lemma heap_Body_remove (this : ref) (w : World) : heap (Body_remove this w) = heap w.
Proof. reflexivity. Qed.

Lemma heap_Body_update (dt : Q) (this : ref) (w : World) :
  heap (Body_update dt this w) = alter (advance dt) this (heap w).
Proof. reflexivity. Qed.

#[global] Hint Rewrite heap_modify heap_Body_remove heap_Body_update heap_registered : world.

Lemma deref_Body_remove (this r : ref) (w : World) :
  deref (Body_remove this w) r = deref w r.
Proof. reflexivity. Qed.

#[global] Hint Rewrite deref_Body_remove : world.

Lemma Projectile_update_this (dt : Q) (this : ref) (w : World) (b : Body) :
  heap w !! this = Some b ->
  heap (Projectile_update dt this w) !! this =
  Some (clip_to_screen (advance dt (move_y_by (- speed_of b) b))).
Proof.
  intros H. unfold Projectile_update.
  match goal with |- context [if ?c then _ else _] => destruct c end;
    wsimpl; rewrite !list_lookup_alter_eq, H; reflexivity.
Qed.

Lemma Enemy_update_this (dt : Q) (this : ref) (w : World) (b : Body) :
  heap w !! this = Some b ->
  heap (Enemy_update dt this w) !! this =
  Some (clip_to_screen (advance dt (move_y_by (speed_of b) b))).
Proof.
  intros H. unfold Enemy_update.
  match goal with |- context [if ?c then _ else _] => destruct c end;
    wsimpl; rewrite !list_lookup_alter_eq, H; reflexivity.
Qed.

Lemma BossEnemy_update_this (dt : Q) (this : ref) (w : World) (b : Body) :
  heap w !! this = Some b ->
  heap (BossEnemy_update dt this w) !! this =
  Some (clip_to_screen (advance dt (move_y_by (speed_of b) b))).
Proof.
  intros H. unfold BossEnemy_update.
  match goal with |- context [if ?c then _ else _] => destruct c end;
    wsimpl; rewrite !list_lookup_alter_eq, H; reflexivity.
Qed.

Lemma clip_advance_still (dt : Q) (b : Body) :
  x (velocity b) == 0 -> y (velocity b) == 0 ->
  x (position (clip_to_screen (advance dt b))) ==
    Math_min (Math_max 0 (x (position b))) (width (canvas_size config)) /\
  y (position (clip_to_screen (advance dt b))) ==
    Math_min (Math_max 0 (y (position b))) (height (canvas_size config)).
Proof.
  intros Hx Hy. unfold clip_to_screen, advance, move_by.
  cbn [position with_position x y].
  split; apply Math_min_compat, Math_max_compat.
  - rewrite Hx. ring.
  - rewrite Hy. ring.
Qed.

(** C10.  For a projectile, an enemy or a boss whose velocity is zero, one
    [update(delta_time)] leaves [position.x] where it was and moves
    [position.y] by the speed of the object (up for a projectile, down for an
    enemy or a boss), and then clips to the canvas; the result is the same
    for every [delta_time]. *)
Theorem vertical_step_ignores_delta_time (dt : Q) (this : ref) (w : World) (b : Body) :
  heap w !! this = Some b ->
  is_Player b = false ->
  x (velocity b) == 0 -> y (velocity b) == 0 ->
  exists b',
    heap (entity_update dt this w) !! this = Some b' /\
    x (position b') ==
      Math_min (Math_max 0 (x (position b))) (width (canvas_size config)) /\
    y (position b') ==
      Math_min (Math_max 0 (y (position b) + vertical_step b))
               (height (canvas_size config)).
Proof.
  intros H Hp Hx Hy. unfold entity_update. rewrite (deref_lookup w this b H).
  unfold is_Player in Hp. unfold vertical_step.
  destruct (variant b) as [c s d t|s|s|s] eqn:Ev; [discriminate| | | ].
  - rewrite (Projectile_update_this dt this w b H). eexists. split; [reflexivity|].
    unfold speed_of. rewrite Ev.
    exact (clip_advance_still dt (move_y_by _ b) Hx Hy).
  - rewrite (Enemy_update_this dt this w b H). eexists. split; [reflexivity|].
    unfold speed_of. rewrite Ev.
    exact (clip_advance_still dt (move_y_by _ b) Hx Hy).
  - rewrite (BossEnemy_update_this dt this w b H). eexists. split; [reflexivity|].
    unfold speed_of. rewrite Ev.
    exact (clip_advance_still dt (move_y_by _ b) Hx Hy).
Qed.

(** ** Reading a global after a method of [Body] or a constructor *)

Lemma last_time_modify r f w : last_time (modify r f w) = last_time w.
Proof. reflexivity. Qed.
Lemma last_time_Body_remove r w : last_time (Body_remove r w) = last_time w.
Proof. reflexivity. Qed.
Lemma last_time_registered b w : last_time (registered b w) = last_time w.
Proof. reflexivity. Qed.
Lemma loop_count_modify r f w : loop_count (modify r f w) = loop_count w.
Proof. reflexivity. Qed.
Lemma loop_count_Body_remove r w : loop_count (Body_remove r w) = loop_count w.
Proof. reflexivity. Qed.
Lemma loop_count_registered b w : loop_count (registered b w) = loop_count w.
Proof. reflexivity. Qed.
Lemma running_id_modify r f w : running_id (modify r f w) = running_id w.
Proof. reflexivity. Qed.
Lemma running_id_Body_remove r w : running_id (Body_remove r w) = running_id w.
Proof. reflexivity. Qed.
Lemma entities_modify r f w : entities (modify r f w) = entities w.
Proof. reflexivity. Qed.
Lemma entities_Body_remove r w : entities (Body_remove r w) = entities w.
Proof. reflexivity. Qed.
Lemma queued_entities_for_removal_modify r f w : queued_entities_for_removal (modify r f w) = queued_entities_for_removal w.
Proof. reflexivity. Qed.
Lemma queued_entities_for_removal_registered b w : queued_entities_for_removal (registered b w) = queued_entities_for_removal w.
Proof. reflexivity. Qed.
Lemma player_modify r f w : player (modify r f w) = player w.
Proof. reflexivity. Qed.
Lemma player_Body_remove r w : player (Body_remove r w) = player w.
Proof. reflexivity. Qed.
Lemma player_registered b w : player (registered b w) = player w.
Proof. reflexivity. Qed.
Lemma enemy_spawner_modify r f w : enemy_spawner (modify r f w) = enemy_spawner w.
Proof. reflexivity. Qed.
Lemma enemy_spawner_Body_remove r w : enemy_spawner (Body_remove r w) = enemy_spawner w.
Proof. reflexivity. Qed.
Lemma enemy_spawner_registered b w : enemy_spawner (registered b w) = enemy_spawner w.
Proof. reflexivity. Qed.
Lemma collision_handler_modify r f w : collision_handler (modify r f w) = collision_handler w.
Proof. reflexivity. Qed.
Lemma collision_handler_Body_remove r w : collision_handler (Body_remove r w) = collision_handler w.
Proof. reflexivity. Qed.
Lemma collision_handler_registered b w : collision_handler (registered b w) = collision_handler w.
Proof. reflexivity. Qed.
Lemma enemiesKilled_modify r f w : enemiesKilled (modify r f w) = enemiesKilled w.
Proof. reflexivity. Qed.
Lemma enemiesKilled_Body_remove r w : enemiesKilled (Body_remove r w) = enemiesKilled w.
Proof. reflexivity. Qed.
Lemma enemiesKilled_registered b w : enemiesKilled (registered b w) = enemiesKilled w.
Proof. reflexivity. Qed.
Lemma timeAlive_modify r f w : timeAlive (modify r f w) = timeAlive w.
Proof. reflexivity. Qed.
Lemma timeAlive_Body_remove r w : timeAlive (Body_remove r w) = timeAlive w.
Proof. reflexivity. Qed.
Lemma timeAlive_registered b w : timeAlive (registered b w) = timeAlive w.
Proof. reflexivity. Qed.
Lemma bossesSpawned_modify r f w : bossesSpawned (modify r f w) = bossesSpawned w.
Proof. reflexivity. Qed.
Lemma bossesSpawned_Body_remove r w : bossesSpawned (Body_remove r w) = bossesSpawned w.
Proof. reflexivity. Qed.
Lemma bossesSpawned_registered b w : bossesSpawned (registered b w) = bossesSpawned w.
Proof. reflexivity. Qed.
Lemma bossesKilled_modify r f w : bossesKilled (modify r f w) = bossesKilled w.
Proof. reflexivity. Qed.
Lemma bossesKilled_Body_remove r w : bossesKilled (Body_remove r w) = bossesKilled w.
Proof. reflexivity. Qed.
Lemma bossesKilled_registered b w : bossesKilled (registered b w) = bossesKilled w.
Proof. reflexivity. Qed.
Lemma enemiesSpawned_modify r f w : enemiesSpawned (modify r f w) = enemiesSpawned w.
Proof. reflexivity. Qed.
Lemma enemiesSpawned_Body_remove r w : enemiesSpawned (Body_remove r w) = enemiesSpawned w.
Proof. reflexivity. Qed.
Lemma enemiesSpawned_registered b w : enemiesSpawned (registered b w) = enemiesSpawned w.
Proof. reflexivity. Qed.
Lemma score_modify r f w : score (modify r f w) = score w.
Proof. reflexivity. Qed.
Lemma score_Body_remove r w : score (Body_remove r w) = score w.
Proof. reflexivity. Qed.
Lemma score_registered b w : score (registered b w) = score w.
Proof. reflexivity. Qed.
Lemma HighScore_modify r f w : HighScore (modify r f w) = HighScore w.
Proof. reflexivity. Qed.
Lemma HighScore_Body_remove r w : HighScore (Body_remove r w) = HighScore w.
Proof. reflexivity. Qed.
Lemma HighScore_registered b w : HighScore (registered b w) = HighScore w.
Proof. reflexivity. Qed.
Lemma firstGame_modify r f w : firstGame (modify r f w) = firstGame w.
Proof. reflexivity. Qed.
Lemma firstGame_Body_remove r w : firstGame (Body_remove r w) = firstGame w.
Proof. reflexivity. Qed.
Lemma firstGame_registered b w : firstGame (registered b w) = firstGame w.
Proof. reflexivity. Qed.
Lemma random_calls_modify r f w : random_calls (modify r f w) = random_calls w.
Proof. reflexivity. Qed.
Lemma random_calls_Body_remove r w : random_calls (Body_remove r w) = random_calls w.
Proof. reflexivity. Qed.
Lemma random_calls_registered b w : random_calls (registered b w) = random_calls w.
Proof. reflexivity. Qed.
Lemma random_source_modify r f w : random_source (modify r f w) = random_source w.
Proof. reflexivity. Qed.
Lemma random_source_Body_remove r w : random_source (Body_remove r w) = random_source w.
Proof. reflexivity. Qed.
Lemma random_source_registered b w : random_source (registered b w) = random_source w.
Proof. reflexivity. Qed.
Lemma Math_cos_PI_4_modify r f w : Math_cos_PI_4 (modify r f w) = Math_cos_PI_4 w.
Proof. reflexivity. Qed.
Lemma Math_cos_PI_4_Body_remove r w : Math_cos_PI_4 (Body_remove r w) = Math_cos_PI_4 w.
Proof. reflexivity. Qed.
Lemma Math_cos_PI_4_registered b w : Math_cos_PI_4 (registered b w) = Math_cos_PI_4 w.
Proof. reflexivity. Qed.
Lemma queued_entities_for_removal_Body_remove r w :
  queued_entities_for_removal (Body_remove r w) =
  queued_entities_for_removal w ++ [id (deref w r)].
Proof. reflexivity. Qed.
Lemma entities_registered b w :
  entities (registered b w) = array_set (running_id w) (length (heap w)) (entities w).
Proof. reflexivity. Qed.
Lemma running_id_registered b w : running_id (registered b w) = S (running_id w).
Proof. reflexivity. Qed.

#[global] Hint Rewrite last_time_modify last_time_Body_remove last_time_registered
  loop_count_modify loop_count_Body_remove loop_count_registered running_id_modify
  running_id_Body_remove entities_modify entities_Body_remove
  queued_entities_for_removal_modify queued_entities_for_removal_registered
  player_modify player_Body_remove player_registered enemy_spawner_modify
  enemy_spawner_Body_remove enemy_spawner_registered collision_handler_modify
  collision_handler_Body_remove collision_handler_registered enemiesKilled_modify
  enemiesKilled_Body_remove enemiesKilled_registered timeAlive_modify
  timeAlive_Body_remove timeAlive_registered bossesSpawned_modify
  bossesSpawned_Body_remove bossesSpawned_registered bossesKilled_modify
  bossesKilled_Body_remove bossesKilled_registered enemiesSpawned_modify
  enemiesSpawned_Body_remove enemiesSpawned_registered score_modify score_Body_remove
  score_registered HighScore_modify HighScore_Body_remove HighScore_registered
  firstGame_modify firstGame_Body_remove firstGame_registered random_calls_modify
  random_calls_Body_remove random_calls_registered random_source_modify
  random_source_Body_remove random_source_registered Math_cos_PI_4_modify
  Math_cos_PI_4_Body_remove Math_cos_PI_4_registered
  queued_entities_for_removal_Body_remove entities_registered running_id_registered :
  world.

(** ** [Player.update], block by block *)

Lemma Player_move_this (this : ref) (w : World) (b : Body) :
  heap w !! this = Some b ->
  heap (Player_move this w) !! this = Some (moved b).
Proof.
  intros H. unfold Player_move, moved, both_axes.
  rewrite (deref_lookup w this b H).
  match goal with |- context [if ?c then _ else _] => destruct c end;
    rewrite heap_modify, list_lookup_alter_eq, H; reflexivity.
Qed.

Lemma Player_move_drop (this n : ref) (w : World) :
  (this < n)%nat -> drop n (heap (Player_move this w)) = drop n (heap w).
Proof.
  intros Hn. unfold Player_move.
  match goal with |- context [if ?c then _ else _] => destruct c end;
    rewrite heap_modify; apply drop_alter_lt; assumption.
Qed.

Lemma length_heap_Player_move (this : ref) (w : World) :
  length (heap (Player_move this w)) = length (heap w).
Proof.
  unfold Player_move.
  match goal with |- context [if ?c then _ else _] => destruct c end;
    rewrite heap_modify; apply length_alter.
Qed.

(** The worlds that the death block passes to [start()] differ from [w] in
    globals that [start()] does not read when it builds the player. *)
Lemma heap_Player_die (this : ref) (w : World) (b : Body) :
  heap w !! this = Some b ->
  exists restart,
    heap (Player_die this w) = heap w ++ restart /\
    List.filter is_Projectile restart = [].
Proof.
  intros H. unfold Player_die. rewrite (deref_lookup w this b H).
  destruct (isDead b).
  - cbv zeta.
    match goal with |- context [start ?w0] =>
      destruct (heap_start w0) as (p & Hp & Hpl); exists [p]; rewrite Hp end.
    split.
    + f_equal.
      repeat match goal with |- context [if ?c then _ else _] => destruct c end;
        wsimpl; reflexivity.
    + simpl. unfold is_Projectile. unfold is_Player in Hpl.
      destruct (variant p); [reflexivity|discriminate..].
  - exists []. rewrite app_nil_r. split; reflexivity.
Qed.

Lemma alter_lookup {A : Type} (f : A -> A) (i : nat) (l : list A) (a : A) :
  l !! i = Some a -> alter f i l = <[i := f a]> l.
Proof.
  intros H. rewrite list_insert_alter. apply list_alter_ext; [|reflexivity].
  intros a' Ha'. rewrite H in Ha'. injection Ha' as <-. reflexivity.
Qed.

Lemma deref_modify_lookup (this : ref) (f : Body -> Body) (w : World) (b : Body) :
  heap w !! this = Some b -> deref (modify this f w) this = f b.
Proof.
  intros H. apply deref_lookup. rewrite heap_modify, list_lookup_alter_eq, H.
  reflexivity.
Qed.

Lemma Player_set_time_since_fired (t : Q) (b : Body) :
  is_Player b = true ->
  time_since_fired_of (set_time_since_fired t b) = t /\
  controller_of (set_time_since_fired t b) = controller_of b /\
  position (set_time_since_fired t b) = position b /\
  is_Player (set_time_since_fired t b) = true.
Proof.
  unfold is_Player, set_time_since_fired, time_since_fired_of, controller_of.
  destruct b as [i p v s h [c sp d t0| | | ]]; cbn; intros H;
    try discriminate; auto.
Qed.

Lemma Player_fire_heap (dt : Q) (this : ref) (w : World) (b : Body) :
  heap w !! this = Some b -> is_Player b = true ->
  heap (Player_fire dt this w) =
  <[this := fired dt b]> (heap w) ++
  (if fires dt b
   then [Projectile_at (running_id w) (position b) {| width := 10; height := 20 |}]
   else []).
Proof.
  intros H Hp. unfold Player_fire, fired, fires. cbv zeta.
  set (b1 := set_time_since_fired (time_since_fired_of b + dt) b).
  destruct (Player_set_time_since_fired (time_since_fired_of b + dt) b Hp)
    as (Ht & Hc & Hpos & Hp1).
  fold b1 in Ht, Hc, Hpos, Hp1.
  rewrite (deref_modify_lookup this _ w b H). fold b1.
  rewrite Ht, Hc.
  assert (H1 : heap (modify this (fun b0 =>
                 set_time_since_fired (time_since_fired_of b0 + dt) b0) w) !! this
               = Some b1).
  { rewrite heap_modify, list_lookup_alter_eq, H. reflexivity. }
  destruct (action_1 (controller_of b)); cbn [andb].
  - destruct (Qle_bool 0.1 (time_since_fired_of b + dt)).
    + rewrite (deref_modify_lookup this _ _ b1 H1).
      destruct (Player_set_time_since_fired 0 b1 Hp1) as (_ & _ & Hpos0 & _).
      rewrite Hpos0, Hpos.
      rewrite new_Projectile_closed. change (snd (?a, ?c)) with c.
      wsimpl. f_equal.
      rewrite (alter_lookup _ _ _ _ H1).
      rewrite heap_modify, (alter_lookup _ _ _ _ H).
      fold b1. apply list_insert_insert_eq.
    + wsimpl. rewrite app_nil_r, (alter_lookup _ _ _ _ H). reflexivity.
  - wsimpl. rewrite app_nil_r, (alter_lookup _ _ _ _ H). reflexivity.
Qed.

Lemma heap_Player_move (this : ref) (w : World) (b : Body) :
  heap w !! this = Some b ->
  heap (Player_move this w) = <[this := moved b]> (heap w).
Proof.
  intros H. unfold Player_move, moved, both_axes.
  rewrite (deref_lookup w this b H).
  match goal with |- context [if ?c then _ else _] => destruct c end;
    rewrite heap_modify, (alter_lookup _ _ _ _ H); reflexivity.
Qed.

Lemma moved_frame (b : Body) :
  variant (moved b) = variant b /\ velocity (moved b) = velocity b /\
  health (moved b) = health b /\ id (moved b) = id b.
Proof. unfold moved. destruct (both_axes _); repeat split; reflexivity. Qed.

Lemma fired_frame (dt : Q) (b : Body) :
  position (fired dt b) = position b /\ velocity (fired dt b) = velocity b.
Proof.
  unfold fired, set_time_since_fired.
  destruct (fires dt b), b as [i p v s h [c sp d t0| | | ]]; split; reflexivity.
Qed.

Lemma fires_moved (dt : Q) (b : Body) : fires dt (moved b) = fires dt b.
Proof.
  unfold fires, controller_of, time_since_fired_of.
  destruct (moved_frame b) as (-> & _). reflexivity.
Qed.

Lemma is_Player_moved (b : Body) : is_Player (moved b) = is_Player b.
Proof. unfold is_Player. destruct (moved_frame b) as (-> & _). reflexivity. Qed.

Lemma insert_lookup_same {A : Type} (l : list A) (i : nat) (a b : A) :
  l !! i = Some a -> <[i := b]> l !! i = Some b.
Proof.
  intros H. apply list_lookup_insert_eq. eapply lookup_lt_Some. exact H.
Qed.

(** The heap after [Player.update]: the player object is replaced by its
    moved, fired, advanced and clipped state; a player created by a restart
    and the projectile fired, if any, are appended in this order. *)
Lemma Player_update_heap (dt : Q) (this : ref) (w : World) (b : Body) :
  heap w !! this = Some b -> is_Player b = true ->
  exists (restart : list Body) (i : nat),
    heap (Player_update dt this w) =
      <[this := clip_to_screen (advance dt (fired dt (moved b)))]> (heap w) ++
      restart ++
      (if fires dt b
       then [Projectile_at i (position (moved b)) {| width := 10; height := 20 |}]
       else []) /\
    List.filter is_Projectile restart = [].
Proof.
  intros H Hp. unfold Player_update. cbv zeta.
  pose proof (heap_Player_move this w b H) as E1.
  assert (L1 : heap (Player_move this w) !! this = Some (moved b)).
  { rewrite E1. eapply insert_lookup_same. exact H. }
  destruct (heap_Player_die this _ _ L1) as (restart & E2 & Hr).
  assert (L2 : heap (Player_die this (Player_move this w)) !! this = Some (moved b)).
  { rewrite E2. apply lookup_app_l_Some. exact L1. }
  pose proof (Player_fire_heap dt this _ _ L2) as E3.
  rewrite is_Player_moved in E3. specialize (E3 Hp).
  rewrite fires_moved in E3.
  exists restart, (running_id (Player_die this (Player_move this w))).
  split; [|exact Hr].
  assert (Hlt : (this < length (heap w))%nat) by (eapply lookup_lt_Some; exact H).
  wsimpl. rewrite E3, E2, E1.
  rewrite (insert_app_l (<[this:=moved b]> (heap w)) restart this)
    by (rewrite length_insert; exact Hlt).
  rewrite list_insert_insert_eq.
  rewrite <- !app_assoc.
  rewrite !alter_app_l by (rewrite ?length_alter, length_insert; exact Hlt).
  rewrite list_alter_alter_eq.
  f_equal.
  erewrite alter_lookup by (eapply insert_lookup_same; exact H).
  rewrite list_insert_insert_eq. reflexivity.
Qed.

Lemma Base_Player_fire_heap (dt : Q) (this : ref) (w : World) (b : Body) :
  heap w !! this = Some b -> is_Player b = true ->
  heap (Base.Player_fire dt this w) =
  <[this := fired dt b]> (heap w) ++
  (if fires dt b
   then [Projectile_at (running_id w) (position b) {| width := 10; height := 10 |}]
   else []).
Proof.
  intros H Hp. unfold Base.Player_fire, fired, fires. cbv zeta.
  set (b1 := set_time_since_fired (time_since_fired_of b + dt) b).
  destruct (Player_set_time_since_fired (time_since_fired_of b + dt) b Hp)
    as (Ht & Hc & Hpos & Hp1).
  fold b1 in Ht, Hc, Hpos, Hp1.
  rewrite (deref_modify_lookup this _ w b H). fold b1.
  rewrite Ht, Hc.
  assert (H1 : heap (modify this (fun b0 =>
                 set_time_since_fired (time_since_fired_of b0 + dt) b0) w) !! this
               = Some b1).
  { rewrite heap_modify, list_lookup_alter_eq, H. reflexivity. }
  destruct (action_1 (controller_of b)); cbn [andb].
  - destruct (Qle_bool 0.1 (time_since_fired_of b + dt)).
    + rewrite (deref_modify_lookup this _ _ b1 H1).
      destruct (Player_set_time_since_fired 0 b1 Hp1) as (_ & _ & Hpos0 & _).
      rewrite Hpos0, Hpos.
      unfold Base.new_Projectile. rewrite new_Body_closed, modify_registered.
      change (snd (?a, ?c)) with c.
      wsimpl. f_equal.
      rewrite (alter_lookup _ _ _ _ H1).
      rewrite heap_modify, (alter_lookup _ _ _ _ H).
      fold b1. apply list_insert_insert_eq.
    + wsimpl. rewrite app_nil_r, (alter_lookup _ _ _ _ H). reflexivity.
  - wsimpl. rewrite app_nil_r, (alter_lookup _ _ _ _ H). reflexivity.
Qed.

Lemma Base_Player_update_heap (dt : Q) (this : ref) (w : World) (b : Body) :
  heap w !! this = Some b -> is_Player b = true ->
  exists i : nat,
    heap (Base.Player_update dt this w) =
      <[this := clip_to_screen (advance dt (fired dt (moved b)))]> (heap w) ++
      (if fires dt b
       then [Projectile_at i (position (moved b)) {| width := 10; height := 10 |}]
       else []).
Proof.
  intros H Hp. unfold Base.Player_update. cbv zeta.
  pose proof (heap_Player_move this w b H) as E1.
  assert (L1 : heap (Player_move this w) !! this = Some (moved b)).
  { rewrite E1. eapply insert_lookup_same. exact H. }
  assert (E2 : heap (Base.Player_die this (Player_move this w)) =
               heap (Player_move this w)).
  { unfold Base.Player_die. destruct (isDead _); reflexivity. }
  assert (L2 : heap (Base.Player_die this (Player_move this w)) !! this
               = Some (moved b)).
  { rewrite E2. exact L1. }
  pose proof (Base_Player_fire_heap dt this _ _ L2) as E3.
  rewrite is_Player_moved in E3. specialize (E3 Hp).
  rewrite fires_moved in E3.
  exists (running_id (Base.Player_die this (Player_move this w))).
  assert (Hlt : (this < length (heap w))%nat) by (eapply lookup_lt_Some; exact H).
  wsimpl. rewrite E3, E2, E1.
  rewrite list_insert_insert_eq.
  rewrite !alter_app_l by (rewrite ?length_alter, length_insert; exact Hlt).
  rewrite list_alter_alter_eq.
  f_equal.
  erewrite alter_lookup by (eapply insert_lookup_same; exact H).
  rewrite list_insert_insert_eq. reflexivity.
Qed.

(** ** Fire control *)

Lemma fires_iff (dt : Q) (b : Body) :
  fires dt b = true <->
  action_1 (controller_of b) = true /\ 0.1 <= time_since_fired_of b + dt.
Proof.
  unfold fires. rewrite andb_true_iff, Qle_bool_iff. reflexivity.
Qed.

Lemma time_since_fired_fired (dt : Q) (b : Body) :
  is_Player b = true ->
  time_since_fired_of (fired dt b) =
  if fires dt b then 0 else time_since_fired_of b + dt.
Proof.
  intros Hp. unfold fired.
  destruct (Player_set_time_since_fired (time_since_fired_of b + dt) b Hp)
    as (Ht & _ & _ & Hp1).
  destruct (fires dt b); [|exact Ht].
  apply (Player_set_time_since_fired 0 _ Hp1).
Qed.

Lemma time_since_fired_clip_advance (dt : Q) (b : Body) :
  time_since_fired_of (clip_to_screen (advance dt b)) = time_since_fired_of b.
Proof. reflexivity. Qed.

Lemma allocated_insert_app (w w' : World) (this : ref) (b : Body) (l : list Body) :
  heap w' = <[this := b]> (heap w) ++ l -> allocated w w' = l.
Proof.
  intros E. unfold allocated. rewrite E.
  apply drop_app_length'. rewrite length_insert. reflexivity.
Qed.

Lemma filter_is_Projectile_app (l : list Body) (fire : bool) (p : Body) :
  List.filter is_Projectile l = [] -> is_Projectile p = true ->
  List.filter is_Projectile (l ++ (if fire then [p] else [])) =
  if fire then [p] else [].
Proof.
  intros Hl Hp. rewrite List.filter_app, Hl.
  destruct fire; simpl; [rewrite Hp|]; reflexivity.
Qed.

(** C6.  In [Player.update(delta_time)] the timer [time_since_fired] grows by
    [delta_time]; the update fires exactly when [controller.action_1] is set
    and the grown timer is at least 0.1.  When it fires, the timer is zero
    afterwards and the projectiles allocated by the call are exactly one, at
    the position that the player has after the movement block; when it does
    not fire, the timer keeps its grown value and no projectile is allocated.
    The same holds in the variant without boss waves. *)
Theorem fire_control (dt : Q) (this : ref) (w : World) (b : Body) :
  heap w !! this = Some b -> is_Player b = true ->
  (fires dt b = true <->
   action_1 (controller_of b) = true /\ 0.1 <= time_since_fired_of b + dt) /\
  (exists b' p,
     heap (Player_update dt this w) !! this = Some b' /\
     time_since_fired_of b' =
       (if fires dt b then 0 else time_since_fired_of b + dt) /\
     List.filter is_Projectile (allocated w (Player_update dt this w)) =
       (if fires dt b then [p] else []) /\
     position p = position (moved b)) /\
  (exists b' p,
     heap (Base.Player_update dt this w) !! this = Some b' /\
     time_since_fired_of b' =
       (if fires dt b then 0 else time_since_fired_of b + dt) /\
     List.filter is_Projectile (allocated w (Base.Player_update dt this w)) =
       (if fires dt b then [p] else []) /\
     position p = position (moved b)).
Proof.
  intros H Hp. split; [apply fires_iff|].
  assert (Hpm : is_Player (moved b) = true) by (rewrite is_Player_moved; exact Hp).
  assert (Ht : time_since_fired_of
                 (clip_to_screen (advance dt (fired dt (moved b)))) =
               if fires dt b then 0 else time_since_fired_of b + dt).
  { rewrite time_since_fired_clip_advance, (time_since_fired_fired dt _ Hpm).
    rewrite fires_moved. unfold time_since_fired_of.
    destruct (moved_frame b) as (-> & _). reflexivity. }
  split.
  - destruct (Player_update_heap dt this w b H Hp) as (restart & i & E & Hr).
    eexists. exists (Projectile_at i (position (moved b)) {| width := 10; height := 20 |}).
    split; [|split; [exact Ht|split]].
    + rewrite E. apply lookup_app_l_Some. eapply insert_lookup_same. exact H.
    + rewrite (allocated_insert_app _ _ _ _ _ E).
      apply filter_is_Projectile_app; [exact Hr|reflexivity].
    + destruct (position (moved b)); reflexivity.
  - destruct (Base_Player_update_heap dt this w b H Hp) as (i & E).
    eexists. exists (Projectile_at i (position (moved b)) {| width := 10; height := 10 |}).
    split; [|split; [exact Ht|split]].
    + rewrite E. apply lookup_app_l_Some. eapply insert_lookup_same. exact H.
    + rewrite (allocated_insert_app _ _ _ _ _ E).
      apply (filter_is_Projectile_app [] _ _); reflexivity.
    + destruct (position (moved b)); reflexivity.
Qed.

(** ** Movement *)

Lemma both_axes_true (c : Controller) :
  both_axes c = true <-> ~ move_x c == 0 /\ ~ move_y c == 0.
Proof.
  unfold both_axes. rewrite andb_true_iff, !negb_true_iff.
  split; intros [Hx Hy]; split.
  - intros E. apply Qeq_bool_iff in E. congruence.
  - intros E. apply Qeq_bool_iff in E. congruence.
  - destruct (Qeq_bool (move_x c) 0) eqn:E; [|reflexivity].
    apply Qeq_bool_iff in E. contradiction.
  - destruct (Qeq_bool (move_y c) 0) eqn:E; [|reflexivity].
    apply Qeq_bool_iff in E. contradiction.
Qed.

Lemma both_axes_false (c : Controller) :
  both_axes c = false <-> move_x c == 0 \/ move_y c == 0.
Proof.
  unfold both_axes. rewrite andb_false_iff, !negb_false_iff.
  split; (intros [E|E]; [left|right]); apply Qeq_bool_iff; exact E.
Qed.

Lemma speeds_clip_advance_fired_moved (dt : Q) (b : Body) :
  is_Player b = true ->
  speed_of (clip_to_screen (advance dt (fired dt (moved b)))) = speed_of b /\
  diag_speed_of (clip_to_screen (advance dt (fired dt (moved b)))) = diag_speed_of b.
Proof.
  intros Hp.
  change (speed_of (fired dt (moved b)) = speed_of b /\
          diag_speed_of (fired dt (moved b)) = diag_speed_of b).
  unfold fired, speed_of, diag_speed_of, set_time_since_fired.
  destruct (moved_frame b) as (Ev & _).
  unfold is_Player in Hp.
  destruct (fires dt (moved b)); rewrite !Ev;
    destruct (variant b); try discriminate; cbn; rewrite ?Ev; split; reflexivity.
Qed.

(** C7.  [Player.update] advances the position by [move_x] and [move_y]
    times one speed: [diag_speed] when both axes are non-zero, [speed]
    otherwise; then the body moves by its velocity and is clipped.  The two
    speeds are not changed by the update, and a player is constructed with
    [speed = 5] and [diag_speed = speed * Math.cos(Math.PI/4)]. *)
Theorem diagonal_policy (dt : Q) (this : ref) (w : World) (b : Body) :
  heap w !! this = Some b -> is_Player b = true ->
  (~ move_x (controller_of b) == 0 -> ~ move_y (controller_of b) == 0 ->
   position (moved b) =
   {| x := x (position b) + move_x (controller_of b) * diag_speed_of b;
      y := y (position b) + move_y (controller_of b) * diag_speed_of b |}) /\
  (move_x (controller_of b) == 0 \/ move_y (controller_of b) == 0 ->
   position (moved b) =
   {| x := x (position b) + move_x (controller_of b) * speed_of b;
      y := y (position b) + move_y (controller_of b) * speed_of b |}) /\
  (exists b',
     heap (Player_update dt this w) !! this = Some b' /\
     position b' = position (clip_to_screen (advance dt (moved b))) /\
     speed_of b' = speed_of b /\ diag_speed_of b' = diag_speed_of b) /\
  (forall w0, exists p,
     heap (snd (new_Player w0)) !! fst (new_Player w0) = Some p /\
     speed_of p = 5 /\ diag_speed_of p = 5 * Math_cos_PI_4 w0).
Proof.
  intros H Hp. split; [|split; [|split]].
  - intros Hx Hy. unfold moved.
    rewrite (proj2 (both_axes_true _) (conj Hx Hy)). reflexivity.
  - intros Hxy. unfold moved.
    rewrite (proj2 (both_axes_false _) Hxy). reflexivity.
  - destruct (Player_update_heap dt this w b H Hp) as (restart & i & E & _).
    eexists. split; [|split].
    + rewrite E. apply lookup_app_l_Some. eapply insert_lookup_same. exact H.
    + unfold clip_to_screen, advance, move_by. cbn [position with_position].
      destruct (fired_frame dt (moved b)) as (-> & ->). reflexivity.
    + apply speeds_clip_advance_fired_moved. exact Hp.
  - intros w0. rewrite new_Player_closed. cbn [fst snd].
    eexists. split.
    + rewrite heap_registered. rewrite lookup_app_r by lia.
      rewrite Nat.sub_diag. reflexivity.
    + split; reflexivity.
Qed.

(** ** Two-phase removal *)

Lemma with_entities_same (w : World) : with_entities (entities w) w = w.
Proof. destruct w. reflexivity. Qed.

Lemma flush_removals_closed (w : World) :
  flush_removals w =
  with_queued_entities_for_removal []
    (with_entities
       (fold_left (fun a i => array_delete i a) (queued_entities_for_removal w)
                  (entities w)) w).
Proof.
  unfold flush_removals. f_equal.
  generalize (queued_entities_for_removal w) as q. intros q. revert w.
  induction q as [|i q IH]; intros w; cbn [fold_left].
  - symmetry. apply with_entities_same.
  - rewrite IH. destruct w. reflexivity.
Qed.

Lemma length_deletes (q : list nat) (a : list (option nat)) :
  length (fold_left (fun a i => array_delete i a) q a) = length a.
Proof.
  revert a. induction q as [|i q IH]; intros a; cbn [fold_left]; [reflexivity|].
  rewrite IH. apply length_insert.
Qed.

Lemma lookup_deletes_other (q : list nat) (a : list (option nat)) (i : nat) :
  i ∉ q -> fold_left (fun a i => array_delete i a) q a !! i = a !! i.
Proof.
  revert a. induction q as [|j q IH]; intros a Hi; cbn [fold_left]; [reflexivity|].
  apply not_elem_of_cons in Hi as [Hij Hq].
  rewrite IH by assumption. unfold array_delete.
  apply list_lookup_insert_ne. congruence.
Qed.

Lemma lookup_deletes_hole (q : list nat) (a : list (option nat)) (i : nat) :
  (forall r, a !! i <> Some (Some r)) ->
  forall r, fold_left (fun a i => array_delete i a) q a !! i <> Some (Some r).
Proof.
  revert a. induction q as [|j q IH]; intros a Ha; cbn [fold_left]; [exact Ha|].
  apply IH. intros r. unfold array_delete.
  destruct (decide (j = i)) as [->|Hne].
  - rewrite list_lookup_insert. destruct (decide _) as [[_ _]|_]; [|apply Ha].
    discriminate.
  - rewrite list_lookup_insert_ne by assumption. apply Ha.
Qed.

Lemma lookup_deletes_queued (q : list nat) (a : list (option nat)) (i : nat) :
  i ∈ q -> forall r, fold_left (fun a i => array_delete i a) q a !! i <> Some (Some r).
Proof.
  revert a. induction q as [|j q IH]; intros a Hi; [inversion Hi|].
  cbn [fold_left]. destruct (decide (i = j)) as [->|Hne].
  - apply lookup_deletes_hole. intros r. unfold array_delete.
    rewrite list_lookup_insert. destruct (decide _) as [[_ _]|Hn].
    + discriminate.
    + intros E. apply lookup_lt_Some in E. apply Hn. split; [reflexivity|exact E].
  - apply IH. apply elem_of_cons in Hi as [Hi|Hi]; [contradiction|exact Hi].
Qed.

Lemma deletes_app (q1 q2 : list nat) (a : list (option nat)) :
  fold_left (fun a i => array_delete i a) (q1 ++ q2) a =
  fold_left (fun a i => array_delete i a) q2
            (fold_left (fun a i => array_delete i a) q1 a).
Proof. apply fold_left_app. Qed.

Lemma array_delete_twice (i : nat) (a : list (option nat)) :
  array_delete i (array_delete i a) = array_delete i a.
Proof. apply list_insert_insert_eq. Qed.

Lemma length_Object_values_delete (a : list (option nat)) (i r : nat) :
  a !! i = Some (Some r) ->
  S (length (Object_values (array_delete i a))) = length (Object_values a).
Proof.
  unfold Object_values, array_delete. revert i.
  induction a as [|o a IH]; intros i H; [discriminate|].
  destruct i as [|i].
  - injection H as ->. reflexivity.
  - cbn in H. specialize (IH i H). cbn.
    destruct o; cbn; rewrite <- IH; reflexivity.
Qed.

(** C8.  [remove()] appends the id of the body to the pending list and
    changes neither the registry nor any object.  The flush empties the
    pending list and leaves a hole in the registry at every pending id, and
    nothing else; the registry keeps its length and objects are untouched.
    Calling [remove()] twice on one body gives, after the flush, the same
    world as calling it once; starting from an empty pending list, the
    registry then holds exactly one entry less. *)
Theorem removal_two_phase (this : ref) (w : World) :
  (entities (Body_remove this w) = entities w /\
   heap (Body_remove this w) = heap w /\
   queued_entities_for_removal (Body_remove this w) =
     queued_entities_for_removal w ++ [id (deref w this)]) /\
  (queued_entities_for_removal (flush_removals w) = [] /\
   heap (flush_removals w) = heap w /\
   length (entities (flush_removals w)) = length (entities w) /\
   (forall i r, i ∈ queued_entities_for_removal w ->
      entities (flush_removals w) !! i <> Some (Some r)) /\
   (forall i, i ∉ queued_entities_for_removal w ->
      entities (flush_removals w) !! i = entities w !! i)) /\
  flush_removals (Body_remove this (Body_remove this w)) =
    flush_removals (Body_remove this w) /\
  (forall r,
     queued_entities_for_removal w = [] ->
     entities w !! id (deref w this) = Some (Some r) ->
     S (length (Object_values
          (entities (flush_removals (Body_remove this (Body_remove this w)))))) =
     length (Object_values (entities w))).
Proof.
  assert (Htwice :
    flush_removals (Body_remove this (Body_remove this w)) =
    flush_removals (Body_remove this w)).
  { rewrite !flush_removals_closed. wsimpl.
    rewrite !deletes_app. cbn [fold_left]. rewrite array_delete_twice.
    destruct w. reflexivity. }
  split; [repeat split|split; [|split]].
  - rewrite flush_removals_closed. wsimpl. repeat split.
    + apply length_deletes.
    + intros i r Hi. apply lookup_deletes_queued. exact Hi.
    + intros i Hi. apply lookup_deletes_other. exact Hi.
  - exact Htwice.
  - intros r Hq Hr. rewrite Htwice, flush_removals_closed. wsimpl.
    rewrite Hq. cbn [app fold_left].
    eapply length_Object_values_delete. exact Hr.
Qed.

(** ** The collision pass depends on the collision state only *)

Lemma collision_state_inv (w w' : World) :
  collision_state w' = collision_state w ->
  heap w' = heap w /\ entities w' = entities w /\
  queued_entities_for_removal w' = queued_entities_for_removal w /\
  enemiesKilled w' = enemiesKilled w /\ bossesKilled w' = bossesKilled w.
Proof. unfold collision_state. intros H. injection H as -> -> -> -> ->. auto. Qed.

Lemma collision_state_put (h : list Body) (q : list nat) (k bk : nat) (w : World) :
  collision_state (put h q k bk w) = (h, entities w, q, k, bk).
Proof. reflexivity. Qed.

Lemma put_same (w : World) :
  put (heap w) (queued_entities_for_removal w) (enemiesKilled w) (bossesKilled w) w = w.
Proof. destruct w. reflexivity. Qed.

Lemma put_put (h h' : list Body) (q q' : list nat) (k k' bk bk' : nat) (w : World) :
  put h' q' k' bk' (put h q k bk w) = put h' q' k' bk' w.
Proof. destruct w. reflexivity. Qed.

Lemma deref_collision_state (w w' : World) (r : ref) :
  collision_state w' = collision_state w -> deref w' r = deref w r.
Proof. intros H. apply deref_heap. apply (collision_state_inv _ _ H). Qed.

Lemma local_id : collision_local (fun w => w).
Proof.
  intros w.
  exists (heap w), (queued_entities_for_removal w), (enemiesKilled w), (bossesKilled w).
  intros w' H. destruct (collision_state_inv _ _ H) as (<- & _ & <- & <- & <-).
  symmetry. apply put_same.
Qed.

Lemma local_modify (r : ref) (f : Body -> Body) : collision_local (modify r f).
Proof.
  intros w.
  exists (alter f r (heap w)), (queued_entities_for_removal w),
         (enemiesKilled w), (bossesKilled w).
  intros w' H. destruct (collision_state_inv _ _ H) as (<- & _ & <- & <- & <-).
  destruct w'. reflexivity.
Qed.

Lemma local_Body_remove (r : ref) : collision_local (Body_remove r).
Proof.
  intros w.
  exists (heap w), (queued_entities_for_removal w ++ [id (deref w r)]),
         (enemiesKilled w), (bossesKilled w).
  intros w' H. rewrite <- (deref_collision_state _ _ r H).
  destruct (collision_state_inv _ _ H) as (<- & _ & <- & <- & <-).
  destruct w'. reflexivity.
Qed.

Lemma local_count_enemy :
  collision_local (fun w => with_enemiesKilled (S (enemiesKilled w)) w).
Proof.
  intros w.
  exists (heap w), (queued_entities_for_removal w),
         (S (enemiesKilled w)), (bossesKilled w).
  intros w' H. destruct (collision_state_inv _ _ H) as (<- & _ & <- & <- & <-).
  destruct w'. reflexivity.
Qed.

Lemma local_count_boss :
  collision_local (fun w => with_bossesKilled (S (bossesKilled w)) w).
Proof.
  intros w.
  exists (heap w), (queued_entities_for_removal w),
         (enemiesKilled w), (S (bossesKilled w)).
  intros w' H. destruct (collision_state_inv _ _ H) as (<- & _ & <- & <- & <-).
  destruct w'. reflexivity.
Qed.

Lemma local_let (f g : World -> World) :
  collision_local f -> collision_local g ->
  collision_local (fun w => let w1 := f w in g w1).
Proof.
  intros Hf Hg w. cbv zeta.
  destruct (Hf w) as (h & q & k & bk & Ef).
  destruct (Hg (put h q k bk w)) as (h' & q' & k' & bk' & Eg).
  exists h', q', k', bk'. intros w' H.
  rewrite (Ef w' H).
  rewrite (Eg (put h q k bk w')).
  - apply put_put.
  - rewrite !collision_state_put.
    destruct (collision_state_inv _ _ H) as (_ & -> & _). reflexivity.
Qed.

Lemma local_if (c : World -> bool) (f g : World -> World) :
  (forall w w', collision_state w' = collision_state w -> c w' = c w) ->
  collision_local f -> collision_local g ->
  collision_local (fun w => if c w then f w else g w).
Proof.
  intros Hc Hf Hg w.
  destruct (c w) eqn:E.
  - destruct (Hf w) as (h & q & k & bk & Ef). exists h, q, k, bk.
    intros w' H. rewrite (Hc w w' H), E. apply Ef. exact H.
  - destruct (Hg w) as (h & q & k & bk & Eg). exists h, q, k, bk.
    intros w' H. rewrite (Hc w w' H), E. apply Eg. exact H.
Qed.

Lemma local_fold {A : Type} (F : A -> World -> World) (l : list A) :
  (forall a, collision_local (F a)) ->
  collision_local (fun w => fold_left (fun w a => F a w) l w).
Proof.
  intros HF. induction l as [|a l IH]; cbn [fold_left].
  - apply local_id.
  - apply (local_let (F a) (fun w => fold_left (fun w a => F a w) l w));
      [apply HF | exact IH].
Qed.

Lemma local_over_registry (F : list nat -> World -> World) :
  (forall l, collision_local (F l)) ->
  collision_local (fun w => F (Object_values (entities w)) w).
Proof.
  intros HF w. destruct (HF (Object_values (entities w)) w) as (h & q & k & bk & E).
  exists h, q, k, bk. intros w' H.
  destruct (collision_state_inv _ _ H) as (_ & -> & _). apply E. exact H.
Qed.

(** Solves [collision_local] for a block of the inner callback, following
    the shape of the block. *)
Ltac local_block :=
  lazymatch goal with
  | |- collision_local (fun w => w) => apply local_id
  | |- collision_local (fun w => let w1 := @?f w in @?g w1) =>
      apply (local_let f g); local_block
  | |- collision_local (fun w => if @?c w then @?f w else @?g w) =>
      apply (local_if c f g);
      [ intros ? ? ?HH; cbv beta;
        rewrite ?(deref_collision_state _ _ _ HH); reflexivity
      | local_block | local_block ]
  | |- collision_local (fun w => modify ?r ?f w) => apply (local_modify r f)
  | |- collision_local (fun w => Body_remove ?r w) => apply (local_Body_remove r)
  | |- collision_local (fun w => with_enemiesKilled (S (enemiesKilled w)) w) =>
      apply local_count_enemy
  | |- collision_local (fun w => with_bossesKilled (S (bossesKilled w)) w) =>
      apply local_count_boss
  end.

Lemma local_hit_Player (e1 e2 : ref) : collision_local (hit_Player e1 e2).
Proof. cbv beta delta [hit_Player]. local_block. Qed.

Lemma local_hit_Enemy (e1 e2 : ref) : collision_local (hit_Enemy e1 e2).
Proof. cbv beta delta [hit_Enemy]. local_block. Qed.

Lemma local_hit_BossEnemy_first (e1 e2 : ref) :
  collision_local (hit_BossEnemy_first e1 e2).
Proof. cbv beta delta [hit_BossEnemy_first]. local_block. Qed.

Lemma local_hit_BossEnemy_second (e1 e2 : ref) :
  collision_local (hit_BossEnemy_second e1 e2).
Proof. cbv beta delta [hit_BossEnemy_second]. local_block. Qed.

Lemma local_collide (e1 e2 : ref) : collision_local (collide e1 e2).
Proof.
  cbv beta delta [collide].
  destruct (negb (e1 =? e2)%nat); [|apply local_id].
  apply (local_if (fun w => overlaps (deref w e1) (deref w e2))).
  - intros w w' H. rewrite !(deref_collision_state _ _ _ H). reflexivity.
  - apply (local_let (hit_Player e1 e2)
             (fun w => hit_BossEnemy_second e1 e2
                         (hit_BossEnemy_first e1 e2 (hit_Enemy e1 e2 w))));
      [apply local_hit_Player|].
    apply (local_let (hit_Enemy e1 e2)
             (fun w => hit_BossEnemy_second e1 e2 (hit_BossEnemy_first e1 e2 w)));
      [apply local_hit_Enemy|].
    apply (local_let (hit_BossEnemy_first e1 e2) (hit_BossEnemy_second e1 e2));
      [apply local_hit_BossEnemy_first|apply local_hit_BossEnemy_second].
  - apply local_id.
Qed.

Lemma local_Collision_Handler_update : collision_local Collision_Handler_update.
Proof.
  apply (local_over_registry
           (fun ent w =>
              fold_left (fun w e1 => fold_left (fun w e2 => collide e1 e2 w) ent w)
                        ent w)).
  intros ent.
  apply (local_fold (fun e1 w => fold_left (fun w e2 => collide e1 e2 w) ent w)).
  intros e1. apply (local_fold (fun e2 w => collide e1 e2 w)).
  intros e2. apply local_collide.
Qed.

Lemma local_Base_hit_Player (e1 e2 : ref) : collision_local (Base.hit_Player e1 e2).
Proof. cbv beta delta [Base.hit_Player]. local_block. Qed.

Lemma local_Base_hit_Enemy (e1 e2 : ref) : collision_local (Base.hit_Enemy e1 e2).
Proof. cbv beta delta [Base.hit_Enemy]. local_block. Qed.

Lemma local_Base_collide (e1 e2 : ref) : collision_local (Base.collide e1 e2).
Proof.
  cbv beta delta [Base.collide].
  destruct (negb (e1 =? e2)%nat); [|apply local_id].
  apply (local_if (fun w => Base.overlaps (deref w e1) (deref w e2))).
  - intros w w' H. rewrite !(deref_collision_state _ _ _ H). reflexivity.
  - apply (local_let (Base.hit_Player e1 e2) (Base.hit_Enemy e1 e2));
      [apply local_Base_hit_Player|apply local_Base_hit_Enemy].
  - apply local_id.
Qed.

Lemma local_Base_Collision_Handler_update :
  collision_local Base.Collision_Handler_update.
Proof.
  apply (local_over_registry
           (fun ent w =>
              fold_left (fun w e1 =>
                           fold_left (fun w e2 => Base.collide e1 e2 w) ent w)
                        ent w)).
  intros ent.
  apply (local_fold (fun e1 w => fold_left (fun w e2 => Base.collide e1 e2 w) ent w)).
  intros e1. apply (local_fold (fun e2 w => Base.collide e1 e2 w)).
  intros e2. apply local_Base_collide.
Qed.

Lemma local_deterministic (f : World -> World) (w1 w2 : World) :
  collision_local f ->
  collision_state w1 = collision_state w2 ->
  collision_state (f w1) = collision_state (f w2) /\
  exists h q k bk, f w1 = put h q k bk w1.
Proof.
  intros Hf H. destruct (Hf w2) as (h & q & k & bk & E).
  rewrite (E w1 H), (E w2 eq_refl), !collision_state_put.
  split.
  - destruct (collision_state_inv _ _ H) as (_ & -> & _). reflexivity.
  - exists h, q, k, bk. reflexivity.
Qed.

(** C9.  Two runs of the collision handler that start from the same objects,
    registry, pending removals and kill counters end with the same objects,
    registry, pending removals and kill counters, whatever the rest of the
    two worlds is (clock, spawner, score, the random source and the number of
    draws made from it); and the handler changes nothing but objects, pending
    removals and kill counters.  This holds for the handler of the full game
    and for the handler of the variant without boss waves. *)
Theorem collision_deterministic (w1 w2 : World) :
  collision_state w1 = collision_state w2 ->
  (collision_state (Collision_Handler_update w1) =
   collision_state (Collision_Handler_update w2) /\
   exists h q k bk, Collision_Handler_update w1 = put h q k bk w1) /\
  (collision_state (Base.Collision_Handler_update w1) =
   collision_state (Base.Collision_Handler_update w2) /\
   exists h q k bk, Base.Collision_Handler_update w1 = put h q k bk w1).
Proof.
  intros H. split.
  - apply local_deterministic; [apply local_Collision_Handler_update|exact H].
  - apply local_deterministic; [apply local_Base_Collision_Handler_update|exact H].
Qed.

(** ** A projectile hits a boss *)

(** One evaluation of the inner callback on a boss [e1] and a projectile
    [e2] that overlap: both [BossEnemy] statements run, the first takes 7
    health and the second takes 100 more. *)
Lemma collide_BossEnemy_Projectile (e1 e2 : ref) (w : World) (b p : Body) :
  e1 <> e2 ->
  heap w !! e1 = Some b -> heap w !! e2 = Some p ->
  is_BossEnemy b = true -> is_Projectile p = true ->
  overlaps b p = true ->
  heap (collide e1 e2 w) !! e1 = Some (damage 100 (damage 7 b)).
Proof.
  intros Hne H1 H2 Hb Hp Ho.
  assert (Hpl : is_Player b = false).
  { unfold is_Player, is_BossEnemy in *. destruct (variant b); congruence. }
  assert (Hen : is_Enemy b = false).
  { unfold is_Enemy, is_BossEnemy in *. destruct (variant b); congruence. }
  unfold collide.
  rewrite (proj2 (Nat.eqb_neq e1 e2) Hne). cbn [negb].
  rewrite (deref_lookup w e1 b H1), (deref_lookup w e2 p H2), Ho.
  unfold hit_Player at 1. rewrite (deref_lookup w e1 b H1), Hpl.
  unfold hit_Enemy at 1. rewrite (deref_lookup w e1 b H1), Hen.
  assert (E1 : heap (hit_BossEnemy_first e1 e2 w) = alter (damage 7) e1 (heap w)).
  { unfold hit_BossEnemy_first.
    rewrite (deref_lookup w e1 b H1), (deref_lookup w e2 p H2), Hb, Hp.
    destruct (isDead _); wsimpl; reflexivity. }
  assert (L1 : heap (hit_BossEnemy_first e1 e2 w) !! e1 = Some (damage 7 b)).
  { rewrite E1, list_lookup_alter_eq, H1. reflexivity. }
  assert (L2 : heap (hit_BossEnemy_first e1 e2 w) !! e2 = Some p).
  { rewrite E1, list_lookup_alter_ne by assumption. exact H2. }
  unfold hit_BossEnemy_second.
  rewrite (deref_lookup _ e1 _ L1), (deref_lookup _ e2 _ L2).
  change (is_BossEnemy (damage 7 b)) with (is_BossEnemy b). rewrite Hb, Hp.
  destruct (isDead _); wsimpl; rewrite list_lookup_alter_eq, L1; reflexivity.
Qed.

(** C1, on the code.  In a collision pass over one boss with 1000 health and
    one projectile that overlaps it, the boss ends with 893 health, not 993:
    it is hit for 7 and then for 100.  The projectile is queued for removal
    and the boss is not.  A boss with 50 health, which the hit for 7 does not
    kill, is killed by the hit for 100: it ends with -57 health, is queued
    for removal after the projectile, and both kill counters go up. *)
Theorem boss_hit_takes_107 :
  (let w := Collision_Handler_update boss_scene in
   map health (heap boss_scene) = [1000; 100] /\
   map health (heap w) = [893; 100] /\
   queued_entities_for_removal w = [1%nat] /\
   (enemiesKilled w, bossesKilled w) = (0%nat, 0%nat)) /\
  (let w := Collision_Handler_update weak_boss_scene in
   map health (heap weak_boss_scene) = [50; 100] /\
   map health (heap w) = [-57; 100] /\
   queued_entities_for_removal w = [1%nat; 0%nat] /\
   (enemiesKilled w, bossesKilled w) = (1%nat, 1%nat)).
Proof. vm_compute. repeat split. Qed.

(** ** The cadence of the spawner *)






Lemma Enemy_Spawner_update_cases (dt : Q) (s : Enemy_Spawner) (w : World) :
  Enemy_Spawner_update dt s w =
  if Qle_bool (time_between s) (time_since_spawn s + dt)
  then Nat.iter (enemies s) spawn_unit
         (mkEnemy_Spawner (enemies s) (time_between s) 0 (bossSpawn s) (bossTimer s), w)
  else (mkEnemy_Spawner (enemies s) (time_between s) (time_since_spawn s + dt)
                        (bossSpawn s) (bossTimer s), w).
Proof. reflexivity. Qed.






(** ** Only the loop writes the tick counter *)




















(** ** The loop *)





Section While_ticks.

Variables (tick eta hor : Q) (sub : Q -> Q).
Variable body : Q * World -> Q * World.
Variable curr : Q.

Hypothesis tick_pos : 0 < tick.
Hypothesis eta_small : 0 < eta /\ 2 * eta <= tick.
Hypothesis sub_off : forall d, tick < d -> d <= hor ->
  - eta <= sub d - (d - tick) <= eta.

Hypothesis body_clock : forall d w,
  fst (body (d, w)) = sub d /\
  loop_count (snd (body (d, w))) = S (loop_count w) /\
  last_time (snd (body (d, w))) = Some curr.


End While_ticks.















(** The rounding shows in the count.  A callback 100 milliseconds after the
    first runs six ticks, although a tenth of a second is not more than six
    sixtieths: the tick size is the double below a sixtieth.  So does a
    callback at the double just below 100 milliseconds, although six tick
    sizes are more than its [delta]: the bounds of one callback cannot do
    without [slack]. *)
Lemma rounding_runs_a_sixth_tick :
  loop_count (callbacks [0; 100] (start host_World)) = 6%nat /\
  loop_count (callbacks [0; double 99.99999999999999] (start host_World)) = 6%nat /\
  elapsed (double 99.99999999999999) (loop 0 (start host_World)) <
    6 * seconds (update_rate config).
Proof.
  split; [vm_compute; reflexivity|]. split; vm_compute; reflexivity.
Qed.

(** On the clock of these scenarios, [double] gives the numbers of the
    Standard Library's binary64 arithmetic: the tick size, the callback
    times in seconds, and the first subtraction of the loop. *)
Lemma double_agrees_with_binary64 :
  Q_of_binary64 (binary64_div (binary64_of_Z 1) (binary64_of_Z 60)) ==
    seconds (update_rate config) /\
  Forall (fun t =>
            Q_of_binary64 (binary64_div (binary64_of_Z t) (binary64_of_Z 1000)) ==
              double (inject_Z t / 1000) /\
            Q_of_binary64
              (binary64_sub (binary64_div (binary64_of_Z t) (binary64_of_Z 1000))
                 (binary64_div (binary64_of_Z 1) (binary64_of_Z 60))) ==
              double (double (inject_Z t / 1000) - seconds (update_rate config)))
         [25; 50; 100; 1000; 1050]%Z.
Proof.
  split; [vm_compute; reflexivity|].
  repeat (apply Forall_cons; split; [split; vm_compute; reflexivity|]).
  apply Forall_nil. exact I.
Qed.

(** * Further properties *)

(** ** The bounding-box test *)

Lemma Qabs_lt_iff (a b : Q) : Qabs a < b <-> - b < a /\ a < b.
Proof.
  split.
  - intros H. split.
    + destruct (Qlt_le_dec (- b) a) as [Hl|Hl]; [exact Hl|].
      exfalso. pose proof (Qabs_nonneg a) as Hn.
      assert (Ha : Qabs a == - a).
      { apply Qabs_neg. lra. }
      rewrite Ha in H. lra.
    + pose proof (Qle_Qabs a). lra.
  - intros [H1 H2]. apply Qabs_case; intros; lra.
Qed.

(** X1.  Two bodies overlap exactly when their centres are closer than the
    sum of their half extents on both axes; so the test is symmetric, and
    two bodies that only touch do not overlap. *)
Theorem overlaps_by_distance (e1 e2 : Body) :
  (overlaps e1 e2 = true <->
   Qabs (x (position e1) - x (position e2)) <
     width (half_size e1) + width (half_size e2) /\
   Qabs (y (position e1) - y (position e2)) <
     height (half_size e1) + height (half_size e2)) /\
  overlaps e1 e2 = overlaps e2 e1.
Proof.
  split.
  - unfold overlaps. rewrite !andb_true_iff, !Qlt_bool_iff, !Qabs_lt_iff.
    generalize (x (position e1)) (x (position e2)) (y (position e1)) (y (position e2))
               (width (half_size e1)) (width (half_size e2))
               (height (half_size e1)) (height (half_size e2)).
    intros. split; intros H; repeat split; lra.
  - unfold overlaps.
    destruct (Qlt_bool (x (position e1) - width (half_size e1)) _),
             (Qlt_bool (x (position e2) - width (half_size e2)) _),
             (Qlt_bool (y (position e1) - height (half_size e1)) _),
             (Qlt_bool (y (position e2) - height (half_size e2)) _); reflexivity.
Qed.

(** ** The rules of the collision callback, pair by pair *)

Lemma class_exclusive (b : Body) :
  (is_Player b = true -> is_Enemy b = false /\ is_BossEnemy b = false /\
                         is_Projectile b = false) /\
  (is_Enemy b = true -> is_Player b = false /\ is_BossEnemy b = false /\
                        is_Projectile b = false) /\
  (is_Projectile b = true -> is_Player b = false /\ is_BossEnemy b = false /\
                             is_Enemy b = false) /\
  (is_BossEnemy b = true -> is_Player b = false /\ is_Enemy b = false /\
                            is_Projectile b = false).
Proof.
  unfold is_Player, is_Enemy, is_BossEnemy, is_Projectile.
  destruct (variant b); repeat split; congruence.
Qed.

Lemma collide_overlapping (e1 e2 : ref) (w : World) (b1 b2 : Body) :
  e1 <> e2 -> heap w !! e1 = Some b1 -> heap w !! e2 = Some b2 ->
  overlaps b1 b2 = true ->
  collide e1 e2 w =
  hit_BossEnemy_second e1 e2
    (hit_BossEnemy_first e1 e2 (hit_Enemy e1 e2 (hit_Player e1 e2 w))).
Proof.
  intros Hne H1 H2 Ho. unfold collide.
  rewrite (proj2 (Nat.eqb_neq e1 e2) Hne). cbn [negb].
  rewrite (deref_lookup w e1 b1 H1), (deref_lookup w e2 b2 H2), Ho. reflexivity.
Qed.

(** X2.  The player [e1] against a body [e2] that overlaps it: an enemy
    costs the player 25 health, a boss costs 100, a projectile or another
    player costs nothing; and nothing else in the world changes: the player
    is not queued for removal and no counter moves. *)
Theorem player_is_hit (e1 e2 : ref) (w : World) (p b : Body) :
  e1 <> e2 -> heap w !! e1 = Some p -> heap w !! e2 = Some b ->
  is_Player p = true -> overlaps p b = true ->
  collide e1 e2 w =
  if is_Enemy b then modify e1 (damage 25) w
  else if is_BossEnemy b then modify e1 (damage 100) w
  else w.
Proof.
  intros Hne H1 H2 Hp Ho.
  rewrite (collide_overlapping e1 e2 w p b Hne H1 H2 Ho).
  destruct (class_exclusive p) as (Hex & _). destruct (Hex Hp) as (Hpe & Hpb & _).
  assert (Hstep : hit_Player e1 e2 w =
                  if is_Enemy b then modify e1 (damage 25) w
                  else if is_BossEnemy b then modify e1 (damage 100) w else w).
  { unfold hit_Player. rewrite (deref_lookup w e1 p H1), Hp.
    rewrite (deref_lookup w e2 b H2).
    destruct (is_Enemy b) eqn:Ee.
    - rewrite (deref_modify_ne e1 e2 _ w Hne), (deref_lookup w e2 b H2).
      destruct (class_exclusive b) as (_ & Hb & _). destruct (Hb Ee) as (_ & -> & _).
      reflexivity.
    - rewrite (deref_lookup w e2 b H2). reflexivity. }
  rewrite Hstep.
  assert (Hrest : forall w', (exists p', heap w' !! e1 = Some p' /\
                                is_Enemy p' = false /\ is_BossEnemy p' = false) ->
            hit_BossEnemy_second e1 e2
              (hit_BossEnemy_first e1 e2 (hit_Enemy e1 e2 w')) = w').
  { intros w' (p' & Hp' & He' & Hb').
    unfold hit_Enemy. rewrite (deref_lookup w' e1 p' Hp'), He'.
    unfold hit_BossEnemy_first. rewrite (deref_lookup w' e1 p' Hp'), Hb'.
    unfold hit_BossEnemy_second. rewrite (deref_lookup w' e1 p' Hp'), Hb'.
    reflexivity. }
  destruct (is_Enemy b); [|destruct (is_BossEnemy b)]; apply Hrest.
  - exists (damage 25 p). rewrite heap_modify, list_lookup_alter_eq, H1. auto.
  - exists (damage 100 p). rewrite heap_modify, list_lookup_alter_eq, H1. auto.
  - exists p. auto.
Qed.

(** X3.  A regular enemy [e1] against a player or a projectile [e2] that
    overlaps it loses 100 health; if that leaves it at zero or below, its id
    is queued for removal and [enemiesKilled] goes up by one.  The other body
    is not changed and is not queued: a projectile that hits a regular enemy
    is not used up. *)
Theorem enemy_is_hit (e1 e2 : ref) (w : World) (e b : Body) :
  e1 <> e2 -> heap w !! e1 = Some e -> heap w !! e2 = Some b ->
  is_Enemy e = true -> is_Player b || is_Projectile b = true ->
  overlaps e b = true ->
  collide e1 e2 w =
  if Qle_bool (health e - 100) 0
  then with_enemiesKilled (S (enemiesKilled w))
         (with_queued_entities_for_removal
            (queued_entities_for_removal w ++ [id e])
            (modify e1 (damage 100) w))
  else modify e1 (damage 100) w.
Proof.
  intros Hne H1 H2 He Hb Ho.
  rewrite (collide_overlapping e1 e2 w e b Hne H1 H2 Ho).
  destruct (class_exclusive e) as (_ & Hex & _). destruct (Hex He) as (Hep & Heb & _).
  unfold hit_Player. rewrite (deref_lookup w e1 e H1), Hep.
  assert (Hstep : hit_Enemy e1 e2 w =
            if Qle_bool (health e - 100) 0
            then with_enemiesKilled (S (enemiesKilled w))
                   (with_queued_entities_for_removal
                      (queued_entities_for_removal w ++ [id e])
                      (modify e1 (damage 100) w))
            else modify e1 (damage 100) w).
  { unfold hit_Enemy. rewrite (deref_lookup w e1 e H1), He.
    rewrite (deref_lookup w e2 b H2), Hb. cbv zeta.
    rewrite (deref_modify_lookup e1 _ w e H1).
    unfold isDead. cbn [health damage with_health].
    destruct (Qle_bool (health e - 100) 0); [|reflexivity].
    unfold Body_remove. rewrite (deref_modify_lookup e1 _ w e H1). reflexivity. }
  rewrite Hstep.
  assert (Hrest : forall w', (exists e', heap w' !! e1 = Some e' /\
                                is_BossEnemy e' = false) ->
            hit_BossEnemy_second e1 e2 (hit_BossEnemy_first e1 e2 w') = w').
  { intros w' (e' & He' & Hb').
    unfold hit_BossEnemy_first. rewrite (deref_lookup w' e1 e' He'), Hb'.
    unfold hit_BossEnemy_second. rewrite (deref_lookup w' e1 e' He'), Hb'.
    reflexivity. }
  destruct (Qle_bool (health e - 100) 0); apply Hrest; exists (damage 100 e);
    (split; [wsimpl; rewrite list_lookup_alter_eq, H1; reflexivity|exact Heb]).
Qed.

(** X4.  The callback has no rule for a projectile in the first place of the
    pair, and none for a regular enemy against another enemy or a boss, nor
    for a boss against anything but a projectile: the world is unchanged. *)
Theorem pairs_without_rule (e1 e2 : ref) (w : World) (b1 b2 : Body) :
  heap w !! e1 = Some b1 -> heap w !! e2 = Some b2 ->
  is_Projectile b1 = true \/
  (is_Enemy b1 = true /\ is_Player b2 || is_Projectile b2 = false) \/
  (is_BossEnemy b1 = true /\ is_Projectile b2 = false) ->
  collide e1 e2 w = w.
Proof.
  intros H1 H2 Hc. unfold collide.
  destruct (negb (e1 =? e2)%nat); [|reflexivity].
  destruct (overlaps _ _); [|reflexivity].
  cbv zeta.
  destruct (class_exclusive b1) as (_ & HE & HP & HB).
  destruct Hc as [Hp|[[He Hb]|[Hbo Hb]]].
  - destruct (HP Hp) as (Hpl & Hbo & Hen).
    unfold hit_Player. rewrite (deref_lookup w e1 b1 H1), Hpl.
    unfold hit_Enemy. rewrite (deref_lookup w e1 b1 H1), Hen.
    unfold hit_BossEnemy_first. rewrite (deref_lookup w e1 b1 H1), Hbo.
    unfold hit_BossEnemy_second. rewrite (deref_lookup w e1 b1 H1), Hbo.
    reflexivity.
  - destruct (HE He) as (Hpl & Hbo & _).
    unfold hit_Player. rewrite (deref_lookup w e1 b1 H1), Hpl.
    unfold hit_Enemy. rewrite (deref_lookup w e1 b1 H1), He.
    rewrite (deref_lookup w e2 b2 H2), Hb.
    unfold hit_BossEnemy_first. rewrite (deref_lookup w e1 b1 H1), Hbo.
    unfold hit_BossEnemy_second. rewrite (deref_lookup w e1 b1 H1), Hbo.
    reflexivity.
  - destruct (HB Hbo) as (Hpl & Hen & _).
    unfold hit_Player. rewrite (deref_lookup w e1 b1 H1), Hpl.
    unfold hit_Enemy. rewrite (deref_lookup w e1 b1 H1), Hen.
    unfold hit_BossEnemy_first.
    rewrite (deref_lookup w e1 b1 H1), Hbo, (deref_lookup w e2 b2 H2), Hb.
    unfold hit_BossEnemy_second.
    rewrite (deref_lookup w e1 b1 H1), Hbo, (deref_lookup w e2 b2 H2), Hb.
    reflexivity.
Qed.

(** ** What the collision pass leaves alone *)

Lemma same_but_health_refl (b : Body) : same_but_health b b.
Proof. repeat split. Qed.

Lemma same_but_health_trans (b1 b2 b3 : Body) :
  same_but_health b1 b2 -> same_but_health b2 b3 -> same_but_health b1 b3.
Proof. unfold same_but_health. intros (?&?&?&?&?) (?&?&?&?&?). repeat split; congruence. Qed.

Lemma shape_refl (w : World) : evolves same_but_health w w.
Proof. apply evolves_refl, same_but_health_refl. Qed.

Lemma shape_trans (w1 w2 w3 : World) :
  evolves same_but_health w1 w2 -> evolves same_but_health w2 w3 ->
  evolves same_but_health w1 w3.
Proof. apply evolves_trans, same_but_health_trans. Qed.

Ltac shape_leaf :=
  lazymatch goal with
  | |- evolves _ _ (modify _ (damage _) _) =>
      apply evolves_modify; [apply same_but_health_refl|];
      intros ?; repeat split
  | |- evolves _ _ _ =>
      apply evolves_heap_eq; [apply same_but_health_refl|reflexivity]
  end.

Ltac shape_chain := chain shape_refl shape_trans ltac:(idtac; shape_leaf).

Lemma shape_collide (e1 e2 : ref) (w : World) :
  evolves same_but_health w (collide e1 e2 w).
Proof.
  cbv beta delta [collide hit_Player hit_Enemy hit_BossEnemy_first
                  hit_BossEnemy_second Body_remove].
  shape_chain.
Qed.

Lemma queue_grows_refl (w : World) : queue_grows w w.
Proof.
  repeat split; try lia. exists []. rewrite app_nil_r. reflexivity.
Qed.

Lemma queue_grows_trans (w1 w2 w3 : World) :
  queue_grows w1 w2 -> queue_grows w2 w3 -> queue_grows w1 w3.
Proof.
  intros (E1 & (l1 & Q1) & K1 & B1) (E2 & (l2 & Q2) & K2 & B2).
  repeat split; try lia; try congruence.
  exists (l1 ++ l2). rewrite Q2, Q1, app_assoc. reflexivity.
Qed.

Ltac queue_leaf :=
  lazymatch goal with
  | |- queue_grows ?w _ =>
      unfold queue_grows; wsimpl;
      repeat split; try lia;
      first [ exists []; rewrite app_nil_r; reflexivity
            | eexists; reflexivity ]
  end.

Ltac queue_chain := chain queue_grows_refl queue_grows_trans ltac:(idtac; queue_leaf).

Lemma queue_grows_collide (e1 e2 : ref) (w : World) :
  queue_grows w (collide e1 e2 w).
Proof.
  cbv beta delta [collide hit_Player hit_Enemy hit_BossEnemy_first
                  hit_BossEnemy_second].
  queue_chain.
Qed.

Lemma same_at_collide (e1 e2 r : ref) (w : World) :
  r <> e1 -> heap (collide e1 e2 w) !! r = heap w !! r.
Proof.
  intros Hne.
  assert (Hm : forall f w0, heap (modify e1 f w0) !! r = heap w0 !! r).
  { intros f w0. rewrite heap_modify. apply list_lookup_alter_ne. congruence. }
  unfold collide.
  destruct (negb _); [|reflexivity]. destruct (overlaps _ _); [|reflexivity].
  cbv zeta.
  assert (H1 : heap (hit_Player e1 e2 w) !! r = heap w !! r).
  { unfold hit_Player. destruct (is_Player _); [|reflexivity]. cbv zeta.
    destruct (is_Enemy _).
    - destruct (is_BossEnemy _); rewrite ?Hm; reflexivity.
    - destruct (is_BossEnemy _); rewrite ?Hm; reflexivity. }
  rewrite <- H1. generalize (hit_Player e1 e2 w). clear H1. intros w1.
  assert (H2 : heap (hit_Enemy e1 e2 w1) !! r = heap w1 !! r).
  { unfold hit_Enemy. destruct (is_Enemy _); [|reflexivity].
    destruct (_ || _); [|reflexivity]. cbv zeta.
    destruct (isDead _); wsimpl; apply list_lookup_alter_ne; congruence. }
  rewrite <- H2. generalize (hit_Enemy e1 e2 w1). clear H2. intros w2.
  assert (H3 : heap (hit_BossEnemy_first e1 e2 w2) !! r = heap w2 !! r).
  { unfold hit_BossEnemy_first. destruct (is_BossEnemy _); [|reflexivity].
    destruct (is_Projectile _); [|reflexivity]. cbv zeta.
    destruct (isDead _); wsimpl; apply list_lookup_alter_ne; congruence. }
  rewrite <- H3. generalize (hit_BossEnemy_first e1 e2 w2). clear H3. intros w3.
  unfold hit_BossEnemy_second. destruct (is_BossEnemy _); [|reflexivity].
  destruct (is_Projectile _); [|reflexivity]. cbv zeta.
  destruct (isDead _); wsimpl; apply list_lookup_alter_ne; congruence.
Qed.

Lemma collide_projectile_first (e1 e2 : ref) (w : World) :
  is_Projectile (deref w e1) = true -> collide e1 e2 w = w.
Proof.
  intros Hp. unfold collide.
  destruct (negb _); [|reflexivity]. destruct (overlaps _ _); [|reflexivity].
  destruct (class_exclusive (deref w e1)) as (_ & _ & HP & _).
  destruct (HP Hp) as (Hpl & Hbo & Hen). cbv zeta.
  unfold hit_Player. rewrite Hpl.
  unfold hit_Enemy. rewrite Hen.
  unfold hit_BossEnemy_first. rewrite Hbo.
  unfold hit_BossEnemy_second. rewrite Hbo. reflexivity.
Qed.

Lemma projectiles_kept_collide (e1 e2 : ref) (w : World) :
  projectiles_kept w (collide e1 e2 w).
Proof.
  intros r b H Hp. destruct (decide (r = e1)) as [->|Hne].
  - rewrite collide_projectile_first; [exact H|].
    rewrite (deref_lookup w e1 b H). exact Hp.
  - rewrite same_at_collide by exact Hne. exact H.
Qed.

Lemma projectiles_kept_fold {A : Type} (f : World -> A -> World) (l : list A) :
  (forall w a, projectiles_kept w (f w a)) ->
  forall w, projectiles_kept w (fold_left f l w).
Proof.
  intros Hf. induction l as [|a l IH]; intros w; cbn [fold_left].
  - intros r b H _. exact H.
  - intros r b H Hp. apply (IH (f w a)); [|exact Hp]. apply Hf; assumption.
Qed.

Lemma queue_grows_fold {A : Type} (f : World -> A -> World) (l : list A) :
  (forall w a, queue_grows w (f w a)) -> forall w, queue_grows w (fold_left f l w).
Proof.
  intros Hf. induction l as [|a l IH]; intros w; cbn [fold_left].
  - apply queue_grows_refl.
  - eapply queue_grows_trans; [apply Hf|apply IH].
Qed.

(** X5.  A collision pass changes no body except in its health: id,
    position, velocity, size and class stay, and a projectile is not changed
    at all.  The registry is untouched, the pending removals only grow at
    the end, and the kill counters do not go down. *)
Theorem collision_pass_frame (w : World) :
  evolves same_but_health w (Collision_Handler_update w) /\
  projectiles_kept w (Collision_Handler_update w) /\
  queue_grows w (Collision_Handler_update w).
Proof.
  unfold Collision_Handler_update. split; [|split].
  - apply evolves_fold; [apply same_but_health_refl|apply same_but_health_trans|].
    intros w1 e1.
    apply evolves_fold; [apply same_but_health_refl|apply same_but_health_trans|].
    intros w2 e2. apply shape_collide.
  - apply projectiles_kept_fold. intros w1 e1.
    apply projectiles_kept_fold. intros w2 e2. apply projectiles_kept_collide.
  - apply queue_grows_fold. intros w1 e1.
    apply queue_grows_fold. intros w2 e2. apply queue_grows_collide.
Qed.

(** ** The pending removals are empty between ticks *)

Lemma same_queue_refl (w : World) : same_queue w w.
Proof. reflexivity. Qed.

Lemma same_queue_trans (w1 w2 w3 : World) :
  same_queue w1 w2 -> same_queue w2 w3 -> same_queue w1 w3.
Proof. unfold same_queue. congruence. Qed.

Ltac same_queue_leaf :=
  lazymatch goal with
  | |- same_queue _ _ =>
      unfold same_queue, Base.new_Enemy, Math_random;
      rewrite ?new_Body_closed, ?modify_registered; wsimpl; reflexivity
  end.

Ltac same_queue_chain :=
  chain same_queue_refl same_queue_trans ltac:(idtac; same_queue_leaf).

Lemma same_queue_spawn_units (n : nat) (st : Enemy_Spawner * World) :
  same_queue (snd st) (snd (Nat.iter n spawn_unit st)).
Proof.
  induction n as [|n IH]; [apply same_queue_refl|].
  rewrite Nat.iter_succ. eapply same_queue_trans; [exact IH|].
  destruct (Nat.iter n spawn_unit st) as [s w]. cbn [snd].
  destruct (bossSpawn s) eqn:E.
  - rewrite spawn_unit_boss, snd_pair by assumption. same_queue_chain.
  - rewrite spawn_unit_regular, snd_pair by assumption. same_queue_chain.
Qed.

Lemma same_queue_Enemy_Spawner_update (dt : Q) (s : Enemy_Spawner) (w : World) :
  same_queue w (snd (Enemy_Spawner_update dt s w)).
Proof.
  rewrite Enemy_Spawner_update_cases.
  destruct (Qle_bool _ _); [|apply same_queue_refl].
  match goal with |- context [Nat.iter ?n spawn_unit (?s0, w)] =>
    apply (same_queue_spawn_units n (s0, w)) end.
Qed.

Lemma same_queue_Base_Enemy_Spawner_update (dt : Q) (s : Enemy_Spawner) (w : World) :
  same_queue w (snd (Base.Enemy_Spawner_update dt s w)).
Proof.
  unfold Base.Enemy_Spawner_update.
  destruct (Qle_bool _ _); [|apply same_queue_refl].
  cbn [snd enemies]. induction (enemies s) as [|n IH]; [apply same_queue_refl|].
  rewrite Nat.iter_succ. eapply same_queue_trans; [exact IH|].
  generalize (Nat.iter n
    (fun w0 => let w1 := snd (Base.new_Enemy 2 w0) in
               with_enemiesSpawned (S (enemiesSpawned w1)) w1) w).
  intros w0. same_queue_chain.
Qed.

Lemma queue_flush_removals (w : World) :
  queued_entities_for_removal (flush_removals w) = [].
Proof. rewrite flush_removals_closed. reflexivity. Qed.

Lemma queue_Base_start (w : World) : queued_entities_for_removal (Base.start w) = [].
Proof.
  unfold Base.start, Base.new_Player.
  rewrite new_Body_closed, !modify_registered. wsimpl. reflexivity.
Qed.

(** X6.  When [update(delta_time)] returns, the list of pending removals is
    empty, in the full game and in the variant: whatever was queued during
    the tick has been flushed, and the spawner (and the restart of the
    variant) queue nothing. *)
Theorem no_removal_pending_after_update (dt : Q) (w : World) :
  queued_entities_for_removal (update dt w) = [] /\
  queued_entities_for_removal (Base.update dt w) = [].
Proof.
  split.
  - cbv beta delta [update]. cbv zeta.
    match goal with |- context [flush_removals ?w0] =>
      pose proof (queue_flush_removals w0) as Hq; generalize dependent (flush_removals w0)
    end.
    intros w3 Hq.
    destruct (enemy_spawner w3) as [s|]; [|exact Hq].
    pose proof (same_queue_Enemy_Spawner_update dt s w3) as H.
    destruct (Enemy_Spawner_update dt s w3) as [s' w4]. cbn [snd] in H.
    wsimpl. rewrite H. exact Hq.
  - cbv beta delta [Base.update]. cbv zeta.
    match goal with |- context [flush_removals ?w0] =>
      pose proof (queue_flush_removals w0) as Hq; generalize dependent (flush_removals w0)
    end.
    intros w3 Hq.
    assert (Hs : queued_entities_for_removal
                   (match enemy_spawner w3 with
                    | Some s => let '(s0, w4) := Base.Enemy_Spawner_update dt s w3 in
                                with_enemy_spawner (Some s0) w4
                    | None => w3
                    end) = []).
    { destruct (enemy_spawner w3) as [s|]; [|exact Hq].
      pose proof (same_queue_Base_Enemy_Spawner_update dt s w3) as H.
      destruct (Base.Enemy_Spawner_update dt s w3) as [s' w4]. cbn [snd] in H.
      wsimpl. rewrite H. exact Hq. }
    match goal with |- context [player ?w0] => generalize dependent w0 end.
    intros w5 Hs.
    destruct (player w5); [|exact Hs].
    destruct (_ && _); [apply queue_Base_start|exact Hs].
Qed.

(** ** The registry stays in order *)

Lemma length_array_set (i : nat) (v : nat) (a : list (option nat)) :
  length (array_set i v a) = Nat.max (length a) (S i).
Proof.
  unfold array_set. destruct (i <? length a)%nat eqn:E.
  - apply Nat.ltb_lt in E. rewrite length_insert. lia.
  - apply Nat.ltb_ge in E. rewrite !length_app, length_replicate. cbn. lia.
Qed.

Lemma lookup_array_set_same (i : nat) (v : nat) (a : list (option nat)) :
  array_set i v a !! i = Some (Some v).
Proof.
  unfold array_set. destruct (i <? length a)%nat eqn:E.
  - apply Nat.ltb_lt in E. apply list_lookup_insert_eq. exact E.
  - apply Nat.ltb_ge in E.
    rewrite lookup_app_r by exact E.
    rewrite lookup_app_r by (rewrite length_replicate; lia).
    rewrite length_replicate. replace (i - length a - (i - length a))%nat with 0%nat by lia.
    reflexivity.
Qed.

Lemma lookup_array_set_other (i j : nat) (v : nat) (a : list (option nat)) (r : nat) :
  i <> j -> array_set i v a !! j = Some (Some r) -> a !! j = Some (Some r).
Proof.
  intros Hne. unfold array_set. destruct (i <? length a)%nat eqn:E.
  - rewrite list_lookup_insert_ne by exact Hne. auto.
  - apply Nat.ltb_ge in E. intros H.
    destruct (decide (j < length a)%nat) as [Hj|Hj].
    + rewrite lookup_app_l in H by exact Hj. exact H.
    + rewrite lookup_app_r in H by lia.
      destruct (decide (j - length a < i - length a)%nat) as [Hk|Hk].
      * rewrite lookup_app_l in H by (rewrite length_replicate; exact Hk).
        rewrite lookup_replicate_2 in H by exact Hk. discriminate.
      * rewrite lookup_app_r in H by (rewrite length_replicate; lia).
        rewrite length_replicate in H.
        destruct (j - length a - (i - length a))%nat as [|k] eqn:Ek; [lia|].
        discriminate.
Qed.

Lemma keeps_registry_refl (w : World) : keeps_registry w w.
Proof. intros H. exact H. Qed.

Lemma keeps_registry_trans (w1 w2 w3 : World) :
  keeps_registry w1 w2 -> keeps_registry w2 w3 -> keeps_registry w1 w3.
Proof. unfold keeps_registry. auto. Qed.

Lemma registry_ok_same (w w' : World) :
  entities w' = entities w -> heap w' = heap w -> running_id w' = running_id w ->
  keeps_registry w w'.
Proof. intros E H R. unfold keeps_registry, registry_ok. rewrite E, H, R. auto. Qed.

Lemma registry_ok_modify (r : ref) (f : Body -> Body) (w : World) :
  (forall b, id (f b) = id b) -> keeps_registry w (modify r f w).
Proof.
  intros Hf [Hlen Hreg]. split; [exact Hlen|].
  intros i r' Hi. rewrite entities_modify in Hi.
  destruct (Hreg i r' Hi) as (b & Hb & Hid).
  rewrite heap_modify. destruct (decide (r = r')) as [->|Hne].
  - exists (f b). rewrite list_lookup_alter_eq, Hb. split; [reflexivity|].
    rewrite Hf. exact Hid.
  - exists b. rewrite list_lookup_alter_ne by exact Hne. auto.
Qed.

Lemma registry_ok_registered (b : Body) (w : World) :
  id b = running_id w -> keeps_registry w (registered b w).
Proof.
  intros Hid [Hlen Hreg]. split.
  - rewrite entities_registered, running_id_registered, length_array_set. lia.
  - intros i r Hi. rewrite entities_registered in Hi. rewrite heap_registered.
    destruct (decide (running_id w = i)) as [<-|Hne].
    + rewrite lookup_array_set_same in Hi. injection Hi as <-.
      exists b. split; [|exact Hid].
      rewrite lookup_app_r by lia. rewrite Nat.sub_diag. reflexivity.
    + apply lookup_array_set_other in Hi; [|exact Hne].
      destruct (Hreg i r Hi) as (b0 & Hb0 & Hid0).
      exists b0. split; [|exact Hid0]. apply lookup_app_l_Some. exact Hb0.
Qed.

Lemma registry_ok_fresh (b : Body) (w : World) :
  id b = running_id w -> entities w = [] -> registry_ok (registered b w).
Proof.
  intros Hid He. apply registry_ok_registered; [exact Hid|].
  split; [rewrite He; cbn; lia|]. intros i r Hi. rewrite He in Hi. discriminate.
Qed.

Lemma registry_ok_start (w : World) : registry_ok (start w).
Proof.
  rewrite start_closed.
  match goal with |- registry_ok (?f1 _ (?f2 _ (?f3 _ (registered ?b ?w0)))) =>
    apply (registry_ok_same (registered b w0));
      [wsimpl; reflexivity|wsimpl; reflexivity|wsimpl; reflexivity|];
    apply registry_ok_fresh; [|wsimpl; reflexivity]
  end.
  wsimpl. reflexivity.
Qed.

Lemma Base_start_closed (w : World) :
  Base.start w =
  with_collision_handler (Some mkCollision_Handler)
    (with_enemy_spawner (Some (new_Enemy_Spawner 1 0.55))
      (with_player (Some (length (heap w)))
        (registered
           {| id := running_id w;
              position := {| x := width (canvas_size config) / 2;
                             y := height (canvas_size config) - 100 |};
              velocity := {| x := 0; y := 0 |};
              size := {| width := 10; height := 10 |};
              health := 100;
              variant := Player {| move_x := 0; move_y := 0; action_1 := false |}
                                5 (5 * Math_cos_PI_4 w) 0 |}
           (with_enemiesSpawned 0
             (with_timeAlive 0
               (with_enemiesKilled 0
                 (with_queued_entities_for_removal []
                   (with_entities [] w)))))))).
Proof.
  unfold Base.start, Base.new_Player.
  rewrite new_Body_closed, !modify_registered. reflexivity.
Qed.

Lemma registry_ok_Base_start (w : World) : registry_ok (Base.start w).
Proof.
  rewrite Base_start_closed.
  match goal with |- registry_ok (?f1 _ (?f2 _ (?f3 _ (registered ?b ?w0)))) =>
    apply (registry_ok_same (registered b w0));
      [wsimpl; reflexivity|wsimpl; reflexivity|wsimpl; reflexivity|];
    apply registry_ok_fresh; [|wsimpl; reflexivity]
  end.
  wsimpl. reflexivity.
Qed.

Lemma Base_new_Projectile_closed (px py : Q) (w : World) :
  Base.new_Projectile px py w =
  (length (heap w),
   registered {| id := running_id w;
                 position := {| x := px; y := py |};
                 velocity := {| x := 0; y := 0 |};
                 size := {| width := 10; height := 10 |};
                 health := 100;
                 variant := Projectile 10 |} w).
Proof.
  unfold Base.new_Projectile. rewrite new_Body_closed, !modify_registered.
  reflexivity.
Qed.

Lemma Base_new_Enemy_closed (speed : Q) (w : World) :
  Base.new_Enemy speed w =
  (length (heap w),
   with_random_calls (S (random_calls w))
     (registered {| id := running_id w;
                    position := {| x := random_source w (random_calls w) *
                                        width (canvas_size config);
                                   y := -50 |};
                    velocity := {| x := 0; y := 0 |};
                    size := {| width := 10; height := 10 |};
                    health := 100;
                    variant := Enemy speed |} w)).
Proof.
  unfold Base.new_Enemy. rewrite new_Body_closed. unfold Math_random.
  unfold modify, registered. wsimpl. rewrite !alter_app_last. reflexivity.
Qed.

Lemma id_set_time_since_fired (t : Q) (b : Body) :
  id (set_time_since_fired t b) = id b.
Proof. unfold set_time_since_fired. destruct (variant b); reflexivity. Qed.

Ltac registry_leaf :=
  lazymatch goal with
  | |- keeps_registry _ (modify _ _ _) =>
      apply registry_ok_modify; intros ?;
      rewrite ?id_set_time_since_fired; reflexivity
  | |- keeps_registry _ (start _) => intros _; apply registry_ok_start
  | |- keeps_registry _ (Base.start _) => intros _; apply registry_ok_Base_start
  | |- keeps_registry _ (registered _ _) =>
      apply registry_ok_registered; reflexivity
  | |- keeps_registry _ (snd (Base.new_Projectile _ _ _)) =>
      rewrite Base_new_Projectile_closed, snd_pair;
      apply registry_ok_registered; reflexivity
  | |- keeps_registry _ _ => apply registry_ok_same; wsimpl; reflexivity
  end.

Ltac registry_chain :=
  chain keeps_registry_refl keeps_registry_trans ltac:(idtac; registry_leaf).

Lemma keeps_registry_fold {A : Type} (f : World -> A -> World) (l : list A) :
  (forall w a, keeps_registry w (f w a)) ->
  forall w, keeps_registry w (fold_left f l w).
Proof.
  intros Hf. induction l as [|a l IH]; intros w; cbn [fold_left].
  - apply keeps_registry_refl.
  - eapply keeps_registry_trans; [apply Hf|apply IH].
Qed.

Lemma keeps_registry_entity_update (dt : Q) (entity : ref) (w : World) :
  keeps_registry w (entity_update dt entity w).
Proof.
  unfold entity_update. destruct (variant (deref w entity)).
  - cbv beta delta [Player_update Player_move Player_die Player_fire
                    Body_update Body_remove].
    registry_chain.
  - cbv beta delta [Projectile_update Body_update Body_remove]. registry_chain.
  - cbv beta delta [Enemy_update Body_update Body_remove]. registry_chain.
  - cbv beta delta [BossEnemy_update Body_update Body_remove]. registry_chain.
Qed.

Lemma keeps_registry_collide (e1 e2 : ref) (w : World) :
  keeps_registry w (collide e1 e2 w).
Proof.
  cbv beta delta [collide hit_Player hit_Enemy hit_BossEnemy_first
                  hit_BossEnemy_second Body_remove].
  registry_chain.
Qed.

Lemma keeps_registry_Collision_Handler_update (w : World) :
  keeps_registry w (Collision_Handler_update w).
Proof.
  unfold Collision_Handler_update.
  apply keeps_registry_fold. intros w1 e1.
  apply keeps_registry_fold. intros w2 e2. apply keeps_registry_collide.
Qed.

Lemma lookup_deletes_sub (q : list nat) (a : list (option nat)) (i r : nat) :
  fold_left (fun a i => array_delete i a) q a !! i = Some (Some r) ->
  a !! i = Some (Some r).
Proof.
  revert a. induction q as [|j q IH]; intros a H; cbn [fold_left] in H; [exact H|].
  apply IH in H. unfold array_delete in H.
  destruct (decide (j = i)) as [->|Hne].
  - rewrite list_lookup_insert in H. destruct (decide _); [discriminate|exact H].
  - rewrite list_lookup_insert_ne in H by exact Hne. exact H.
Qed.

Lemma keeps_registry_flush_removals (w : World) :
  keeps_registry w (flush_removals w).
Proof.
  intros [Hlen Hreg]. rewrite flush_removals_closed. split.
  - wsimpl. rewrite length_deletes. exact Hlen.
  - intros i r Hi. wsimpl. rewrite entities_with_queued_entities_for_removal,
      entities_with_entities in Hi.
    apply lookup_deletes_sub in Hi. apply Hreg. exact Hi.
Qed.

Lemma keeps_registry_spawn_units (n : nat) (st : Enemy_Spawner * World) :
  keeps_registry (snd st) (snd (Nat.iter n spawn_unit st)).
Proof.
  induction n as [|n IH]; [apply keeps_registry_refl|].
  rewrite Nat.iter_succ. eapply keeps_registry_trans; [exact IH|].
  destruct (Nat.iter n spawn_unit st) as [s w]. cbn [snd].
  destruct (bossSpawn s) eqn:E.
  - rewrite spawn_unit_boss, snd_pair by assumption. registry_chain.
  - rewrite spawn_unit_regular, snd_pair by assumption. registry_chain.
Qed.

Lemma keeps_registry_Enemy_Spawner_update (dt : Q) (s : Enemy_Spawner) (w : World) :
  keeps_registry w (snd (Enemy_Spawner_update dt s w)).
Proof.
  rewrite Enemy_Spawner_update_cases.
  destruct (Qle_bool _ _); [|apply keeps_registry_refl].
  match goal with |- context [Nat.iter ?n spawn_unit (?s0, w)] =>
    apply (keeps_registry_spawn_units n (s0, w)) end.
Qed.

Lemma keeps_registry_update (dt : Q) (w : World) : keeps_registry w (update dt w).
Proof.
  cbv beta delta [update].
  apply keeps_registry_trans with
    (w2 := fold_left (fun w entity => entity_update dt entity w)
                     (Object_values (entities w)) w).
  { apply keeps_registry_fold. intros. apply keeps_registry_entity_update. }
  cbv zeta.
  match goal with |- keeps_registry ?w0 _ => generalize w0 end. intros w1.
  eapply keeps_registry_trans with
    (w2 := match collision_handler w1 with
           | Some _ => Collision_Handler_update w1 | None => w1 end).
  { destruct (collision_handler w1);
      [apply keeps_registry_Collision_Handler_update | apply keeps_registry_refl]. }
  match goal with |- keeps_registry ?w0 _ => generalize w0 end. intros w2.
  eapply keeps_registry_trans; [apply keeps_registry_flush_removals|].
  generalize (flush_removals w2). intros w3.
  destruct (enemy_spawner w3) as [s|]; [|apply keeps_registry_refl].
  pose proof (keeps_registry_Enemy_Spawner_update dt s w3) as H.
  destruct (Enemy_Spawner_update dt s w3) as [s' w4]. cbn [snd] in H.
  eapply keeps_registry_trans; [exact H|]. apply registry_ok_same; reflexivity.
Qed.

Lemma keeps_registry_while (curr : Q) (fuel : nat) (st : Q * World) :
  keeps_registry (snd st)
    (snd (while_loop fuel
            (fun st => Qlt_bool (seconds (update_rate config)) (fst st))
            (loop_body curr) st)).
Proof.
  revert st. induction fuel as [|fuel IH]; intros st; cbn [while_loop].
  - apply keeps_registry_refl.
  - destruct (Qlt_bool _ _); [|apply keeps_registry_refl].
    eapply keeps_registry_trans; [|apply IH].
    destruct st as [d w]. unfold loop_body. cbv zeta. rewrite !snd_pair.
    eapply keeps_registry_trans; [apply keeps_registry_update|].
    destruct (firstGame _); apply registry_ok_same; wsimpl; reflexivity.
Qed.

(** X7.  The registry is in order, that is, it is no longer than the next
    id and each entry [i] refers to a body whose id is [i], in the world that
    [start()] returns; and [update(delta_time)] and [loop(curr_time)] keep it
    in order, through constructions, removals and restarts. *)
Theorem registry_stays_in_order (dt curr : Q) (w : World) :
  registry_ok (start w) /\
  (registry_ok w -> registry_ok (update dt w) /\ registry_ok (loop curr w)).
Proof.
  split; [apply registry_ok_start|]. intros Hw.
  split; [exact (keeps_registry_update dt w Hw)|].
  unfold loop, loop_run. cbv zeta.
  match goal with |- registry_ok (snd (while_loop ?f _ (loop_body ?c) (?d, ?w0))) =>
    apply (keeps_registry_while c f (d, w0)); cbn [snd]
  end.
  destruct (last_time w); revert Hw; apply registry_ok_same; wsimpl; reflexivity.
Qed.

(** ** Leaving the canvas *)

Lemma edge_queue (dt : Q) (this : ref) (w : World) (b : Body) (s : Q) (c : Q -> bool) :
  heap w !! this = Some b ->
  queued_entities_for_removal
    (modify this clip_to_screen
       (Body_update dt this
          (let w1 := modify this (fun b => move_y_by s b) w in
           if c (y (position (deref w1 this))) then Body_remove this w1 else w1))) =
  queued_entities_for_removal w ++
    (if c (y (position b) + s) then [id b] else []) /\
  entities
    (modify this clip_to_screen
       (Body_update dt this
          (let w1 := modify this (fun b => move_y_by s b) w in
           if c (y (position (deref w1 this))) then Body_remove this w1 else w1))) =
  entities w.
Proof.
  intros H. cbv zeta. unfold Body_update.
  rewrite (deref_modify_lookup this _ w b H).
  cbn [move_y_by position with_position y].
  destruct (c (y (position b) + s)).
  - unfold Body_remove. rewrite (deref_modify_lookup this _ w b H). wsimpl.
    split; reflexivity.
  - wsimpl. rewrite app_nil_r. split; reflexivity.
Qed.

(** X8.  One [update] of a projectile, an enemy or a boss queues the body
    for removal exactly when the step by its speed takes it to the edge it
    flies towards: a projectile to the top ([y - speed <= 0]), an enemy or a
    boss to the bottom ([height <= y + speed]).  The test comes before the
    movement by the velocity and the clipping, the id is queued once, and
    the registry keeps the body until the flush. *)
Theorem removal_at_the_edge (dt : Q) (this : ref) (w : World) (b : Body) :
  heap w !! this = Some b ->
  is_Player b = false ->
  queued_entities_for_removal (entity_update dt this w) =
    queued_entities_for_removal w ++
    (if (if is_Projectile b
         then Qle_bool (y (position b) - speed_of b) 0
         else Qle_bool (height (canvas_size config)) (y (position b) + speed_of b))
     then [id b] else []) /\
  entities (entity_update dt this w) = entities w.
Proof.
  intros H Hp. unfold entity_update. rewrite (deref_lookup w this b H).
  unfold is_Player in Hp. unfold is_Projectile, speed_of.
  destruct (variant b) as [c s d t|s|s|s] eqn:Ev; [discriminate| | | ].
  - pose proof (edge_queue dt this w b (- s) (fun v => Qle_bool v 0) H) as E.
    unfold Projectile_update.
    assert (Em : modify this (fun b0 => move_y_by (- speed_of b0) b0) w =
                 modify this (fun b0 => move_y_by (- s) b0) w).
    { unfold modify. f_equal. apply list_alter_ext; [|reflexivity].
      intros b0 Hb0. rewrite H in Hb0. injection Hb0 as <-.
      unfold speed_of. rewrite Ev. reflexivity. }
    rewrite Em. exact E.
  - pose proof (edge_queue dt this w b s
                  (fun v => Qle_bool (height (canvas_size config)) v) H) as E.
    unfold Enemy_update.
    assert (Em : modify this (fun b0 => move_y_by (speed_of b0) b0) w =
                 modify this (fun b0 => move_y_by s b0) w).
    { unfold modify. f_equal. apply list_alter_ext; [|reflexivity].
      intros b0 Hb0. rewrite H in Hb0. injection Hb0 as <-.
      unfold speed_of. rewrite Ev. reflexivity. }
    rewrite Em. exact E.
  - pose proof (edge_queue dt this w b s
                  (fun v => Qle_bool (height (canvas_size config)) v) H) as E.
    unfold BossEnemy_update.
    assert (Em : modify this (fun b0 => move_y_by (speed_of b0) b0) w =
                 modify this (fun b0 => move_y_by s b0) w).
    { unfold modify. f_equal. apply list_alter_ext; [|reflexivity].
      intros b0 Hb0. rewrite H in Hb0. injection Hb0 as <-.
      unfold speed_of. rewrite Ev. reflexivity. }
    rewrite Em. exact E.
Qed.

(** ** The timer of the spawner *)



(** ** The keyboard *)

Lemma add_axis_back (a : Axis) (m : Q) (c : Controller) :
  move_x (add_axis a (- m) (add_axis a m c)) == move_x c /\
  move_y (add_axis a (- m) (add_axis a m c)) == move_y c /\
  action_1 (add_axis a (- m) (add_axis a m c)) = action_1 c.
Proof. destruct a; cbn; repeat split; try reflexivity; ring. Qed.

(** X10.  Pressing a key and releasing it brings both axes of the controller
    back to where they were, and leaves [action_1] off if the key is the
    space bar and as it was otherwise.  A keydown that is a repeat is
    ignored, so holding a key down counts once; an event that is part of a
    composition, or has key code 229, is ignored by both handlers; and so
    is a key that has no mapping. *)
Theorem key_round_trip (event : KeyEvent) (c : Controller) :
  (repeat event = false ->
   move_x (keyup event (keydown event c)) == move_x c /\
   move_y (keyup event (keydown event c)) == move_y c /\
   action_1 (keyup event (keydown event c)) =
     if button_mapping (keyCode event) &&
        negb (isComposing event || (keyCode event =? 229)%nat)
     then false else action_1 c) /\
  (repeat event = true -> keydown event c = c) /\
  (isComposing event || (keyCode event =? 229)%nat = true ->
   keydown event c = c /\ keyup event c = c) /\
  (axis_mapping (keyCode event) = None -> button_mapping (keyCode event) = false ->
   keydown event c = c /\ keyup event c = c).
Proof.
  split; [|split; [|split]].
  - intros Hr. unfold keydown, keyup. rewrite Hr. cbn [orb].
    destruct (isComposing event || (keyCode event =? 229)%nat) eqn:Ei.
    + rewrite andb_false_r. repeat split; reflexivity.
    + rewrite andb_true_r. cbv zeta.
      destruct (axis_mapping (keyCode event)) as [[a m]|];
        destruct (button_mapping (keyCode event));
        cbn [set_action_1 move_x move_y action_1];
        try (repeat split; reflexivity);
        destruct (add_axis_back a m c) as (Hx & Hy & Ha);
        repeat split; try assumption.
      * destruct a; cbn; ring.
      * destruct a; cbn; ring.
  - intros Hr. unfold keydown. rewrite Hr. reflexivity.
  - intros Hi. unfold keydown, keyup.
    apply orb_true_iff in Hi. destruct Hi as [Hi|Hi]; rewrite Hi, ?orb_true_r;
      split; reflexivity.
  - intros Ha Hb. unfold keydown, keyup. rewrite Ha, Hb.
    destruct (repeat event), (isComposing event), (keyCode event =? 229)%nat;
      split; reflexivity.
Qed.

(** ** Death and restart *)

Lemma Object_values_single (n : nat) (r : ref) :
  Object_values (array_set n r []) = [r].
Proof.
  unfold array_set. cbn [length].
  destruct (n <? 0)%nat eqn:E; [apply Nat.ltb_lt in E; lia|].
  cbn [app]. rewrite Nat.sub_0_r. unfold Object_values.
  induction n as [|n IH]; [reflexivity|]. cbn. apply IH. reflexivity.
Qed.

Lemma Player_die_dead (this : ref) (w : World) (b : Body) :
  heap w !! this = Some b -> isDead b = true ->
  Player_die this w =
  start
    (let w1 := Body_remove this w in
     let w2 := if firstGame w1 then with_firstGame false w1 else w1 in
     if (HighScore w2 <? score w2)%Z then with_HighScore (score w2) w2 else w2).
Proof.
  intros H Hd. unfold Player_die. rewrite (deref_lookup w this b H), Hd. reflexivity.
Qed.

Lemma Player_die_restart (this : ref) (w : World) (b : Body) :
  heap w !! this = Some b ->
  (isDead b = false -> Player_die this w = w) /\
  (isDead b = true ->
   let w' := Player_die this w in
   player w' = Some (length (heap w)) /\
   (exists p, heap w' = heap w ++ [p] /\ is_Player p = true /\ health p == 100 /\
              id p = running_id w /\
              controller_of p = {| move_x := 0; move_y := 0; action_1 := false |}) /\
   Object_values (entities w') = [length (heap w)] /\
   queued_entities_for_removal w' = [] /\
   enemiesKilled w' = 0%nat /\ bossesKilled w' = 0%nat /\
   enemiesSpawned w' = 0%nat /\ bossesSpawned w' = 0%nat /\ timeAlive w' = 0 /\
   HighScore w' = Z.max (HighScore w) (score w) /\ firstGame w' = false /\
   score w' = score w /\ loop_count w' = loop_count w /\
   last_time w' = last_time w /\ running_id w' = S (running_id w)).
Proof.
  intros H. split.
  - intros Hd. unfold Player_die. rewrite (deref_lookup w this b H), Hd. reflexivity.
  - intros Hd. cbv zeta. rewrite (Player_die_dead this w b H Hd).
    set (w0 := let w1 := Body_remove this w in
               let w2 := if firstGame w1 then with_firstGame false w1 else w1 in
               if (HighScore w2 <? score w2)%Z then with_HighScore (score w2) w2
               else w2).
    assert (E0 : heap w0 = heap w /\ running_id w0 = running_id w /\
                 score w0 = score w /\ loop_count w0 = loop_count w /\
                 last_time w0 = last_time w /\ firstGame w0 = false /\
                 HighScore w0 = Z.max (HighScore w) (score w)).
    { unfold w0, Body_remove. cbv zeta. wsimpl.
      destruct (firstGame w) eqn:Ef; cbv iota; wsimpl;
        destruct (HighScore w <? score w)%Z eqn:Eh; cbv iota; wsimpl;
        rewrite ?Ef;
        (repeat split; [reflexivity..|]);
        first [apply Z.ltb_lt in Eh|apply Z.ltb_ge in Eh]; lia. }
    destruct E0 as (Eh & Er & Es & Ec & El & Ef & EH).
    clearbody w0. rewrite start_closed. wsimpl.
    rewrite Eh, Er, Es, Ec, El, Ef, EH.
    split; [reflexivity|]. split.
    { eexists. split; [reflexivity|]. repeat split; reflexivity. }
    split; [apply Object_values_single|].
    repeat split; reflexivity.
Qed.

(** X11.  When the player is dead at the second block of its [update], the
    game restarts within that update: the registry is emptied at once and
    holds only a new player, constructed at the end of the heap with the next
    id; the removal that was just queued is dropped with the rest of the
    queue; the kill, spawn and time counters are zero; the high score is the
    larger of the old high score and the score, and [firstGame] is off.  The
    score itself, the tick counter, the clock and the ids are not reset.  A
    player that is alive is left alone. *)
Theorem death_restarts_the_game (this : ref) (w : World) (b : Body) :
  heap w !! this = Some b ->
  (isDead b = false -> Player_die this w = w) /\
  (isDead b = true ->
   let w' := Player_die this w in
   player w' = Some (length (heap w)) /\
   (exists p, heap w' = heap w ++ [p] /\ is_Player p = true /\ health p == 100 /\
              id p = running_id w /\
              controller_of p = {| move_x := 0; move_y := 0; action_1 := false |}) /\
   Object_values (entities w') = [length (heap w)] /\
   queued_entities_for_removal w' = [] /\
   enemiesKilled w' = 0%nat /\ bossesKilled w' = 0%nat /\
   enemiesSpawned w' = 0%nat /\ bossesSpawned w' = 0%nat /\ timeAlive w' = 0 /\
   HighScore w' = Z.max (HighScore w) (score w) /\ firstGame w' = false /\
   score w' = score w /\ loop_count w' = loop_count w /\
   last_time w' = last_time w /\ running_id w' = S (running_id w)).
Proof. exact (Player_die_restart this w b). Qed.

Lemma lookup_map_with_controller (f : Controller -> Controller) (l : list Body)
      (r : ref) (b : Body) :
  l !! r = Some b -> map (with_controller f) l !! r = Some (with_controller f b).
Proof. intros H. rewrite list_lookup_fmap, H. reflexivity. Qed.

(** X12.  A key that is held down while the game restarts turns against the
    new player.  The new player starts with a neutral controller, and the
    keyup of the key that went down before the restart reaches it as well:
    it subtracts the [mod] of the key from an axis that never got it, so
    that after the release of the right key the new player moves left with
    no key pressed. *)
Theorem key_held_across_restart (event : KeyEvent) (this : ref) (w : World) (b : Body) :
  heap w !! this = Some b -> is_Player b = true -> isDead b = true ->
  let w' := window_keyup event (Player_die this (window_keydown event w)) in
  player w' = Some (length (heap w)) /\
  controller_of (deref w' (length (heap w))) =
    keyup event {| move_x := 0; move_y := 0; action_1 := false |} /\
  (keyCode event = 68%nat -> isComposing event = false ->
   move_x (controller_of (deref w' (length (heap w)))) == -1).
Proof.
  intros H Hp Hd. cbv zeta.
  set (w1 := window_keydown event w).
  assert (H1 : heap w1 !! this = Some (with_controller (keydown event) b)).
  { unfold w1, window_keydown. wsimpl. apply lookup_map_with_controller. exact H. }
  assert (Hd1 : isDead (with_controller (keydown event) b) = true).
  { unfold with_controller. destruct (variant b); exact Hd. }
  assert (Hl : length (heap w1) = length (heap w)).
  { unfold w1, window_keydown. wsimpl. apply length_map. }
  destruct (Player_die_restart this w1 _ H1) as [_ Hdead].
  specialize (Hdead Hd1). cbv zeta in Hdead.
  destruct Hdead as (Hpl & (p & Hh & Hpp & _ & _ & Hc) & _).
  rewrite Hl in Hpl.
  assert (Hnew : controller_of
            (deref (window_keyup event (Player_die this w1)) (length (heap w))) =
          keyup event {| move_x := 0; move_y := 0; action_1 := false |}).
  { erewrite deref_lookup.
    2:{ unfold window_keyup. wsimpl. apply lookup_map_with_controller.
        rewrite Hh, lookup_app_r by (rewrite Hl; lia).
        rewrite Hl, Nat.sub_diag. reflexivity. }
    unfold with_controller, controller_of in *. unfold is_Player in Hpp.
    destruct (variant p); [|discriminate..]. cbn. rewrite Hc. reflexivity. }
  split; [unfold window_keyup; wsimpl; exact Hpl|]. split; [exact Hnew|].
  intros Hk Hi. rewrite Hnew. unfold keyup. rewrite Hk, Hi. vm_compute. reflexivity.
Qed.

(** ** The theorems at concrete worlds *)


Lemma update_clips_to_screen_witness :
  heap armed_player_scene !! 0%nat = Some (deref armed_player_scene 0%nat) /\
  exists b',
    heap (entity_update (1 / 60) 0%nat armed_player_scene) !! 0%nat = Some b' /\
    in_bounds (position b').
Proof.
  assert (H : heap armed_player_scene !! 0%nat = Some (deref armed_player_scene 0%nat))
    by (vm_compute; reflexivity).
  split; [exact H|].
  exact (update_clips_to_screen (1 / 60) 0%nat armed_player_scene _ H).
Defined.

Lemma fire_control_witness :
  heap armed_player_scene !! 0%nat = Some (deref armed_player_scene 0%nat) /\
  is_Player (deref armed_player_scene 0%nat) = true /\
  fires (1 / 60) (deref armed_player_scene 0%nat) = true /\
  exists b' p,
    heap (Player_update (1 / 60) 0%nat armed_player_scene) !! 0%nat = Some b' /\
    time_since_fired_of b' =
      (if fires (1 / 60) (deref armed_player_scene 0%nat) then 0
       else time_since_fired_of (deref armed_player_scene 0%nat) + 1 / 60) /\
    List.filter is_Projectile
      (allocated armed_player_scene (Player_update (1 / 60) 0%nat armed_player_scene)) =
      (if fires (1 / 60) (deref armed_player_scene 0%nat) then [p] else []) /\
    position p = position (moved (deref armed_player_scene 0%nat)).
Proof.
  assert (H : heap armed_player_scene !! 0%nat = Some (deref armed_player_scene 0%nat))
    by (vm_compute; reflexivity).
  assert (Hp : is_Player (deref armed_player_scene 0%nat) = true) by (vm_compute; reflexivity).
  split; [exact H|]. split; [exact Hp|]. split; [vm_compute; reflexivity|].
  exact (proj1 (proj2 (fire_control (1 / 60) 0%nat armed_player_scene _ H Hp))).
Defined.

Lemma diagonal_policy_witness :
  heap armed_player_scene !! 0%nat = Some (deref armed_player_scene 0%nat) /\
  is_Player (deref armed_player_scene 0%nat) = true /\
  exists b',
    heap (Player_update (1 / 60) 0%nat armed_player_scene) !! 0%nat = Some b' /\
    position b' =
      position (clip_to_screen
                  (advance (1 / 60) (moved (deref armed_player_scene 0%nat)))) /\
    speed_of b' = speed_of (deref armed_player_scene 0%nat) /\
    diag_speed_of b' = diag_speed_of (deref armed_player_scene 0%nat).
Proof.
  assert (H : heap armed_player_scene !! 0%nat = Some (deref armed_player_scene 0%nat))
    by (vm_compute; reflexivity).
  assert (Hp : is_Player (deref armed_player_scene 0%nat) = true) by (vm_compute; reflexivity).
  split; [exact H|]. split; [exact Hp|].
  exact (proj1 (proj2 (proj2
    (diagonal_policy (1 / 60) 0%nat armed_player_scene _ H Hp)))).
Defined.

Lemma removal_two_phase_witness :
  queued_entities_for_removal boss_scene = [] /\
  entities boss_scene !! id (deref boss_scene 1%nat) = Some (Some 1%nat) /\
  S (length (Object_values
       (entities (flush_removals
          (Body_remove 1%nat (Body_remove 1%nat boss_scene)))))) =
  length (Object_values (entities boss_scene)).
Proof.
  assert (Hq : queued_entities_for_removal boss_scene = [])
    by (vm_compute; reflexivity).
  assert (He : entities boss_scene !! id (deref boss_scene 1%nat) = Some (Some 1%nat))
    by (vm_compute; reflexivity).
  split; [exact Hq|]. split; [exact He|].
  exact (proj2 (proj2 (proj2 (removal_two_phase 1%nat boss_scene))) 1%nat Hq He).
Defined.

Lemma collision_deterministic_witness :
  collision_state boss_scene =
    collision_state (with_loop_count 7 (with_random_calls 3 boss_scene)) /\
  collision_state (Collision_Handler_update boss_scene) =
    collision_state
      (Collision_Handler_update (with_loop_count 7 (with_random_calls 3 boss_scene))).
Proof.
  assert (H : collision_state boss_scene =
              collision_state (with_loop_count 7 (with_random_calls 3 boss_scene)))
    by (vm_compute; reflexivity).
  split; [exact H|].
  exact (proj1 (proj1
    (collision_deterministic boss_scene
       (with_loop_count 7 (with_random_calls 3 boss_scene)) H))).
Defined.

Lemma vertical_step_ignores_delta_time_witness :
  heap boss_scene !! 1%nat = Some (deref boss_scene 1%nat) /\
  is_Player (deref boss_scene 1%nat) = false /\
  x (velocity (deref boss_scene 1%nat)) == 0 /\
  y (velocity (deref boss_scene 1%nat)) == 0 /\
  exists b',
    heap (entity_update (1 / 60) 1%nat boss_scene) !! 1%nat = Some b' /\
    x (position b') ==
      Math_min (Math_max 0 (x (position (deref boss_scene 1%nat))))
               (width (canvas_size config)) /\
    y (position b') ==
      Math_min (Math_max 0 (y (position (deref boss_scene 1%nat)) +
                            vertical_step (deref boss_scene 1%nat)))
               (height (canvas_size config)).
Proof.
  assert (H : heap boss_scene !! 1%nat = Some (deref boss_scene 1%nat))
    by (vm_compute; reflexivity).
  assert (Hp : is_Player (deref boss_scene 1%nat) = false) by (vm_compute; reflexivity).
  assert (Hx : x (velocity (deref boss_scene 1%nat)) == 0) by (vm_compute; reflexivity).
  assert (Hy : y (velocity (deref boss_scene 1%nat)) == 0) by (vm_compute; reflexivity).
  split; [exact H|]. split; [exact Hp|]. split; [exact Hx|]. split; [exact Hy|].
  exact (vertical_step_ignores_delta_time (1 / 60) 1%nat boss_scene _ H Hp Hx Hy).
Defined.

Lemma player_is_hit_witness :
  0%nat <> 1%nat /\
  heap contact_scene !! 0%nat = Some (deref contact_scene 0%nat) /\
  heap contact_scene !! 1%nat = Some (deref contact_scene 1%nat) /\
  is_Player (deref contact_scene 0%nat) = true /\
  overlaps (deref contact_scene 0%nat) (deref contact_scene 1%nat) = true /\
  collide 0%nat 1%nat contact_scene =
    if is_Enemy (deref contact_scene 1%nat)
    then modify 0%nat (damage 25) contact_scene
    else if is_BossEnemy (deref contact_scene 1%nat)
         then modify 0%nat (damage 100) contact_scene
         else contact_scene.
Proof.
  assert (Hne : 0%nat <> 1%nat) by lia.
  assert (H1 : heap contact_scene !! 0%nat = Some (deref contact_scene 0%nat))
    by (vm_compute; reflexivity).
  assert (H2 : heap contact_scene !! 1%nat = Some (deref contact_scene 1%nat))
    by (vm_compute; reflexivity).
  assert (Hp : is_Player (deref contact_scene 0%nat) = true) by (vm_compute; reflexivity).
  assert (Ho : overlaps (deref contact_scene 0%nat) (deref contact_scene 1%nat) = true)
    by (vm_compute; reflexivity).
  split; [exact Hne|]. split; [exact H1|]. split; [exact H2|].
  split; [exact Hp|]. split; [exact Ho|].
  exact (player_is_hit 0%nat 1%nat contact_scene _ _ Hne H1 H2 Hp Ho).
Defined.

Lemma enemy_is_hit_witness :
  1%nat <> 2%nat /\
  heap contact_scene !! 1%nat = Some (deref contact_scene 1%nat) /\
  heap contact_scene !! 2%nat = Some (deref contact_scene 2%nat) /\
  is_Enemy (deref contact_scene 1%nat) = true /\
  is_Player (deref contact_scene 2%nat) || is_Projectile (deref contact_scene 2%nat) =
    true /\
  overlaps (deref contact_scene 1%nat) (deref contact_scene 2%nat) = true /\
  collide 1%nat 2%nat contact_scene =
    if Qle_bool (health (deref contact_scene 1%nat) - 100) 0
    then with_enemiesKilled (S (enemiesKilled contact_scene))
           (with_queued_entities_for_removal
              (queued_entities_for_removal contact_scene ++
               [id (deref contact_scene 1%nat)])
              (modify 1%nat (damage 100) contact_scene))
    else modify 1%nat (damage 100) contact_scene.
Proof.
  assert (Hne : 1%nat <> 2%nat) by lia.
  assert (H1 : heap contact_scene !! 1%nat = Some (deref contact_scene 1%nat))
    by (vm_compute; reflexivity).
  assert (H2 : heap contact_scene !! 2%nat = Some (deref contact_scene 2%nat))
    by (vm_compute; reflexivity).
  assert (He : is_Enemy (deref contact_scene 1%nat) = true) by (vm_compute; reflexivity).
  assert (Hb : is_Player (deref contact_scene 2%nat) ||
               is_Projectile (deref contact_scene 2%nat) = true)
    by (vm_compute; reflexivity).
  assert (Ho : overlaps (deref contact_scene 1%nat) (deref contact_scene 2%nat) = true)
    by (vm_compute; reflexivity).
  split; [exact Hne|]. split; [exact H1|]. split; [exact H2|].
  split; [exact He|]. split; [exact Hb|]. split; [exact Ho|].
  exact (enemy_is_hit 1%nat 2%nat contact_scene _ _ Hne H1 H2 He Hb Ho).
Defined.

Lemma pairs_without_rule_witness :
  heap contact_scene !! 2%nat = Some (deref contact_scene 2%nat) /\
  heap contact_scene !! 1%nat = Some (deref contact_scene 1%nat) /\
  is_Projectile (deref contact_scene 2%nat) = true /\
  collide 2%nat 1%nat contact_scene = contact_scene.
Proof.
  assert (H1 : heap contact_scene !! 2%nat = Some (deref contact_scene 2%nat))
    by (vm_compute; reflexivity).
  assert (H2 : heap contact_scene !! 1%nat = Some (deref contact_scene 1%nat))
    by (vm_compute; reflexivity).
  assert (Hp : is_Projectile (deref contact_scene 2%nat) = true)
    by (vm_compute; reflexivity).
  split; [exact H1|]. split; [exact H2|]. split; [exact Hp|].
  exact (pairs_without_rule 2%nat 1%nat contact_scene _ _ H1 H2 (or_introl Hp)).
Defined.

Lemma registry_stays_in_order_witness :
  registry_ok (start host_World) /\
  registry_ok (update (1 / 60) (start host_World)) /\
  registry_ok (loop 50 (start host_World)).
Proof.
  assert (H : registry_ok (start host_World))
    by exact (proj1 (registry_stays_in_order 0 0 host_World)).
  split; [exact H|].
  exact (proj2 (registry_stays_in_order (1 / 60) 50 (start host_World)) H).
Defined.

Lemma removal_at_the_edge_witness :
  heap boss_scene !! 1%nat = Some (deref boss_scene 1%nat) /\
  is_Player (deref boss_scene 1%nat) = false /\
  entities (entity_update (1 / 60) 1%nat boss_scene) = entities boss_scene.
Proof.
  assert (H : heap boss_scene !! 1%nat = Some (deref boss_scene 1%nat))
    by (vm_compute; reflexivity).
  assert (Hp : is_Player (deref boss_scene 1%nat) = false) by (vm_compute; reflexivity).
  split; [exact H|]. split; [exact Hp|].
  exact (proj2 (removal_at_the_edge (1 / 60) 1%nat boss_scene _ H Hp)).
Defined.


Lemma key_round_trip_witness :
  repeat key_right = false /\
  move_x (keyup key_right
            (keydown key_right {| move_x := 0; move_y := 0; action_1 := false |})) == 0.
Proof.
  assert (H : repeat key_right = false) by reflexivity.
  split; [exact H|].
  exact (proj1 (proj1
    (key_round_trip key_right {| move_x := 0; move_y := 0; action_1 := false |}) H)).
Defined.

Lemma death_restarts_the_game_witness :
  heap dead_player_scene !! 0%nat = Some (deref dead_player_scene 0%nat) /\
  isDead (deref dead_player_scene 0%nat) = true /\
  player (Player_die 0%nat dead_player_scene) = Some (length (heap dead_player_scene)).
Proof.
  assert (H : heap dead_player_scene !! 0%nat = Some (deref dead_player_scene 0%nat))
    by (vm_compute; reflexivity).
  assert (Hd : isDead (deref dead_player_scene 0%nat) = true)
    by (vm_compute; reflexivity).
  split; [exact H|]. split; [exact Hd|].
  exact (proj1 (proj2 (death_restarts_the_game 0%nat dead_player_scene _ H) Hd)).
Defined.

Lemma key_held_across_restart_witness :
  heap dead_player_scene !! 0%nat = Some (deref dead_player_scene 0%nat) /\
  is_Player (deref dead_player_scene 0%nat) = true /\
  isDead (deref dead_player_scene 0%nat) = true /\
  keyCode key_right = 68%nat /\ isComposing key_right = false /\
  move_x (controller_of
            (deref (window_keyup key_right
                      (Player_die 0%nat (window_keydown key_right dead_player_scene)))
                   (length (heap dead_player_scene)))) == -1.
Proof.
  assert (H : heap dead_player_scene !! 0%nat = Some (deref dead_player_scene 0%nat))
    by (vm_compute; reflexivity).
  assert (Hp : is_Player (deref dead_player_scene 0%nat) = true)
    by (vm_compute; reflexivity).
  assert (Hd : isDead (deref dead_player_scene 0%nat) = true)
    by (vm_compute; reflexivity).
  split; [exact H|]. split; [exact Hp|]. split; [exact Hd|].
  split; [reflexivity|]. split; [reflexivity|].
  exact (proj2 (proj2
    (key_held_across_restart key_right 0%nat dead_player_scene _ H Hp Hd))
    eq_refl eq_refl).
Defined.
